(** * The DCP consumer of ep-engine (src/dcp/consumer.cc)

    A shallow embedding of [DcpConsumer] and of [RollbackTask::run], and the
    properties of the inbound dispatch, the outbound pump [step], the ready
    list, response handling and rollback.

    The consumer is stateful and calls into objects whose code lives in other
    files (the passive stream, flow control, the engine and its store, the
    extended meta data parser).  The consumer's own fields are a record, the
    functions of consumer.cc are actions of a state-and-fault monad over that
    record, and the foreign objects are abstract: an interface
    ([Collaborators]) gives their state types and what each call returns.
    Every call that leaves consumer.cc is appended to a log, so that "credits
    exactly once" or "delivers no message" are statements about that log. *)

From Stdlib Require Import ZArith List String Bool Lia DecimalString.
From stdpp Require Import base option list gmap strings.

Local Open Scope Z_scope.

(** ** Machine integers *)

(** [uint32_t] arithmetic wraps modulo 2^32. *)
Definition wrap32 (z : Z) : Z := z mod 2 ^ 32.

(** A partition id is a [uint16_t]; it is only ever compared and used as an
    index. *)
Abbreviation vbid := N (only parsing).

Abbreviation Bytes := (list Byte.byte) (only parsing).

(** ** Enumerations *)

(** [ENGINE_ERROR_CODE] (memcached/types.h). *)
Inductive ENGINE_ERROR_CODE : Type :=
  | ENGINE_SUCCESS | ENGINE_KEY_ENOENT | ENGINE_KEY_EEXISTS | ENGINE_ENOMEM
  | ENGINE_NOT_STORED | ENGINE_EINVAL | ENGINE_ENOTSUP | ENGINE_EWOULDBLOCK
  | ENGINE_E2BIG | ENGINE_WANT_MORE | ENGINE_DISCONNECT | ENGINE_EACCESS
  | ENGINE_NOT_MY_VBUCKET | ENGINE_TMPFAIL | ENGINE_ERANGE | ENGINE_ROLLBACK
  | ENGINE_NO_BUCKET | ENGINE_EBUSY | ENGINE_FAILED.

#[global] Instance ENGINE_ERROR_CODE_eq_dec : EqDecision ENGINE_ERROR_CODE.
Proof. solve_decision. Defined.

(** The enumerators' values, needed where the code compares a wire status
    with an engine code ([status == ENGINE_SUCCESS]). *)
Definition ENGINE_ERROR_CODE_value (e : ENGINE_ERROR_CODE) : Z :=
  match e with
  | ENGINE_SUCCESS => 0 | ENGINE_KEY_ENOENT => 1 | ENGINE_KEY_EEXISTS => 2
  | ENGINE_ENOMEM => 3 | ENGINE_NOT_STORED => 4 | ENGINE_EINVAL => 5
  | ENGINE_ENOTSUP => 6 | ENGINE_EWOULDBLOCK => 7 | ENGINE_E2BIG => 8
  | ENGINE_WANT_MORE => 9 | ENGINE_DISCONNECT => 10 | ENGINE_EACCESS => 11
  | ENGINE_NOT_MY_VBUCKET => 12 | ENGINE_TMPFAIL => 13 | ENGINE_ERANGE => 14
  | ENGINE_ROLLBACK => 15 | ENGINE_NO_BUCKET => 16 | ENGINE_EBUSY => 17
  | ENGINE_FAILED => 255
  end.

Inductive vbucket_state_t : Type :=
  | vbucket_state_active | vbucket_state_replica
  | vbucket_state_pending | vbucket_state_dead.

#[global] Instance vbucket_state_t_eq_dec : EqDecision vbucket_state_t.
Proof. solve_decision. Defined.

Inductive stream_state_t : Type :=
  | STREAM_PENDING | STREAM_BACKFILLING | STREAM_IN_MEMORY
  | STREAM_TAKEOVER_SEND | STREAM_TAKEOVER_WAIT | STREAM_READING | STREAM_DEAD.

#[global] Instance stream_state_t_eq_dec : EqDecision stream_state_t.
Proof. solve_decision. Defined.

Inductive end_stream_status_t : Type :=
  | END_STREAM_OK | END_STREAM_CLOSED | END_STREAM_STATE
  | END_STREAM_DISCONNECTED | END_STREAM_SLOW.

Inductive dcp_event_t : Type :=
  | DCP_MUTATION | DCP_DELETION | DCP_EXPIRATION | DCP_FLUSH | DCP_SET_VBUCKET
  | DCP_STREAM_REQ | DCP_STREAM_END | DCP_SNAPSHOT_MARKER | DCP_ADD_STREAM.

(** Opcodes and the one status consumer.cc names (memcached's
    protocol_binary.h). *)
Definition PROTOCOL_BINARY_CMD_DCP_STREAM_REQ : Z := 83.
Definition PROTOCOL_BINARY_CMD_DCP_BUFFER_ACKNOWLEDGEMENT : Z := 93.
Definition PROTOCOL_BINARY_CMD_DCP_CONTROL : Z := 94.
Definition PROTOCOL_BINARY_RESPONSE_ROLLBACK : Z := 35.

(** ** Messages *)

(** What [new Item(key, nkey, flags, exptime, value, nvalue, ..., cas,
    bySeqno, vbucket, revSeqno)] stores; [setDeleted] sets the last field. *)
Record Item : Type := mkItem {
  item_key : Bytes; item_nkey : Z; item_flags : Z; item_exptime : Z;
  item_value : Bytes; item_nvalue : Z; item_datatype : option Z;
  item_cas : Z; item_bySeqno : Z; item_vbucket : vbid; item_revSeqno : Z;
  item_deleted : bool }.

Definition setDeleted (i : Item) : Item :=
  {| item_key := item_key i; item_nkey := item_nkey i;
     item_flags := item_flags i; item_exptime := item_exptime i;
     item_value := item_value i; item_nvalue := item_nvalue i;
     item_datatype := item_datatype i; item_cas := item_cas i;
     item_bySeqno := item_bySeqno i; item_vbucket := item_vbucket i;
     item_revSeqno := item_revSeqno i; item_deleted := true |}.

(** [ExtendedMetaData(meta, nmeta)] keeps the first [nmeta] bytes of
    [meta]. *)
Definition ExtendedMetaData : Type := Bytes.

Definition ExtendedMetaData_new (meta : Bytes) (nmeta : Z) : ExtendedMetaData :=
  take (Z.to_nat nmeta) meta.

(** The classes derived from [DcpResponse] that consumer.cc builds or
    receives, as a tagged variant. *)
Inductive DcpResponse : Type :=
  | StreamRequest (vb : vbid)
      (opaque flags start_seqno end_seqno vb_uuid snap_start snap_end : Z)
  | AddStreamResponse (opaque stream_opaque status : Z)
  | SnapshotMarker (opaque : Z) (vb : vbid) (start_seqno end_seqno flags : Z)
  | SnapshotMarkerResponse (opaque status : Z)
  | SetVBucketState (opaque : Z) (vb : vbid) (state : vbucket_state_t)
  | SetVBucketStateResponse (opaque status : Z)
  | StreamEndResponse (opaque flags : Z) (vb : vbid)
  | MutationResponse (item : Item) (opaque : Z)
      (emd : option ExtendedMetaData).

(** The event tag each class passes to the [DcpResponse] constructor. *)
Definition getEvent (r : DcpResponse) : dcp_event_t :=
  match r with
  | StreamRequest _ _ _ _ _ _ _ _ => DCP_STREAM_REQ
  | AddStreamResponse _ _ _ => DCP_ADD_STREAM
  | SnapshotMarker _ _ _ _ _ => DCP_SNAPSHOT_MARKER
  | SnapshotMarkerResponse _ _ => DCP_SNAPSHOT_MARKER
  | SetVBucketState _ _ _ => DCP_SET_VBUCKET
  | SetVBucketStateResponse _ _ => DCP_SET_VBUCKET
  | StreamEndResponse _ _ _ => DCP_STREAM_END
  | MutationResponse i _ _ =>
      if item_deleted i then DCP_DELETION else DCP_MUTATION
  end.

(** The [protocol_binary_response_header] handed to [handleResponse], with
    its fields already in host order, followed by the body bytes.  The host
    hands over complete packets, so the header's [bodylen] is the number of
    body bytes. *)
Record protocol_binary_response : Type := mkResponse {
  resp_opcode : Z; resp_opaque : Z; resp_status : Z; resp_body : Bytes }.

Definition resp_bodylen (r : protocol_binary_response) : Z :=
  Z.of_nat (length (resp_body r)).

(** [memcpy] of eight body bytes followed by [ntohll]: the big-endian
    value of the first eight bytes. *)
Definition ntohll_bytes (body : Bytes) : Z :=
  fold_left (fun acc b => acc * 256 + Z.of_N (Byte.to_N b)) (take 8 body) 0.

(** ** Engine-side data *)

Record snapshot_info_t : Type := mkSnapshotInfo {
  info_start : Z; info_range_start : Z; info_range_end : Z }.

(** What the consumer reads from a [VBucket]: its state, the checkpoint
    manager's snapshot info, the uuid of the latest failover entry and the
    high seqno. *)
Record VBucket : Type := mkVBucket {
  vb_state : vbucket_state_t;
  vb_snapshotInfo : snapshot_info_t;
  vb_latest_uuid : Z;
  vb_highSeqno : Z }.

Record Configuration : Type := mkConfiguration {
  getMaxVbuckets : nat;
  getDcpNoopInterval : Z;
  isDcpEnableNoop : bool;
  isDcpValueCompressionEnabled : bool }.

(** The [dcp_message_producers] table of the host.  The cookie argument is
    the connection itself and is left out. *)
Record dcp_message_producers : Type := mkProducers {
  stream_req : Z -> vbid -> Z -> Z -> Z -> Z -> Z -> Z -> ENGINE_ERROR_CODE;
  add_stream_rsp : Z -> Z -> Z -> ENGINE_ERROR_CODE;
  set_vbucket_state_rsp : Z -> Z -> ENGINE_ERROR_CODE;
  marker_rsp : Z -> Z -> ENGINE_ERROR_CODE;
  control : Z -> string -> string -> ENGINE_ERROR_CODE }.

Record RollbackTask : Type := mkRollbackTask {
  task_opaque : Z; task_vbid : vbid; task_rollbackSeqno : Z }.

(** ** Calls that leave consumer.cc *)

Inductive Call : Type :=
  | FlowControl_incrFreedBytes (bytes : Z)
  | FlowControl_handleFlowCtl (ret : ENGINE_ERROR_CODE)
  | ExecutorPool_schedule_Processer
  | ExecutorPool_wake
  | ExecutorPool_schedule_RollbackTask (task : RollbackTask)
  | Stream_messageReceived (vb : vbid) (resp : DcpResponse)
      (ret : ENGINE_ERROR_CODE)
  | Stream_next (vb : vbid) (op : option DcpResponse)
  | Stream_setDead (vb : vbid) (status : end_stream_status_t)
  | Stream_acceptStream (vb : vbid) (status add_opaque : Z)
  | Stream_reconnectStream (vb : vbid) (opaque start_seqno : Z)
  | EpStore_rollback (vb : vbid) (rollbackSeqno : Z) (ret : ENGINE_ERROR_CODE)
  | FailoverTable_replaceFailoverLog (vb : vbid) (body : Bytes)
  | EpStore_scheduleVBSnapshot (vb : vbid)
  | ConnMap_notifyPausedConnection (schedule : bool)
  | Producers_control (opaque : Z) (key value : string)
      (ret : ENGINE_ERROR_CODE)
  | Producers_add_stream_rsp (opaque stream_opaque status : Z)
      (ret : ENGINE_ERROR_CODE)
  | Producers_stream_req (opaque : Z) (vb : vbid)
      (flags start_seqno end_seqno vb_uuid snap_start snap_end : Z)
      (ret : ENGINE_ERROR_CODE)
  | Producers_set_vbucket_state_rsp (opaque status : Z)
      (ret : ENGINE_ERROR_CODE)
  | Producers_marker_rsp (opaque status : Z) (ret : ENGINE_ERROR_CODE).

(** The bytes handed to [FlowControl::incrFreedBytes], call by call. *)
Definition credits (cs : list Call) : list Z :=
  omap (fun c => match c with
                 | FlowControl_incrFreedBytes n => Some n
                 | _ => None
                 end) cs.

(** The messages handed to [PassiveStream::messageReceived]. *)
Definition deliveries (cs : list Call) : list (vbid * DcpResponse) :=
  omap (fun c => match c with
                 | Stream_messageReceived vb r _ => Some (vb, r)
                 | _ => None
                 end) cs.

(** ** The objects consumer.cc calls into

    Their classes are declared and defined in files that are not part of
    consumer.cc (dcp/stream.h, dcp/flow-control.h, ep_engine.h, ep.h,
    ext_meta_parser.h, dcp/response.h).  Each is a state type and, per
    method the consumer calls, a function from the state to the method's
    result and the new state.  A stream method that can call back
    [DcpConsumer::notifyStreamReady] for its own partition says so with a
    boolean. *)
Class Collaborators : Type := {
  (* EventuallyPersistentEngine and its store *)
  Engine : Type;
  getVBucket : Engine -> vbid -> option VBucket;
  rollback : Engine -> vbid -> Z -> ENGINE_ERROR_CODE * Engine;
  replaceFailoverLog : Engine -> vbid -> Bytes -> Engine;
  (* PassiveStream *)
  PassiveStream : Type;
  PassiveStream_new :
    Z -> Z -> vbid -> Z -> Z -> Z -> Z -> Z -> Z -> PassiveStream;
  getOpaque : PassiveStream -> Z;
  isActive : PassiveStream -> bool;
  getState : PassiveStream -> stream_state_t;
  messageReceived :
    PassiveStream -> DcpResponse -> Engine ->
    ENGINE_ERROR_CODE * bool * PassiveStream * Engine;
  next : PassiveStream -> option DcpResponse * PassiveStream;
  setDead : PassiveStream -> end_stream_status_t -> Z * PassiveStream;
  acceptStream : PassiveStream -> Z -> Z -> bool * PassiveStream;
  reconnectStream : PassiveStream -> VBucket -> Z -> Z -> bool * PassiveStream;
  (* FlowControl *)
  FlowControl : Type;
  FlowControl_new : Engine -> FlowControl;
  incrFreedBytes : FlowControl -> Z -> FlowControl;
  handleFlowCtl :
    FlowControl -> dcp_message_producers -> ENGINE_ERROR_CODE * FlowControl;
  (* ExtendedMetaData::getStatus *)
  getStatus : ExtendedMetaData -> ENGINE_ERROR_CODE;
  (* the baseMsgBytes constants of dcp/response.h *)
  mutationBaseMsgBytes : Z;
  deletionBaseMsgBytes : Z;
  StreamEndResponse_baseMsgBytes : Z;
  SnapshotMarker_baseMsgBytes : Z;
  SetVBucketState_baseMsgBytes : Z }.

Section Consumer.
Context `{Collaborators}.

(** ** The consumer's state *)

(** The fields of [DcpConsumer] that the functions below read or write,
    with those it inherits from [ConnHandler] ([disconnect], [paused],
    [lastWalkTime]) first.  [streams] is the array allocated with
    [getMaxVbuckets] slots; a null slot is [None]. *)
Record DcpConsumer : Type := mkDcpConsumer {
  disconnect : bool; paused : bool; lastWalkTime : Z;
  opaqueCounter : Z; itemsToProcess : bool;
  lastNoopTime : Z; noopInterval : Z;
  pendingEnableNoop : bool; pendingSendNoopInterval : bool;
  pendingSetPriority : bool; pendingEnableExtMetaData : bool;
  pendingEnableValueCompression : bool; pendingSupportCursorDropping : bool;
  flowControl : FlowControl;
  streams : list (option PassiveStream);
  ready : list vbid;
  opaqueMap_ : gmap Z (Z * vbid) }.

(** The consumer together with what surrounds it: the engine, the clock
    read by [ep_current_time], the outcomes of the coming allocations
    ([true]: the [new] succeeds; past the end of the list every [new]
    succeeds), the statistics counter [rollbackCount], and the log of the
    calls made so far, oldest first. *)
Record World : Type := mkWorld {
  cons : DcpConsumer;
  engine_ : Engine;
  clock : Z;
  heap : list bool;
  rollbackCount : Z;
  calls : list Call }.

Definition with_cons (w : World) (c : DcpConsumer) : World :=
  {| cons := c; engine_ := engine_ w; clock := clock w; heap := heap w;
     rollbackCount := rollbackCount w; calls := calls w |}.

Definition with_engine (w : World) (e : Engine) : World :=
  {| cons := cons w; engine_ := e; clock := clock w; heap := heap w;
     rollbackCount := rollbackCount w; calls := calls w |}.

Definition with_clock (w : World) (t : Z) : World :=
  {| cons := cons w; engine_ := engine_ w; clock := t; heap := heap w;
     rollbackCount := rollbackCount w; calls := calls w |}.

Definition with_heap (w : World) (h : list bool) : World :=
  {| cons := cons w; engine_ := engine_ w; clock := clock w; heap := h;
     rollbackCount := rollbackCount w; calls := calls w |}.

Definition with_rollbackCount (w : World) (n : Z) : World :=
  {| cons := cons w; engine_ := engine_ w; clock := clock w; heap := heap w;
     rollbackCount := n; calls := calls w |}.

Definition with_calls (w : World) (l : list Call) : World :=
  {| cons := cons w; engine_ := engine_ w; clock := clock w; heap := heap w;
     rollbackCount := rollbackCount w; calls := l |}.

Definition with_paused (c : DcpConsumer) (b : bool) : DcpConsumer :=
  {| disconnect := disconnect c; paused := b; lastWalkTime := lastWalkTime c;
     opaqueCounter := opaqueCounter c; itemsToProcess := itemsToProcess c;
     lastNoopTime := lastNoopTime c; noopInterval := noopInterval c;
     pendingEnableNoop := pendingEnableNoop c;
     pendingSendNoopInterval := pendingSendNoopInterval c;
     pendingSetPriority := pendingSetPriority c;
     pendingEnableExtMetaData := pendingEnableExtMetaData c;
     pendingEnableValueCompression := pendingEnableValueCompression c;
     pendingSupportCursorDropping := pendingSupportCursorDropping c;
     flowControl := flowControl c; streams := streams c; ready := ready c;
     opaqueMap_ := opaqueMap_ c |}.

Definition with_lastWalkTime (c : DcpConsumer) (t : Z) : DcpConsumer :=
  {| disconnect := disconnect c; paused := paused c; lastWalkTime := t;
     opaqueCounter := opaqueCounter c; itemsToProcess := itemsToProcess c;
     lastNoopTime := lastNoopTime c; noopInterval := noopInterval c;
     pendingEnableNoop := pendingEnableNoop c;
     pendingSendNoopInterval := pendingSendNoopInterval c;
     pendingSetPriority := pendingSetPriority c;
     pendingEnableExtMetaData := pendingEnableExtMetaData c;
     pendingEnableValueCompression := pendingEnableValueCompression c;
     pendingSupportCursorDropping := pendingSupportCursorDropping c;
     flowControl := flowControl c; streams := streams c; ready := ready c;
     opaqueMap_ := opaqueMap_ c |}.

Definition with_opaqueCounter (c : DcpConsumer) (n : Z) : DcpConsumer :=
  {| disconnect := disconnect c; paused := paused c;
     lastWalkTime := lastWalkTime c;
     opaqueCounter := n; itemsToProcess := itemsToProcess c;
     lastNoopTime := lastNoopTime c; noopInterval := noopInterval c;
     pendingEnableNoop := pendingEnableNoop c;
     pendingSendNoopInterval := pendingSendNoopInterval c;
     pendingSetPriority := pendingSetPriority c;
     pendingEnableExtMetaData := pendingEnableExtMetaData c;
     pendingEnableValueCompression := pendingEnableValueCompression c;
     pendingSupportCursorDropping := pendingSupportCursorDropping c;
     flowControl := flowControl c; streams := streams c; ready := ready c;
     opaqueMap_ := opaqueMap_ c |}.

Definition with_itemsToProcess (c : DcpConsumer) (b : bool) : DcpConsumer :=
  {| disconnect := disconnect c; paused := paused c;
     lastWalkTime := lastWalkTime c;
     opaqueCounter := opaqueCounter c; itemsToProcess := b;
     lastNoopTime := lastNoopTime c; noopInterval := noopInterval c;
     pendingEnableNoop := pendingEnableNoop c;
     pendingSendNoopInterval := pendingSendNoopInterval c;
     pendingSetPriority := pendingSetPriority c;
     pendingEnableExtMetaData := pendingEnableExtMetaData c;
     pendingEnableValueCompression := pendingEnableValueCompression c;
     pendingSupportCursorDropping := pendingSupportCursorDropping c;
     flowControl := flowControl c; streams := streams c; ready := ready c;
     opaqueMap_ := opaqueMap_ c |}.

Definition with_lastNoopTime (c : DcpConsumer) (t : Z) : DcpConsumer :=
  {| disconnect := disconnect c; paused := paused c;
     lastWalkTime := lastWalkTime c;
     opaqueCounter := opaqueCounter c; itemsToProcess := itemsToProcess c;
     lastNoopTime := t; noopInterval := noopInterval c;
     pendingEnableNoop := pendingEnableNoop c;
     pendingSendNoopInterval := pendingSendNoopInterval c;
     pendingSetPriority := pendingSetPriority c;
     pendingEnableExtMetaData := pendingEnableExtMetaData c;
     pendingEnableValueCompression := pendingEnableValueCompression c;
     pendingSupportCursorDropping := pendingSupportCursorDropping c;
     flowControl := flowControl c; streams := streams c; ready := ready c;
     opaqueMap_ := opaqueMap_ c |}.

(** The six [pending...] flags are only ever cleared. *)
Inductive PendingFlag : Type :=
  | EnableNoop | SendNoopInterval | SetPriority | EnableExtMetaData
  | EnableValueCompression | SupportCursorDropping.

Definition clear_pending (c : DcpConsumer) (f : PendingFlag) : DcpConsumer :=
  {| disconnect := disconnect c; paused := paused c;
     lastWalkTime := lastWalkTime c;
     opaqueCounter := opaqueCounter c; itemsToProcess := itemsToProcess c;
     lastNoopTime := lastNoopTime c; noopInterval := noopInterval c;
     pendingEnableNoop :=
       match f with EnableNoop => false | _ => pendingEnableNoop c end;
     pendingSendNoopInterval :=
       match f with
       | SendNoopInterval => false | _ => pendingSendNoopInterval c
       end;
     pendingSetPriority :=
       match f with SetPriority => false | _ => pendingSetPriority c end;
     pendingEnableExtMetaData :=
       match f with
       | EnableExtMetaData => false | _ => pendingEnableExtMetaData c
       end;
     pendingEnableValueCompression :=
       match f with
       | EnableValueCompression => false
       | _ => pendingEnableValueCompression c
       end;
     pendingSupportCursorDropping :=
       match f with
       | SupportCursorDropping => false
       | _ => pendingSupportCursorDropping c
       end;
     flowControl := flowControl c; streams := streams c; ready := ready c;
     opaqueMap_ := opaqueMap_ c |}.

Definition with_flowControl (c : DcpConsumer) (fc : FlowControl)
  : DcpConsumer :=
  {| disconnect := disconnect c; paused := paused c;
     lastWalkTime := lastWalkTime c;
     opaqueCounter := opaqueCounter c; itemsToProcess := itemsToProcess c;
     lastNoopTime := lastNoopTime c; noopInterval := noopInterval c;
     pendingEnableNoop := pendingEnableNoop c;
     pendingSendNoopInterval := pendingSendNoopInterval c;
     pendingSetPriority := pendingSetPriority c;
     pendingEnableExtMetaData := pendingEnableExtMetaData c;
     pendingEnableValueCompression := pendingEnableValueCompression c;
     pendingSupportCursorDropping := pendingSupportCursorDropping c;
     flowControl := fc; streams := streams c; ready := ready c;
     opaqueMap_ := opaqueMap_ c |}.

Definition with_streams (c : DcpConsumer) (s : list (option PassiveStream))
  : DcpConsumer :=
  {| disconnect := disconnect c; paused := paused c;
     lastWalkTime := lastWalkTime c;
     opaqueCounter := opaqueCounter c; itemsToProcess := itemsToProcess c;
     lastNoopTime := lastNoopTime c; noopInterval := noopInterval c;
     pendingEnableNoop := pendingEnableNoop c;
     pendingSendNoopInterval := pendingSendNoopInterval c;
     pendingSetPriority := pendingSetPriority c;
     pendingEnableExtMetaData := pendingEnableExtMetaData c;
     pendingEnableValueCompression := pendingEnableValueCompression c;
     pendingSupportCursorDropping := pendingSupportCursorDropping c;
     flowControl := flowControl c; streams := s; ready := ready c;
     opaqueMap_ := opaqueMap_ c |}.

Definition with_ready (c : DcpConsumer) (r : list vbid) : DcpConsumer :=
  {| disconnect := disconnect c; paused := paused c;
     lastWalkTime := lastWalkTime c;
     opaqueCounter := opaqueCounter c; itemsToProcess := itemsToProcess c;
     lastNoopTime := lastNoopTime c; noopInterval := noopInterval c;
     pendingEnableNoop := pendingEnableNoop c;
     pendingSendNoopInterval := pendingSendNoopInterval c;
     pendingSetPriority := pendingSetPriority c;
     pendingEnableExtMetaData := pendingEnableExtMetaData c;
     pendingEnableValueCompression := pendingEnableValueCompression c;
     pendingSupportCursorDropping := pendingSupportCursorDropping c;
     flowControl := flowControl c; streams := streams c; ready := r;
     opaqueMap_ := opaqueMap_ c |}.

Definition with_opaqueMap (c : DcpConsumer) (m : gmap Z (Z * vbid))
  : DcpConsumer :=
  {| disconnect := disconnect c; paused := paused c;
     lastWalkTime := lastWalkTime c;
     opaqueCounter := opaqueCounter c; itemsToProcess := itemsToProcess c;
     lastNoopTime := lastNoopTime c; noopInterval := noopInterval c;
     pendingEnableNoop := pendingEnableNoop c;
     pendingSendNoopInterval := pendingSendNoopInterval c;
     pendingSetPriority := pendingSetPriority c;
     pendingEnableExtMetaData := pendingEnableExtMetaData c;
     pendingEnableValueCompression := pendingEnableValueCompression c;
     pendingSupportCursorDropping := pendingSupportCursorDropping c;
     flowControl := flowControl c; streams := streams c; ready := ready c;
     opaqueMap_ := m |}.


(** ** The monad: state, and the ways a call can fail to return *)

Inductive Fault : Type :=
  | bad_alloc          (* an uncaught std::bad_alloc *)
  | logic_error        (* throw std::logic_error *)
  | aborted            (* abort() *)
  | null_dereference   (* -> on a null handle *)
  | out_of_bounds      (* streams[vbucket] past the end of the array *)
  | bad_cast.          (* static_cast to a class the object is not *)

(** A call either returns a value or ends in a fault; both leave a world
    behind (for a fault, the world reached when it occurred). *)
Inductive Res (A : Type) : Type :=
  | Ok (a : A) (w : World)
  | Raise (f : Fault) (w : World).
Arguments Ok {A} a w.
Arguments Raise {A} f w.

Definition world_of {A} (r : Res A) : World :=
  match r with
  | Ok _ w => w
  | Raise _ w => w
  end.

Definition M (A : Type) : Type := World -> Res A.

Definition pure {A} (a : A) : M A := fun w => Ok a w.

Definition bind {A B} (m : M A) (k : A -> M B) : M B :=
  fun w => match m w with
           | Ok a w' => k a w'
           | Raise f w' => Raise f w'
           end.

Definition raise {A} (f : Fault) : M A := fun w => Raise f w.

Definition gets {A} (f : DcpConsumer -> A) : M A := fun w => Ok (f (cons w)) w.

Definition modify (f : DcpConsumer -> DcpConsumer) : M unit :=
  fun w => Ok tt (with_cons w (f (cons w))).

Definition call (c : Call) : M unit :=
  fun w => Ok tt (with_calls w (calls w ++ [c])).

End Consumer.

Arguments Ok {_ A} a w.
Arguments Raise {_ A} f w.

Declare Scope consumer_scope.
Delimit Scope consumer_scope with consumer.
Notation "x ← y ; z" := (bind y (fun x => z))
  (at level 20, y at level 100, z at level 200, only parsing)
  : consumer_scope.
Notation "x ;; z" := (bind x (fun _ => z))
  (at level 100, z at level 200, only parsing, right associativity)
  : consumer_scope.

Section ConsumerCode.
Context `{Collaborators}.
Local Open Scope consumer_scope.

(** ** Small steps shared by the functions of consumer.cc *)

Definition doDisconnect : M bool := gets disconnect.

Definition ep_current_time : M Z := fun w => Ok (clock w) w.

Definition setLastWalkTime : M unit :=
  now ← ep_current_time;
  modify (fun c => with_lastWalkTime c now).

Definition setPaused (b : bool) : M unit := modify (fun c => with_paused c b).

(** A [new] outside any [try]: a failed allocation leaves the function as
    an exception. *)
Definition new_ : M unit :=
  fun w => match heap w with
           | [] => Ok tt w
           | true :: h => Ok tt (with_heap w h)
           | false :: _ => Raise bad_alloc w
           end.

(** A [new] inside [try { } catch (const std::bad_alloc&)]: tells whether
    the allocation succeeded. *)
Definition try_new : M bool :=
  fun w => match heap w with
           | [] => Ok true w
           | b :: h => Ok b (with_heap w h)
           end.

(** [++opaqueCounter] on a 32-bit counter. *)
Definition incrOpaqueCounter : M Z :=
  n ← gets opaqueCounter;
  modify (fun c => with_opaqueCounter c (wrap32 (n + 1)));;
  pure (wrap32 (n + 1)).

(** [streams[vbucket]]: reading past the end of the array is undefined. *)
Definition stream_at (vbucket : vbid) : M (option PassiveStream) :=
  fun w => match streams (cons w) !! N.to_nat vbucket with
           | Some slot => Ok slot w
           | None => Raise out_of_bounds w
           end.

Definition set_stream (vbucket : vbid) (slot : option PassiveStream)
  : M unit :=
  modify (fun c => with_streams c (<[N.to_nat vbucket := slot]> (streams c))).

Definition engine : M Engine := fun w => Ok (engine_ w) w.

Definition set_engine (e : Engine) : M unit :=
  fun w => Ok tt (with_engine w e).

Definition engine_getVBucket (vbucket : vbid) : M (option VBucket) :=
  e ← engine;
  pure (getVBucket e vbucket).

Definition flowControl_incrFreedBytes (bytes : Z) : M unit :=
  modify (fun c => with_flowControl c (incrFreedBytes (flowControl c) bytes));;
  call (FlowControl_incrFreedBytes bytes).

Definition flowControl_handleFlowCtl (producers : dcp_message_producers)
  : M ENGINE_ERROR_CODE :=
  fc ← gets flowControl;
  let '(r, fc') := handleFlowCtl fc producers in
  modify (fun c => with_flowControl c fc');;
  call (FlowControl_handleFlowCtl r);;
  pure r.

Definition producers_control (producers : dcp_message_producers)
    (opaque : Z) (key value : string) : M ENGINE_ERROR_CODE :=
  let r := control producers opaque key value in
  call (Producers_control opaque key value r);;
  pure r.

(** [itemsToProcess.compare_exchange_strong(expected, desired)]. *)
Definition itemsToProcess_compare_exchange_strong (expected desired : bool)
  : M bool :=
  cur ← gets itemsToProcess;
  if bool_decide (cur = expected)
  then modify (fun c => with_itemsToProcess c desired);; pure true
  else pure false.

(** The block after every [messageReceived]:
    [if (err == ENGINE_TMPFAIL &&
         itemsToProcess.compare_exchange_strong(disable, true))
       ExecutorPool::get()->wake(processerTaskId);] *)
Definition wakeIfBuffered (err : ENGINE_ERROR_CODE) : M unit :=
  if decide (err = ENGINE_TMPFAIL) then
    swapped ← itemsToProcess_compare_exchange_strong false true;
    if swapped then call ExecutorPool_wake else pure tt
  else pure tt.

(** The test [stream && stream->getOpaque() == opaque && stream->isActive()]. *)
Definition live_stream (slot : option PassiveStream) (opaque : Z)
  : option PassiveStream :=
  match slot with
  | Some s => if (getOpaque s =? opaque) && isActive s then Some s else None
  | None => None
  end.

(** ** [DcpConsumer::notifyStreamReady] *)

Definition notifyStreamReady (vbucket : vbid) : M unit :=
  rdy ← gets ready;
  if decide (vbucket ∈ rdy) then pure tt
  else
    modify (fun c => with_ready c (ready c ++ [vbucket]));;
    call (ConnMap_notifyPausedConnection true).

(** ** Calls on a stream

    Each stores the stream's new state in its slot, logs the call, and runs
    [notifyStreamReady] if the stream called back. *)

Definition stream_callback (vbucket : vbid) (notify : bool) : M unit :=
  if notify then notifyStreamReady vbucket else pure tt.

Definition stream_messageReceived (vbucket : vbid) (s : PassiveStream)
    (response : DcpResponse) : M ENGINE_ERROR_CODE :=
  e ← engine;
  let '(err, notify, s', e') := messageReceived s response e in
  set_stream vbucket (Some s');;
  set_engine e';;
  call (Stream_messageReceived vbucket response err);;
  stream_callback vbucket notify;;
  pure err.

Definition stream_next (vbucket : vbid) (s : PassiveStream)
  : M (option DcpResponse) :=
  let '(op, s') := next s in
  set_stream vbucket (Some s');;
  call (Stream_next vbucket op);;
  pure op.

Definition stream_setDead (vbucket : vbid) (s : PassiveStream)
    (status : end_stream_status_t) : M Z :=
  let '(bytesCleared, s') := setDead s status in
  set_stream vbucket (Some s');;
  call (Stream_setDead vbucket status);;
  pure bytesCleared.

Definition stream_acceptStream (vbucket : vbid) (s : PassiveStream)
    (status add_opaque : Z) : M unit :=
  let '(notify, s') := acceptStream s status add_opaque in
  set_stream vbucket (Some s');;
  call (Stream_acceptStream vbucket status add_opaque);;
  stream_callback vbucket notify.

Definition stream_reconnectStream (vbucket : vbid) (s : PassiveStream)
    (vb : VBucket) (opaque start_seqno : Z) : M unit :=
  let '(notify, s') := reconnectStream s vb opaque start_seqno in
  set_stream vbucket (Some s');;
  call (Stream_reconnectStream vbucket opaque start_seqno);;
  stream_callback vbucket notify.

(** ** The constructor *)

(** The inherited fields start as the [ConnHandler] constructor leaves
    them: not disconnected, not paused, never walked. *)
Definition DcpConsumer_new (config : Configuration) (now : Z)
    (fc : FlowControl) : DcpConsumer :=
  {| disconnect := false; paused := false; lastWalkTime := 0;
     opaqueCounter := 0; itemsToProcess := false;
     lastNoopTime := now;
     noopInterval := wrap32 (getDcpNoopInterval config);
     pendingEnableNoop := isDcpEnableNoop config;
     pendingSendNoopInterval := isDcpEnableNoop config;
     pendingSetPriority := true;
     pendingEnableExtMetaData := true;
     pendingEnableValueCompression := isDcpValueCompressionEnabled config;
     pendingSupportCursorDropping := true;
     flowControl := fc;
     streams := replicate (getMaxVbuckets config) None;
     ready := [];
     opaqueMap_ := ∅ |}.

(** The world just after a consumer was constructed at time [now]: the
    processor task has been scheduled. *)
Definition connect (config : Configuration) (e : Engine) (now : Z)
    (allocations : list bool) : World :=
  {| cons := DcpConsumer_new config now (FlowControl_new e);
     engine_ := e; clock := now; heap := allocations; rollbackCount := 0;
     calls := [ExecutorPool_schedule_Processer] |}.

(** ** Inbound calls *)

Definition addStream (opaque : Z) (vbucket : vbid) (flags : Z)
  : M ENGINE_ERROR_CODE :=
  d ← doDisconnect;
  if d then pure ENGINE_DISCONNECT else
  vb ← engine_getVBucket vbucket;
  match vb with
  | None => pure ENGINE_NOT_MY_VBUCKET
  | Some vb =>
    if decide (vb_state vb = vbucket_state_active)
    then pure ENGINE_NOT_MY_VBUCKET else
    let info := vb_snapshotInfo vb in
    let info :=
      if info_range_end info =? info_start info
      then {| info_start := info_start info;
              info_range_start := info_start info;
              info_range_end := info_range_end info |}
      else info in
    new_opaque ← incrOpaqueCounter;
    let start_seqno := info_start info in
    let end_seqno := 2 ^ 64 - 1 in
    let vbucket_uuid := vb_latest_uuid vb in
    let snap_start_seqno := info_range_start info in
    let snap_end_seqno := info_range_end info in
    let high_seqno := vb_highSeqno vb in
    stream ← stream_at vbucket;
    if match stream with Some s => isActive s | None => false end
    then pure ENGINE_KEY_EEXISTS else
    new_;;
    set_stream vbucket
      (Some (PassiveStream_new flags new_opaque vbucket start_seqno
               end_seqno vbucket_uuid snap_start_seqno snap_end_seqno
               high_seqno));;
    modify (fun c => with_ready c (ready c ++ [vbucket]));;
    modify (fun c =>
      with_opaqueMap c (<[new_opaque := (opaque, vbucket)]> (opaqueMap_ c)));;
    pure ENGINE_SUCCESS
  end.

Definition closeStream (opaque : Z) (vbucket : vbid) : M ENGINE_ERROR_CODE :=
  d ← doDisconnect;
  if d then pure ENGINE_DISCONNECT else
  modify (fun c => with_opaqueMap c (delete opaque (opaqueMap_ c)));;
  stream ← stream_at vbucket;
  match stream with
  | None => pure ENGINE_KEY_ENOENT
  | Some s =>
    bytesCleared ← stream_setDead vbucket s END_STREAM_CLOSED;
    flowControl_incrFreedBytes bytesCleared;;
    pure ENGINE_SUCCESS
  end.

Definition streamEnd (opaque : Z) (vbucket : vbid) (flags : Z)
  : M ENGINE_ERROR_CODE :=
  d ← doDisconnect;
  if d then pure ENGINE_DISCONNECT else
  stream ← stream_at vbucket;
  (* the code after the [if (stream && ...)] block *)
  let finish (err : ENGINE_ERROR_CODE) : M ENGINE_ERROR_CODE :=
    if decide (err = ENGINE_TMPFAIL) then pure ENGINE_SUCCESS else
    flowControl_incrFreedBytes StreamEndResponse_baseMsgBytes;;
    pure err in
  match live_stream stream opaque with
  | Some s =>
    allocated ← try_new;
    if negb allocated then pure ENGINE_ENOMEM else
    let response := StreamEndResponse opaque flags vbucket in
    err ← stream_messageReceived vbucket s response;
    wakeIfBuffered err;;
    finish err
  | None => finish ENGINE_KEY_ENOENT
  end.

Definition mutation (opaque : Z) (key : Bytes) (nkey : Z) (value : Bytes)
    (nvalue : Z) (cas : Z) (vbucket : vbid) (flags : Z) (datatype : Z)
    (locktime : Z) (bySeqno revSeqno : Z) (exptime : Z) (nru : Z)
    (meta : Bytes) (nmeta : Z) : M ENGINE_ERROR_CODE :=
  d ← doDisconnect;
  if d then pure ENGINE_DISCONNECT else
  if bySeqno =? 0 then pure ENGINE_EINVAL else
  stream ← stream_at vbucket;
  let finish (err : ENGINE_ERROR_CODE) : M ENGINE_ERROR_CODE :=
    if decide (err = ENGINE_TMPFAIL) then pure ENGINE_SUCCESS else
    let bytes := wrap32 (mutationBaseMsgBytes + nkey + nmeta + nvalue) in
    flowControl_incrFreedBytes bytes;;
    pure err in
  match live_stream stream opaque with
  | Some s =>
    new_;;
    let item := mkItem key nkey flags exptime value nvalue (Some datatype)
                  cas bySeqno vbucket revSeqno false in
    let deliver (emd : option ExtendedMetaData) : M ENGINE_ERROR_CODE :=
      allocated ← try_new;
      if negb allocated then pure ENGINE_ENOMEM else
      let response := MutationResponse item opaque emd in
      err ← stream_messageReceived vbucket s response;
      wakeIfBuffered err;;
      finish err in
    if 0 <? nmeta then
      new_;;
      let emd := ExtendedMetaData_new meta nmeta in
      (* [emd == NULL] cannot hold after a throwing [new] *)
      if decide (getStatus emd = ENGINE_EINVAL) then pure ENGINE_EINVAL
      else deliver (Some emd)
    else deliver None
  | None => finish ENGINE_KEY_ENOENT
  end.

Definition deletion (opaque : Z) (key : Bytes) (nkey : Z) (cas : Z)
    (vbucket : vbid) (bySeqno revSeqno : Z) (meta : Bytes) (nmeta : Z)
  : M ENGINE_ERROR_CODE :=
  d ← doDisconnect;
  if d then pure ENGINE_DISCONNECT else
  if bySeqno =? 0 then pure ENGINE_EINVAL else
  stream ← stream_at vbucket;
  let finish (err : ENGINE_ERROR_CODE) : M ENGINE_ERROR_CODE :=
    if decide (err = ENGINE_TMPFAIL) then pure ENGINE_SUCCESS else
    let bytes := wrap32 (deletionBaseMsgBytes + nkey + nmeta) in
    flowControl_incrFreedBytes bytes;;
    pure err in
  match live_stream stream opaque with
  | Some s =>
    new_;;
    let item := setDeleted
                  (mkItem key nkey 0 0 [] 0 None cas bySeqno vbucket
                     revSeqno false) in
    let deliver (emd : option ExtendedMetaData) : M ENGINE_ERROR_CODE :=
      allocated ← try_new;
      if negb allocated then pure ENGINE_ENOMEM else
      let response := MutationResponse item opaque emd in
      err ← stream_messageReceived vbucket s response;
      wakeIfBuffered err;;
      finish err in
    if 0 <? nmeta then
      new_;;
      let emd := ExtendedMetaData_new meta nmeta in
      if decide (getStatus emd = ENGINE_EINVAL) then pure ENGINE_EINVAL
      else deliver (Some emd)
    else deliver None
  | None => finish ENGINE_KEY_ENOENT
  end.

Definition expiration (opaque : Z) (key : Bytes) (nkey : Z) (cas : Z)
    (vbucket : vbid) (bySeqno revSeqno : Z) (meta : Bytes) (nmeta : Z)
  : M ENGINE_ERROR_CODE :=
  deletion opaque key nkey cas vbucket bySeqno revSeqno meta nmeta.

Definition snapshotMarker (opaque : Z) (vbucket : vbid)
    (start_seqno end_seqno : Z) (flags : Z) : M ENGINE_ERROR_CODE :=
  d ← doDisconnect;
  if d then pure ENGINE_DISCONNECT else
  if end_seqno <? start_seqno then pure ENGINE_EINVAL else
  stream ← stream_at vbucket;
  let finish (err : ENGINE_ERROR_CODE) : M ENGINE_ERROR_CODE :=
    if decide (err = ENGINE_TMPFAIL) then pure ENGINE_SUCCESS else
    flowControl_incrFreedBytes SnapshotMarker_baseMsgBytes;;
    pure err in
  match live_stream stream opaque with
  | Some s =>
    allocated ← try_new;
    if negb allocated then pure ENGINE_ENOMEM else
    let response :=
      SnapshotMarker opaque vbucket start_seqno end_seqno flags in
    err ← stream_messageReceived vbucket s response;
    wakeIfBuffered err;;
    finish err
  | None => finish ENGINE_KEY_ENOENT
  end.

Definition noop (opaque : Z) : M ENGINE_ERROR_CODE :=
  now ← ep_current_time;
  modify (fun c => with_lastNoopTime c now);;
  pure ENGINE_SUCCESS.

Definition flush (opaque : Z) (vbucket : vbid) : M ENGINE_ERROR_CODE :=
  d ← doDisconnect;
  if d then pure ENGINE_DISCONNECT else
  pure ENGINE_ENOTSUP.

Definition setVBucketState (opaque : Z) (vbucket : vbid)
    (state : vbucket_state_t) : M ENGINE_ERROR_CODE :=
  d ← doDisconnect;
  if d then pure ENGINE_DISCONNECT else
  stream ← stream_at vbucket;
  let finish (err : ENGINE_ERROR_CODE) : M ENGINE_ERROR_CODE :=
    if decide (err = ENGINE_TMPFAIL) then pure ENGINE_SUCCESS else
    flowControl_incrFreedBytes SetVBucketState_baseMsgBytes;;
    pure err in
  match live_stream stream opaque with
  | Some s =>
    allocated ← try_new;
    if negb allocated then pure ENGINE_ENOMEM else
    let response := SetVBucketState opaque vbucket state in
    err ← stream_messageReceived vbucket s response;
    wakeIfBuffered err;;
    finish err
  | None => finish ENGINE_KEY_ENOENT
  end.

(** ** Control messages *)

Definition noopCtrlMsg : string := "enable_noop".
Definition noopIntervalCtrlMsg : string := "set_noop_interval".
Definition connBufferCtrlMsg : string := "connection_buffer_size".
Definition priorityCtrlMsg : string := "set_priority".
Definition extMetadataCtrlMsg : string := "enable_ext_metadata".
Definition valueCompressionCtrlMsg : string := "enable_value_compression".
Definition cursorDroppingCtrlMsg : string := "supports_cursor_dropping".

(** [snprintf(buf_size, 10, "%u", noopInterval)]: the decimal digits, cut
    after nine characters. *)
Definition snprintf_10_u (n : Z) : string :=
  String.substring 0 9 (NilZero.string_of_uint (N.to_uint (Z.to_N n))).

Definition handleNoop (producers : dcp_message_producers)
  : M ENGINE_ERROR_CODE :=
  pendingNoop ← gets pendingEnableNoop;
  if pendingNoop then
    opaque ← incrOpaqueCounter;
    r ← producers_control producers opaque noopCtrlMsg "true";
    modify (fun c => clear_pending c EnableNoop);;
    pure r
  else
  pendingInterval ← gets pendingSendNoopInterval;
  if pendingInterval then
    opaque ← incrOpaqueCounter;
    interval ← gets noopInterval;
    r ← producers_control producers opaque noopIntervalCtrlMsg
          (snprintf_10_u interval);
    modify (fun c => clear_pending c SendNoopInterval);;
    pure r
  else
  now ← ep_current_time;
  last ← gets lastNoopTime;
  interval ← gets noopInterval;
  if wrap32 (interval * 2) <? wrap32 (now - last)
  then pure ENGINE_DISCONNECT
  else pure ENGINE_FAILED.

Definition handlePriority (producers : dcp_message_producers)
  : M ENGINE_ERROR_CODE :=
  pending ← gets pendingSetPriority;
  if pending then
    opaque ← incrOpaqueCounter;
    r ← producers_control producers opaque priorityCtrlMsg "high";
    modify (fun c => clear_pending c SetPriority);;
    pure r
  else pure ENGINE_FAILED.

Definition handleExtMetaData (producers : dcp_message_producers)
  : M ENGINE_ERROR_CODE :=
  pending ← gets pendingEnableExtMetaData;
  if pending then
    opaque ← incrOpaqueCounter;
    r ← producers_control producers opaque extMetadataCtrlMsg "true";
    modify (fun c => clear_pending c EnableExtMetaData);;
    pure r
  else pure ENGINE_FAILED.

Definition handleValueCompression (producers : dcp_message_producers)
  : M ENGINE_ERROR_CODE :=
  pending ← gets pendingEnableValueCompression;
  if pending then
    opaque ← incrOpaqueCounter;
    r ← producers_control producers opaque valueCompressionCtrlMsg "true";
    modify (fun c => clear_pending c EnableValueCompression);;
    pure r
  else pure ENGINE_FAILED.

Definition supportCursorDropping (producers : dcp_message_producers)
  : M ENGINE_ERROR_CODE :=
  pending ← gets pendingSupportCursorDropping;
  if pending then
    opaque ← incrOpaqueCounter;
    r ← producers_control producers opaque cursorDroppingCtrlMsg "true";
    modify (fun c => clear_pending c SupportCursorDropping);;
    pure r
  else pure ENGINE_FAILED.

(** ** [DcpConsumer::getNextItem] *)

(** The four events a consumer may write. *)
Definition consumer_event (e : dcp_event_t) : bool :=
  match e with
  | DCP_STREAM_REQ | DCP_ADD_STREAM | DCP_SET_VBUCKET | DCP_SNAPSHOT_MARKER =>
      true
  | _ => false
  end.

(** The [while (!ready.empty())] loop.  [readyMutex] is held throughout, so
    the list changes only by the loop's own [pop_front] and [push_back]; the
    loop is written by recursion on the list as it was on entry, storing the
    popped list at each turn. *)
Fixpoint getNextItem_loop (rdy : list vbid) : M (option DcpResponse) :=
  match rdy with
  | [] => setPaused true;; pure None
  | vbucket :: rest =>
    modify (fun c => with_ready c rest);;
    stream ← stream_at vbucket;
    match stream with
    | None => getNextItem_loop rest
    | Some s =>
      op ← stream_next vbucket s;
      match op with
      | None => getNextItem_loop rest
      | Some r =>
        if consumer_event (getEvent r) then
          modify (fun c => with_ready c (ready c ++ [vbucket]));;
          pure (Some r)
        else raise aborted
      end
    end
  end.

Definition getNextItem : M (option DcpResponse) :=
  setPaused false;;
  rdy ← gets ready;
  getNextItem_loop rdy.

(** ** [DcpConsumer::step] *)

(** [if (ret == ENGINE_SUCCESS) ret = ENGINE_WANT_MORE; return ret;] *)
Definition want_more (r : ENGINE_ERROR_CODE) : ENGINE_ERROR_CODE :=
  if decide (r = ENGINE_SUCCESS) then ENGINE_WANT_MORE else r.

(** The [switch (resp->getEvent())] of [step]: each case casts the response
    to the class it expects and calls the host. *)
Definition send_response (producers : dcp_message_producers)
    (resp : DcpResponse) : M ENGINE_ERROR_CODE :=
  match getEvent resp with
  | DCP_ADD_STREAM =>
    match resp with
    | AddStreamResponse opaque stream_opaque status =>
      let r := add_stream_rsp producers opaque stream_opaque status in
      call (Producers_add_stream_rsp opaque stream_opaque status r);;
      pure r
    | _ => raise bad_cast
    end
  | DCP_STREAM_REQ =>
    match resp with
    | StreamRequest vb opaque flags start_seqno end_seqno uuid ss se =>
      let r := stream_req producers opaque vb flags start_seqno end_seqno
                 uuid ss se in
      call (Producers_stream_req opaque vb flags start_seqno end_seqno
              uuid ss se r);;
      pure r
    | _ => raise bad_cast
    end
  | DCP_SET_VBUCKET =>
    match resp with
    | SetVBucketStateResponse opaque status =>
      let r := set_vbucket_state_rsp producers opaque status in
      call (Producers_set_vbucket_state_rsp opaque status r);;
      pure r
    | _ => raise bad_cast
    end
  | DCP_SNAPSHOT_MARKER =>
    match resp with
    | SnapshotMarkerResponse opaque status =>
      let r := marker_rsp producers opaque status in
      call (Producers_marker_rsp opaque status r);;
      pure r
    | _ => raise bad_cast
    end
  | _ => pure ENGINE_DISCONNECT
  end.

Definition step (producers : dcp_message_producers) : M ENGINE_ERROR_CODE :=
  setLastWalkTime;;
  d ← doDisconnect;
  if d then pure ENGINE_DISCONNECT else
  r ← flowControl_handleFlowCtl producers;
  if negb (bool_decide (r = ENGINE_FAILED)) then pure (want_more r) else
  r ← handleNoop producers;
  if negb (bool_decide (r = ENGINE_FAILED)) then pure (want_more r) else
  r ← handlePriority producers;
  if negb (bool_decide (r = ENGINE_FAILED)) then pure (want_more r) else
  r ← handleExtMetaData producers;
  if negb (bool_decide (r = ENGINE_FAILED)) then pure (want_more r) else
  r ← handleValueCompression producers;
  if negb (bool_decide (r = ENGINE_FAILED)) then pure (want_more r) else
  r ← supportCursorDropping producers;
  if negb (bool_decide (r = ENGINE_FAILED)) then pure (want_more r) else
  resp ← getNextItem;
  match resp with
  | None => pure ENGINE_SUCCESS
  | Some resp =>
    r ← send_response producers resp;
    if decide (r = ENGINE_SUCCESS) then pure ENGINE_WANT_MORE else pure r
  end.

(** ** Rollback *)

Definition epstore_rollback (vbid : vbid) (rollbackSeqno : Z)
  : M ENGINE_ERROR_CODE :=
  e ← engine;
  let '(err, e') := rollback e vbid rollbackSeqno in
  set_engine e';;
  call (EpStore_rollback vbid rollbackSeqno err);;
  pure err.

Definition doRollback (opaque : Z) (vbid : vbid) (rollbackSeqno : Z)
  : M bool :=
  err ← epstore_rollback vbid rollbackSeqno;
  match err with
  | ENGINE_NOT_MY_VBUCKET => pure false
  | ENGINE_TMPFAIL => pure true (* Reschedule the rollback. *)
  | ENGINE_SUCCESS =>
    vb ← engine_getVBucket vbid;
    stream ← stream_at vbid;
    match stream, vb with
    | Some s, Some vb =>
      stream_reconnectStream vbid s vb opaque (vb_highSeqno vb);;
      pure false
    | _, _ => raise null_dereference
    end
  | _ => raise logic_error
  end.

(** [++(engine->getEpStats().rollbackCount)] on a [size_t] counter. *)
Definition incr_rollbackCount : M unit :=
  fun w => Ok tt (with_rollbackCount w ((rollbackCount w + 1) mod 2 ^ 64)).

Definition RollbackTask_run (task : RollbackTask) : M bool :=
  again ← doRollback (task_opaque task) (task_vbid task)
            (task_rollbackSeqno task);
  if again then pure true else
  incr_rollbackCount;;
  pure false.

(** ** Responses *)

Definition isValidOpaque (opaque : Z) (vbucket : vbid) : M bool :=
  stream ← stream_at vbucket;
  pure match stream with
       | Some s => bool_decide (getOpaque s = opaque)
       | None => false
       end.

Definition streamAccepted (opaque : Z) (status : Z) (body : Bytes)
    (bodylen : Z) : M unit :=
  oitr ← gets (fun c => opaqueMap_ c !! opaque);
  match oitr with
  | Some (add_opaque, vbucket) =>
    stream ← stream_at vbucket;
    match stream with
    | Some s =>
      if bool_decide (getOpaque s = opaque)
         && bool_decide (getState s = STREAM_PENDING)
      then
        (if status =? ENGINE_ERROR_CODE_value ENGINE_SUCCESS then
           vb ← engine_getVBucket vbucket;
           match vb with
           | None => raise null_dereference
           | Some _ =>
             e ← engine;
             set_engine
               (replaceFailoverLog e vbucket (take (Z.to_nat bodylen) body));;
             call (FailoverTable_replaceFailoverLog vbucket
                     (take (Z.to_nat bodylen) body));;
             call (EpStore_scheduleVBSnapshot vbucket)
           end
         else pure tt);;
        stream_acceptStream vbucket s status add_opaque
      else pure tt
    | None => pure tt
    end;;
    modify (fun c => with_opaqueMap c (delete opaque (opaqueMap_ c)))
  | None => pure tt
  end.

(** The opaque is looked up once; [validOpaque] stays [false] when the
    lookup fails, so the early [ENGINE_KEY_ENOENT] covers both the missing
    entry and the failed [isValidOpaque]. *)
Definition handleResponse (resp : protocol_binary_response)
  : M ENGINE_ERROR_CODE :=
  d ← doDisconnect;
  if d then pure ENGINE_DISCONNECT else
  let opcode := resp_opcode resp in
  let opaque := resp_opaque resp in
  oitr ← gets (fun c => opaqueMap_ c !! opaque);
  validOpaque ← match oitr with
                | Some (_, vbucket) => isValidOpaque opaque vbucket
                | None => pure false
                end;
  match oitr, validOpaque with
  | Some (_, vbid), true =>
    if opcode =? PROTOCOL_BINARY_CMD_DCP_STREAM_REQ then
      let status := resp_status resp in
      let bodylen := resp_bodylen resp in
      let body := resp_body resp in
      if status =? PROTOCOL_BINARY_RESPONSE_ROLLBACK then
        if negb (bodylen =? 8) then pure ENGINE_DISCONNECT else
        let rollbackSeqno := ntohll_bytes body in
        new_;;
        call (ExecutorPool_schedule_RollbackTask
                (mkRollbackTask opaque vbid rollbackSeqno));;
        pure ENGINE_SUCCESS
      else
      if (negb (bodylen mod 16 =? 0) || (bodylen =? 0))
         && (status =? ENGINE_ERROR_CODE_value ENGINE_SUCCESS)
      then pure ENGINE_DISCONNECT else
      streamAccepted opaque status body (wrap32 bodylen);;
      pure ENGINE_SUCCESS
    else if (opcode =? PROTOCOL_BINARY_CMD_DCP_BUFFER_ACKNOWLEDGEMENT)
            || (opcode =? PROTOCOL_BINARY_CMD_DCP_CONTROL)
    then pure ENGINE_SUCCESS
    else pure ENGINE_DISCONNECT
  | _, _ => pure ENGINE_KEY_ENOENT
  end.

(** ** The entry points as one type *)

(** The calls the host makes on a consumer, each with its arguments. *)
Inductive InboundCall : Type :=
  | Call_addStream (opaque : Z) (vbucket : vbid) (flags : Z)
  | Call_closeStream (opaque : Z) (vbucket : vbid)
  | Call_streamEnd (opaque : Z) (vbucket : vbid) (flags : Z)
  | Call_mutation (opaque : Z) (key : Bytes) (nkey : Z) (value : Bytes)
      (nvalue : Z) (cas : Z) (vbucket : vbid) (flags : Z) (datatype : Z)
      (locktime : Z) (bySeqno revSeqno : Z) (exptime : Z) (nru : Z)
      (meta : Bytes) (nmeta : Z)
  | Call_deletion (opaque : Z) (key : Bytes) (nkey : Z) (cas : Z)
      (vbucket : vbid) (bySeqno revSeqno : Z) (meta : Bytes) (nmeta : Z)
  | Call_expiration (opaque : Z) (key : Bytes) (nkey : Z) (cas : Z)
      (vbucket : vbid) (bySeqno revSeqno : Z) (meta : Bytes) (nmeta : Z)
  | Call_snapshotMarker (opaque : Z) (vbucket : vbid)
      (start_seqno end_seqno : Z) (flags : Z)
  | Call_setVBucketState (opaque : Z) (vbucket : vbid)
      (state : vbucket_state_t)
  | Call_noop (opaque : Z)
  | Call_flush (opaque : Z) (vbucket : vbid)
  | Call_handleResponse (resp : protocol_binary_response)
  | Call_step (producers : dcp_message_producers).

Definition invoke (c : InboundCall) : M ENGINE_ERROR_CODE :=
  match c with
  | Call_addStream opaque vbucket flags => addStream opaque vbucket flags
  | Call_closeStream opaque vbucket => closeStream opaque vbucket
  | Call_streamEnd opaque vbucket flags => streamEnd opaque vbucket flags
  | Call_mutation opaque key nkey value nvalue cas vbucket flags datatype
      locktime bySeqno revSeqno exptime nru meta nmeta =>
      mutation opaque key nkey value nvalue cas vbucket flags datatype
        locktime bySeqno revSeqno exptime nru meta nmeta
  | Call_deletion opaque key nkey cas vbucket bySeqno revSeqno meta nmeta =>
      deletion opaque key nkey cas vbucket bySeqno revSeqno meta nmeta
  | Call_expiration opaque key nkey cas vbucket bySeqno revSeqno meta nmeta =>
      expiration opaque key nkey cas vbucket bySeqno revSeqno meta nmeta
  | Call_snapshotMarker opaque vbucket start_seqno end_seqno flags =>
      snapshotMarker opaque vbucket start_seqno end_seqno flags
  | Call_setVBucketState opaque vbucket state =>
      setVBucketState opaque vbucket state
  | Call_noop opaque => noop opaque
  | Call_flush opaque vbucket => flush opaque vbucket
  | Call_handleResponse resp => handleResponse resp
  | Call_step producers => step producers
  end.

(** The byte cost of the message an inbound call carries, as the call
    itself computes it for flow control; [None] for the calls that carry no
    message. *)
Definition message_bytes (c : InboundCall) : option Z :=
  match c with
  | Call_streamEnd _ _ _ => Some StreamEndResponse_baseMsgBytes
  | Call_mutation _ _ nkey _ nvalue _ _ _ _ _ _ _ _ _ _ nmeta =>
      Some (wrap32 (mutationBaseMsgBytes + nkey + nmeta + nvalue))
  | Call_deletion _ _ nkey _ _ _ _ _ nmeta
  | Call_expiration _ _ nkey _ _ _ _ _ nmeta =>
      Some (wrap32 (deletionBaseMsgBytes + nkey + nmeta))
  | Call_snapshotMarker _ _ _ _ _ => Some SnapshotMarker_baseMsgBytes
  | Call_setVBucketState _ _ _ => Some SetVBucketState_baseMsgBytes
  | _ => None
  end.

(** The calls logged between an earlier world and a later one. *)
Definition new_calls (w w' : World) : list Call :=
  drop (length (calls w)) (calls w').

(** ** [step] as the specification words it

    "In fixed order, asks each outbound source for one message.  Each source
    reports FAILED (nothing to do, try next) or an engine result.  SUCCESS
    from a source is lifted to WANT_MORE; a terminal failure is returned
    verbatim.  If all sources decline and getNextItem returns nothing, the
    consumer marks itself paused and returns SUCCESS." *)

Definition outbound_sources (producers : dcp_message_producers)
  : list (M ENGINE_ERROR_CODE) :=
  [ flowControl_handleFlowCtl producers;
    handleNoop producers;
    handlePriority producers;
    handleExtMetaData producers;
    handleValueCompression producers;
    supportCursorDropping producers ].

Fixpoint first_answer (sources : list (M ENGINE_ERROR_CODE))
    (otherwise : M ENGINE_ERROR_CODE) : M ENGINE_ERROR_CODE :=
  match sources with
  | [] => otherwise
  | source :: rest =>
    r ← source;
    if decide (r = ENGINE_FAILED) then first_answer rest otherwise
    else pure (want_more r)
  end.

Definition step_spec (producers : dcp_message_producers)
  : M ENGINE_ERROR_CODE :=
  setLastWalkTime;;
  d ← doDisconnect;
  if d then pure ENGINE_DISCONNECT else
  first_answer (outbound_sources producers)
    (resp ← getNextItem;
     match resp with
     | None => pure ENGINE_SUCCESS
     | Some resp =>
       r ← send_response producers resp;
       pure (want_more r)
     end).

(** ** Vocabulary of the properties *)

(** The rule the six message calls follow, for an outcome [res] reached
    from [w]: if the log shows that a message was handed to a stream, whose
    answer was [err], then the call returned, with [ENGINE_SUCCESS] for a
    buffered message and with [err] otherwise, and [bytes] were credited
    once unless the message was buffered. *)
Definition credit_rule (bytes : Z) (w : World) (res : Res ENGINE_ERROR_CODE)
  : Prop :=
  forall vb resp err,
    Stream_messageReceived vb resp err ∈ new_calls w (world_of res) ->
    exists w',
      res = Ok (if decide (err = ENGINE_TMPFAIL) then ENGINE_SUCCESS else err)
              w' /\
      credits (new_calls w w') =
        if decide (err = ENGINE_TMPFAIL) then [] else [bytes].

(** The opaque, partition, seqno and extended meta data of the calls that
    carry an item. *)
Definition item_call (c : InboundCall) : option (Z * vbid * Z * Bytes * Z) :=
  match c with
  | Call_mutation opaque _ _ _ _ _ vbucket _ _ _ bySeqno _ _ _ meta nmeta =>
      Some (opaque, vbucket, bySeqno, meta, nmeta)
  | Call_deletion opaque _ _ _ vbucket bySeqno _ meta nmeta
  | Call_expiration opaque _ _ _ vbucket bySeqno _ meta nmeta =>
      Some (opaque, vbucket, bySeqno, meta, nmeta)
  | _ => None
  end.

(** What "a known opaque" means in [handleResponse]: the opaque map has an
    entry for it, and the stream of the entry's partition carries it. *)
Definition known_opaque (w : World) (opaque : Z) (vbucket : vbid) : Prop :=
  exists add_opaque s,
    opaqueMap_ (cons w) !! opaque = Some (add_opaque, vbucket) /\
    streams (cons w) !! N.to_nat vbucket = Some (Some s) /\
    getOpaque s = opaque.

(** The world once the loop of [getNextItem] has popped the head of the
    ready list, leaving [rest]. *)
Definition pop_ready (w : World) (rest : list vbid) : World :=
  with_cons w (with_ready (cons w) rest).

(** The world after [stream->next()] on the stream [s] of [vbucket]. *)
Definition after_next (vbucket : vbid) (s : PassiveStream) (w : World)
  : World :=
  with_calls
    (with_cons w
       (with_streams (cons w)
          (<[N.to_nat vbucket := Some (next s).2]> (streams (cons w)))))
    (calls w ++ [Stream_next vbucket (next s).1]).

(** The world once [step] has recorded the time of the walk. *)
Definition walked (w : World) : World :=
  with_cons w (with_lastWalkTime (cons w) (clock w)).

(** ** Teardown *)

(** [DcpConsumer::isStreamPresent]. *)
Definition isStreamPresent (vbucket : vbid) : M bool :=
  stream ← stream_at vbucket;
  pure match stream with
       | Some s => isActive s
       | None => false
       end.

(** The [for] loop of [DcpConsumer::closeAllStreams] over the partition
    numbers still to visit; the bytes [setDead] reports are dropped. *)
Fixpoint closeAllStreams_loop (vbuckets : list nat) : M unit :=
  match vbuckets with
  | [] => pure tt
  | vbucket :: rest =>
    stream ← stream_at (N.of_nat vbucket);
    match stream with
    | Some s =>
      stream_setDead (N.of_nat vbucket) s END_STREAM_DISCONNECTED;;
      closeAllStreams_loop rest
    | None => closeAllStreams_loop rest
    end
  end.

Definition closeAllStreams (config : Configuration) : M unit :=
  closeAllStreams_loop (seq 0 (getMaxVbuckets config)).

(** The calls [closeAllStreams] makes for the slots [slots], the first of
    which is partition [first]. *)
Fixpoint disconnect_calls (first : nat) (slots : list (option PassiveStream))
  : list Call :=
  match slots with
  | [] => []
  | Some _ :: rest =>
      Stream_setDead (N.of_nat first) END_STREAM_DISCONNECTED
      :: disconnect_calls (S first) rest
  | None :: rest => disconnect_calls (S first) rest
  end.

(** What [setDead(END_STREAM_DISCONNECTED)] leaves in a slot. *)
Definition disconnected_slot (slot : option PassiveStream)
  : option PassiveStream :=
  match slot with
  | Some s => Some (setDead s END_STREAM_DISCONNECTED).2
  | None => None
  end.

(** The two fields of [DcpConsumer] that only the teardown of the
    processor task touches, with the task ids handed to
    [ExecutorPool::cancel] so far. *)
Record ProcesserHandle : Type := mkProcesserHandle {
  processerTaskId : Z;
  taskAlreadyCancelled : bool;
  cancelled : list Z }.

(** [DcpConsumer::cancelTask]: the compare-and-set from [false] to [true]
    decides whether the executor is asked to cancel. *)
Definition cancelTask (t : ProcesserHandle) : ProcesserHandle :=
  if taskAlreadyCancelled t then t
  else {| processerTaskId := processerTaskId t;
          taskAlreadyCancelled := true;
          cancelled := cancelled t ++ [processerTaskId t] |}.

(** [DcpConsumer::taskCancelled], called by the task's destructor: the same
    compare-and-set, without the call. *)
Definition taskCancelled (t : ProcesserHandle) : ProcesserHandle :=
  if taskAlreadyCancelled t then t
  else {| processerTaskId := processerTaskId t;
          taskAlreadyCancelled := true;
          cancelled := cancelled t |}.

Inductive TeardownCall : Type :=
  | Call_cancelTask
  | Call_taskCancelled.

Definition teardown (c : TeardownCall) (t : ProcesserHandle)
  : ProcesserHandle :=
  match c with
  | Call_cancelTask => cancelTask t
  | Call_taskCancelled => taskCancelled t
  end.

(** The handle as the constructor leaves it, once the task got its id. *)
Definition scheduled (id : Z) : ProcesserHandle :=
  {| processerTaskId := id; taskAlreadyCancelled := false; cancelled := [] |}.

(** ** More vocabulary for the message calls *)

(** The opaque and the partition a message call names. *)
Definition message_target (c : InboundCall) : option (Z * vbid) :=
  match c with
  | Call_streamEnd opaque vbucket _ => Some (opaque, vbucket)
  | Call_mutation opaque _ _ _ _ _ vbucket _ _ _ _ _ _ _ _ _ =>
      Some (opaque, vbucket)
  | Call_deletion opaque _ _ _ vbucket _ _ _ _
  | Call_expiration opaque _ _ _ vbucket _ _ _ _ => Some (opaque, vbucket)
  | Call_snapshotMarker opaque vbucket _ _ _ => Some (opaque, vbucket)
  | Call_setVBucketState opaque vbucket _ => Some (opaque, vbucket)
  | _ => None
  end.

(** The argument checks of the message calls: a non-zero seqno for an item,
    [start_seqno <= end_seqno] for a snapshot marker. *)
Definition message_args_valid (c : InboundCall) : bool :=
  match c with
  | Call_mutation _ _ _ _ _ _ _ _ _ _ bySeqno _ _ _ _ _ => negb (bySeqno =? 0)
  | Call_deletion _ _ _ _ _ bySeqno _ _ _
  | Call_expiration _ _ _ _ _ bySeqno _ _ _ => negb (bySeqno =? 0)
  | Call_snapshotMarker _ _ start_seqno end_seqno _ =>
      negb (end_seqno <? start_seqno)
  | Call_streamEnd _ _ _ | Call_setVBucketState _ _ _ => true
  | _ => false
  end.

(** The extended meta data object a call builds, if any. *)
Definition message_meta (c : InboundCall) : option ExtendedMetaData :=
  match c with
  | Call_mutation _ _ _ _ _ _ _ _ _ _ _ _ _ _ meta nmeta
  | Call_deletion _ _ _ _ _ _ _ meta nmeta
  | Call_expiration _ _ _ _ _ _ _ meta nmeta =>
      if 0 <? nmeta then Some (ExtendedMetaData_new meta nmeta) else None
  | _ => None
  end.

(** The number of throwing allocations a call makes before it allocates
    the message itself: the item, and the meta data object if there is
    one. *)
Definition allocations_before_message (c : InboundCall) : nat :=
  match c with
  | Call_mutation _ _ _ _ _ _ _ _ _ _ _ _ _ _ _ nmeta
  | Call_deletion _ _ _ _ _ _ _ _ nmeta
  | Call_expiration _ _ _ _ _ _ _ _ nmeta => if 0 <? nmeta then 2 else 1
  | _ => 0
  end.

(** The end every message call shares once its message is built: hand it
    to the stream, wake the processor if it was buffered, credit [bytes]
    unless it was buffered. *)
Definition deliver_tail (vbucket : vbid) (s : PassiveStream)
    (response : DcpResponse) (bytes : Z) : M ENGINE_ERROR_CODE :=
  err ← stream_messageReceived vbucket s response;
  wakeIfBuffered err;;
  if decide (err = ENGINE_TMPFAIL) then pure ENGINE_SUCCESS else
  flowControl_incrFreedBytes bytes;;
  pure err.

(** How a message call ends, from [w]: without any delivery, or in
    [deliver_tail] from a world that differs from [w] in the allocations
    made only. *)
Definition message_call_ends (bytes : Z) (w : World)
    (res : Res ENGINE_ERROR_CODE) : Prop :=
  deliveries (new_calls w (world_of res)) = [] \/
  exists w1 vbucket s response,
    cons w1 = cons w /\ engine_ w1 = engine_ w /\ calls w1 = calls w /\
    res = deliver_tail vbucket s response bytes w1.

(** The number of times the processor task was woken. *)
Definition wakes (cs : list Call) : nat :=
  length (omap (fun c => match c with
                         | ExecutorPool_wake => Some tt
                         | _ => None
                         end) cs).

(** ** Vocabulary for the negotiation *)

(** The control messages still to be sent, as key and value, in the order
    in which [step] consults their handlers. *)
Definition pending_controls (c : DcpConsumer) : list (string * string) :=
  (if pendingEnableNoop c then [(noopCtrlMsg, "true")] else [])
  ++ (if pendingSendNoopInterval c
      then [(noopIntervalCtrlMsg, snprintf_10_u (noopInterval c))] else [])
  ++ (if pendingSetPriority c then [(priorityCtrlMsg, "high")] else [])
  ++ (if pendingEnableExtMetaData c
      then [(extMetadataCtrlMsg, "true")] else [])
  ++ (if pendingEnableValueCompression c
      then [(valueCompressionCtrlMsg, "true")] else [])
  ++ (if pendingSupportCursorDropping c
      then [(cursorDroppingCtrlMsg, "true")] else []).

(** The test at the end of [handleNoop]. *)
Definition noop_timed_out (w : World) : bool :=
  wrap32 (noopInterval (cons w) * 2) <? wrap32 (clock w - lastNoopTime (cons w)).

(** The host calls [step] [n] times in a row. *)
Fixpoint steps (n : nat) (producers : dcp_message_producers)
  : M (list ENGINE_ERROR_CODE) :=
  match n with
  | O => pure []
  | S n =>
    r ← step producers;
    rs ← steps n producers;
    pure (r :: rs)
  end.

(** The exchanges with the host that sending the control messages [todo]
    makes when the counter stands at [counter]: each message goes out under
    the next opaque, and is listed with the host's answer to it. *)
Fixpoint control_exchanges (producers : dcp_message_producers) (counter : Z)
    (todo : list (string * string))
  : list (Z * string * string * ENGINE_ERROR_CODE) :=
  match todo with
  | [] => []
  | (key, value) :: rest =>
      let opaque := wrap32 (counter + 1) in
      (opaque, key, value, control producers opaque key value)
      :: control_exchanges producers opaque rest
  end.

(** What a [step] that sends a control message leaves in the log: flow
    control was asked first and declined. *)
Definition exchange_calls (x : Z * string * string * ENGINE_ERROR_CODE)
  : list Call :=
  let '(opaque, key, value, r) := x in
  [FlowControl_handleFlowCtl ENGINE_FAILED;
   Producers_control opaque key value r].

(** ** Vocabulary for the array bounds *)

(** The partitions the consumer keeps in its own books, the ready list
    and the opaque map, all lie within the streams array. *)
Definition in_bounds (w : World) : Prop :=
  (forall vb, vb ∈ ready (cons w) ->
     (N.to_nat vb < length (streams (cons w)))%nat) /\
  (forall new_opaque opaque vb,
     opaqueMap_ (cons w) !! new_opaque = Some (opaque, vb) ->
     (N.to_nat vb < length (streams (cons w)))%nat).

Definition is_out_of_bounds {A} (r : Res A) : bool :=
  match r with
  | Raise out_of_bounds _ => true
  | _ => false
  end.

(** The partition an inbound call indexes the streams array with, taken
    from its arguments. *)
Definition call_partition (c : InboundCall) : option vbid :=
  match c with
  | Call_addStream _ vbucket _ | Call_closeStream _ vbucket => Some vbucket
  | _ => snd <$> message_target c
  end.

(** A world with [n] slots and disconnect flag [d] whose books are in
    bounds. *)
Definition good (n : nat) (d : bool) (w : World) : Prop :=
  length (streams (cons w)) = n /\ disconnect (cons w) = d /\ in_bounds w.

(** [m] keeps a good world good, whether it returns or faults; when
    [strict], it does not read past the end of the array either. *)
Definition bounded (strict : bool) (n : nat) (d : bool) {A} (m : M A)
  : Prop :=
  forall w, good n d w ->
    good n d (world_of (m w)) /\
    (strict = true -> is_out_of_bounds (m w) = false).

(** ** Vocabulary for the opaques *)

(** [++opaqueCounter], [n] times over. *)
Definition opaque_after (n : nat) (counter : Z) : Z :=
  Nat.iter n (fun k => wrap32 (k + 1)) counter.

(** Every registration is filed under an opaque minted so far, and the
    counter has not wrapped. *)
Definition fresh (w : World) : Prop :=
  0 <= opaqueCounter (cons w) /\
  forall k v,
    opaqueMap_ (cons w) !! k = Some v -> 0 < k <= opaqueCounter (cons w).

(** From [w] to [w'] the counter was incremented [n] times, and every
    registration of [w'] either was one of [w] or is filed under one of
    the opaques minted on the way. *)
Definition minted (n : nat) (w w' : World) : Prop :=
  opaqueCounter (cons w') = opaque_after n (opaqueCounter (cons w)) /\
  forall k v,
    opaqueMap_ (cons w') !! k = Some v ->
    opaqueMap_ (cons w) !! k = Some v \/
    exists i, (1 <= i <= n)%nat /\ k = opaque_after i (opaqueCounter (cons w)).

(** [m] mints at most [N] opaques, whether it returns or faults. *)
Definition mints (N : nat) {A} (m : M A) : Prop :=
  forall w, exists n, (n <= N)%nat /\ minted n w (world_of (m w)).

(** [m] leaves the counter alone and files registrations under the
    opaque [o] only, when [o] is the counter's value. *)
Definition files_under (o : Z) {A} (m : M A) : Prop :=
  forall w,
    opaqueCounter (cons w) = o ->
    opaqueCounter (cons (world_of (m w))) = o /\
    forall k v,
      opaqueMap_ (cons (world_of (m w))) !! k = Some v ->
      opaqueMap_ (cons w) !! k = Some v \/ k = o.

(** The most opaques an inbound call mints: one per control message for
    [step], one for [addStream], none for the others. *)
Definition opaques_minted_by (c : InboundCall) : nat :=
  match c with
  | Call_step _ => 6
  | Call_addStream _ _ _ => 1
  | _ => 0
  end.

End ConsumerCode.

(** ** A scripted set of collaborators

    One concrete instance of the interface, used to run the consumer on
    concrete inputs.  The engine holds a table of partitions and two
    scripts: the codes its store's [rollback] returns, call by call, and the
    codes the streams' [messageReceived] returns, call by call (once a
    script is used up, [rollback] succeeds and [messageReceived] buffers,
    that is, returns [ENGINE_TMPFAIL]).  A stream keeps its opaque, its
    state, its queue of outbound responses and its buffered messages; flow
    control keeps the freed bytes and acknowledges once they reach a
    threshold; extended meta data is valid when its first byte is the
    version 1. *)
Module Scripted.

Record engine : Type := mkEngine {
  vbuckets : list (vbid * VBucket);
  rollback_script : list ENGINE_ERROR_CODE;
  message_script : list ENGINE_ERROR_CODE }.

Record stream : Type := mkStream {
  opaque_ : Z; vb_ : vbid; flags_ : Z; state_ : stream_state_t;
  readyQ : list DcpResponse;
  buffer : list DcpResponse }.

Record flow_control : Type := mkFlowControl {
  freedBytes : Z;
  ackThreshold : Z }.

Definition lookup_vbucket (e : engine) (vbucket : vbid) : option VBucket :=
  (snd ∘ snd) <$> list_find (fun p => fst p = vbucket) (vbuckets e).

Definition do_rollback (e : engine) (vbucket : vbid) (seqno : Z)
  : ENGINE_ERROR_CODE * engine :=
  match rollback_script e with
  | [] => (ENGINE_SUCCESS, e)
  | r :: rest =>
      (r, {| vbuckets := vbuckets e; rollback_script := rest;
             message_script := message_script e |})
  end.

Definition replace_log (e : engine) (vbucket : vbid) (body : Bytes)
  : engine :=
  {| vbuckets :=
       (fun p : vbid * VBucket =>
          if decide (fst p = vbucket)
          then (fst p, {| vb_state := vb_state (snd p);
                          vb_snapshotInfo := vb_snapshotInfo (snd p);
                          vb_latest_uuid := ntohll_bytes body;
                          vb_highSeqno := vb_highSeqno (snd p) |})
          else p) <$> vbuckets e;
     rollback_script := rollback_script e;
     message_script := message_script e |}.

Definition new_stream (flags opaque : Z) (vbucket : vbid)
    (start_seqno end_seqno vb_uuid snap_start snap_end high_seqno : Z)
  : stream :=
  {| opaque_ := opaque; vb_ := vbucket; flags_ := flags;
     state_ := STREAM_PENDING;
     readyQ := [StreamRequest vbucket opaque flags start_seqno end_seqno
                  vb_uuid snap_start snap_end];
     buffer := [] |}.

Definition with_state (s : stream) (st : stream_state_t) : stream :=
  {| opaque_ := opaque_ s; vb_ := vb_ s; flags_ := flags_ s; state_ := st;
     readyQ := readyQ s; buffer := buffer s |}.

Definition with_readyQ (s : stream) (q : list DcpResponse) : stream :=
  {| opaque_ := opaque_ s; vb_ := vb_ s; flags_ := flags_ s;
     state_ := state_ s; readyQ := q; buffer := buffer s |}.

Definition with_buffer (s : stream) (b : list DcpResponse) : stream :=
  {| opaque_ := opaque_ s; vb_ := vb_ s; flags_ := flags_ s;
     state_ := state_ s; readyQ := readyQ s; buffer := b |}.

Definition message_received (s : stream) (resp : DcpResponse) (e : engine)
  : ENGINE_ERROR_CODE * bool * stream * engine :=
  match message_script e with
  | [] => (ENGINE_TMPFAIL, false, with_buffer s (buffer s ++ [resp]), e)
  | r :: rest =>
      let e' := {| vbuckets := vbuckets e;
                   rollback_script := rollback_script e;
                   message_script := rest |} in
      if decide (r = ENGINE_TMPFAIL)
      then (r, false, with_buffer s (buffer s ++ [resp]), e')
      else (r, false, s, e')
  end.

Definition next_response (s : stream) : option DcpResponse * stream :=
  match readyQ s with
  | [] => (None, s)
  | r :: rest => (Some r, with_readyQ s rest)
  end.

Definition set_dead (s : stream) (status : end_stream_status_t)
  : Z * stream :=
  (0, with_buffer (with_state s STREAM_DEAD) []).

Definition accept_stream (s : stream) (status add_opaque : Z)
  : bool * stream :=
  (true,
   with_readyQ
     (with_state s (if status =? 0 then STREAM_READING else STREAM_DEAD))
     (readyQ s ++ [AddStreamResponse add_opaque (opaque_ s) status])).

Definition reconnect_stream (s : stream) (vb : VBucket)
    (new_opaque start_seqno : Z) : bool * stream :=
  (true,
   with_readyQ s
     (readyQ s ++
      [StreamRequest (vb_ s) new_opaque (flags_ s) start_seqno (2 ^ 64 - 1)
         (vb_latest_uuid vb) (info_range_start (vb_snapshotInfo vb))
         (info_range_end (vb_snapshotInfo vb))])).

Definition handle_flow_ctl (fc : flow_control) (p : dcp_message_producers)
  : ENGINE_ERROR_CODE * flow_control :=
  if ackThreshold fc <=? freedBytes fc
  then (ENGINE_SUCCESS, {| freedBytes := 0; ackThreshold := ackThreshold fc |})
  else (ENGINE_FAILED, fc).

Definition meta_status (emd : ExtendedMetaData) : ENGINE_ERROR_CODE :=
  match emd with
  | Byte.x01 :: _ => ENGINE_SUCCESS
  | _ => ENGINE_EINVAL
  end.

#[local] Instance collaborators : Collaborators := {|
  Engine := engine;
  getVBucket := lookup_vbucket;
  rollback := do_rollback;
  replaceFailoverLog := replace_log;
  PassiveStream := stream;
  PassiveStream_new := new_stream;
  getOpaque := opaque_;
  isActive := fun s => negb (bool_decide (state_ s = STREAM_DEAD));
  getState := state_;
  messageReceived := message_received;
  next := next_response;
  setDead := set_dead;
  acceptStream := accept_stream;
  reconnectStream := reconnect_stream;
  FlowControl := flow_control;
  FlowControl_new := fun _ => {| freedBytes := 0; ackThreshold := 1024 |};
  incrFreedBytes := fun fc n =>
    {| freedBytes := freedBytes fc + n; ackThreshold := ackThreshold fc |};
  handleFlowCtl := handle_flow_ctl;
  getStatus := meta_status;
  mutationBaseMsgBytes := 55;
  deletionBaseMsgBytes := 42;
  StreamEndResponse_baseMsgBytes := 28;
  SnapshotMarker_baseMsgBytes := 44;
  SetVBucketState_baseMsgBytes := 25 |}.

(** A host that accepts every message. *)
Definition accepting : dcp_message_producers :=
  {| stream_req := fun _ _ _ _ _ _ _ _ => ENGINE_SUCCESS;
     add_stream_rsp := fun _ _ _ => ENGINE_SUCCESS;
     set_vbucket_state_rsp := fun _ _ => ENGINE_SUCCESS;
     marker_rsp := fun _ _ => ENGINE_SUCCESS;
     control := fun _ _ _ => ENGINE_SUCCESS |}.

(** A replica partition with nothing stored yet. *)
Definition empty_replica : VBucket :=
  {| vb_state := vbucket_state_replica;
     vb_snapshotInfo := {| info_start := 0; info_range_start := 0;
                           info_range_end := 0 |};
     vb_latest_uuid := 4369; vb_highSeqno := 0 |}.

Definition config (noop : bool) : Configuration :=
  {| getMaxVbuckets := 4; getDcpNoopInterval := 1; isDcpEnableNoop := noop;
     isDcpValueCompressionEnabled := false |}.

(** An engine with replica partitions 0 and 1, whose streams answer the
    coming messages with [answers]. *)
Definition two_replicas (answers : list ENGINE_ERROR_CODE) : engine :=
  {| vbuckets := [(0%N, empty_replica); (1%N, empty_replica)];
     rollback_script := []; message_script := answers |}.

(** Runs a sequence of calls from a world, keeping the results. *)
Fixpoint run (cs : list InboundCall) (w : World)
  : Res (list ENGINE_ERROR_CODE) :=
  match cs with
  | [] => Ok [] w
  | c :: rest =>
    match invoke c w with
    | Ok r w' =>
      match run rest w' with
      | Ok rs w'' => Ok (r :: rs) w''
      | Raise f w'' => Raise f w''
      end
    | Raise f w' => Raise f w'
    end
  end.

(** The world the calls [cs] lead to from [w]. *)
Definition after (cs : list InboundCall) (w : World) : World :=
  world_of (run cs w).

(** A consumer just connected at time 0, with noop configured or not. *)
Definition connected (noop : bool) (answers : list ENGINE_ERROR_CODE)
  : World :=
  connect (config noop) (two_replicas answers) 0 [].

(** The producer's answer to a stream request of the given opaque: status
    [status], and as body a failover log of one entry (uuid 0x1111,
    seqno 0) when [with_log] is set, nothing otherwise. *)
Definition stream_response (opaque status : Z) (with_log : bool)
  : protocol_binary_response :=
  {| resp_opcode := PROTOCOL_BINARY_CMD_DCP_STREAM_REQ;
     resp_opaque := opaque; resp_status := status;
     resp_body :=
       if with_log
       then [Byte.x00; Byte.x00; Byte.x00; Byte.x00;
             Byte.x00; Byte.x00; Byte.x11; Byte.x11;
             Byte.x00; Byte.x00; Byte.x00; Byte.x00;
             Byte.x00; Byte.x00; Byte.x00; Byte.x00]
       else [] |}.

(** A ROLLBACK answer asking to go back to seqno 42. *)
Definition rollback_response (opaque : Z) : protocol_binary_response :=
  {| resp_opcode := PROTOCOL_BINARY_CMD_DCP_STREAM_REQ;
     resp_opaque := opaque;
     resp_status := PROTOCOL_BINARY_RESPONSE_ROLLBACK;
     resp_body := [Byte.x00; Byte.x00; Byte.x00; Byte.x00;
                   Byte.x00; Byte.x00; Byte.x00; Byte.x2a] |}.

(** After [addStream(7, vb 0, 0)]: the stream of partition 0 is pending
    under the opaque 1. *)
Definition requested (answers : list ENGINE_ERROR_CODE) : World :=
  after [Call_addStream 7 0%N 0] (connected false answers).

(** After the producer accepted that stream: it is reading. *)
Definition reading (answers : list ENGINE_ERROR_CODE) : World :=
  after [Call_handleResponse (stream_response 1 0 true)] (requested answers).

(** After the snapshot marker for seqnos 10 to 12 was received (and
    applied at once). *)
Definition in_snapshot (answers : list ENGINE_ERROR_CODE) : World :=
  after [Call_snapshotMarker 1 0%N 10 12 0]
    (reading (ENGINE_SUCCESS :: answers)).


(** After the stream of partition 0 was closed again. *)
Definition closed : World :=
  after [Call_closeStream 7 0%N] (requested []).

(** The pending partition again, over a store whose [rollback] answers
    with [answers]. *)
Definition requested_over_store (answers : list ENGINE_ERROR_CODE) : World :=
  with_engine (requested [])
    {| vbuckets := [(0%N, empty_replica); (1%N, empty_replica)];
       rollback_script := answers; message_script := [] |}.

(** A consumer with noop configured, after the five steps that send its
    control messages (value compression is off). *)
Definition negotiated : World :=
  after (replicate 5 (Call_step accepting))
    (connect (config true) (two_replicas []) 0 []).

(** The same, three seconds later, no noop having arrived. *)
Definition negotiated_and_silent : World := with_clock negotiated 3.

(** The item of the mutation below. *)
Definition an_item (bySeqno : Z) : Item :=
  mkItem [Byte.x6b; Byte.x65; Byte.x79; Byte.x31] 4 0 0
    [Byte.x76; Byte.x61; Byte.x6c; Byte.x75;
     Byte.x65; Byte.x30; Byte.x30; Byte.x31] 8 (Some 0) 0 bySeqno 0%N 1
    false.

(** A mutation of four key bytes and eight value bytes. *)
Definition a_mutation (bySeqno : Z) (meta : Bytes) : InboundCall :=
  Call_mutation 1 [Byte.x6b; Byte.x65; Byte.x79; Byte.x31] 4
    [Byte.x76; Byte.x61; Byte.x6c; Byte.x75;
     Byte.x65; Byte.x30; Byte.x30; Byte.x31] 8
    0 0%N 0 0 0 bySeqno 1 0 0 meta (Z.of_nat (length meta)).


(** The producer's answer to a control message. *)
Definition control_response (opaque : Z) : protocol_binary_response :=
  {| resp_opcode := PROTOCOL_BINARY_CMD_DCP_CONTROL;
     resp_opaque := opaque; resp_status := 0; resp_body := [] |}.

(** The stream [addStream(7, vb 0, 0)] creates under the opaque 1, and what
    it becomes once the producer accepted it. *)
Definition pending_stream : stream :=
  new_stream 0 1 0%N 0 (2 ^ 64 - 1) 4369 0 0 0.

Definition reading_stream : stream := (accept_stream pending_stream 0 7).2.

(** A flow control that has nothing to acknowledge. *)
Definition idle (fc : flow_control) : Prop := freedBytes fc < ackThreshold fc.

(** A stream whose queue holds only responses a consumer writes. *)
Definition well_behaved (s : stream) : Prop :=
  Forall (fun r => consumer_event (getEvent r) = true) (readyQ s).

(** The pending partition once the three control messages of a consumer
    without noop have gone out: the stream request is next. *)
Definition request_due : World :=
  after (replicate 3 (Call_step accepting)) (requested []).

End Scripted.

(** * Properties *)

Section ConsumerProperties.
Context `{Collaborators}.

(** Unfolds the monad and the small steps, leaving a term of matches on
    the world and on what the collaborators return. *)
Ltac unfold_steps :=
  unfold setLastWalkTime, setPaused, doDisconnect, ep_current_time,
    incrOpaqueCounter, set_stream, engine_getVBucket, engine, set_engine,
    flowControl_incrFreedBytes, flowControl_handleFlowCtl, producers_control,
    itemsToProcess_compare_exchange_strong, bind, pure, raise, gets, modify,
    call in *.

(** ** The call log *)

Lemma new_calls_app (w w' : World) (cs : list Call) :
  calls w' = calls w ++ cs -> new_calls w w' = cs.
Proof. unfold new_calls. intros ->. apply drop_app_length. Qed.

Lemma new_calls_same (w w' : World) :
  calls w' = calls w -> new_calls w w' = [].
Proof.
  intros Hc. apply new_calls_app. by rewrite Hc, app_nil_r.
Qed.

(** ** Disconnect *)



(** ** What follows a delivery *)

(** The stream's slot is in range whenever [stream_at] returned it. *)
Lemma stream_at_Ok (vbucket : vbid) (w : World) slot :
  streams (cons w) !! N.to_nat vbucket = Some slot ->
  stream_at vbucket w = Ok slot w.
Proof. unfold stream_at. by intros ->. Qed.

Lemma notifyStreamReady_calls (vbucket : vbid) (w : World) :
  exists w' evs,
    notifyStreamReady vbucket w = Ok tt w' /\
    calls w' = calls w ++ evs /\ credits evs = [] /\ deliveries evs = [] /\
    heap w' = heap w.
Proof.
  unfold notifyStreamReady. unfold_steps.
  destruct (decide _).
  - exists w, []. by rewrite app_nil_r.
  - eexists _, [_]. simpl. done.
Qed.

Lemma stream_callback_calls (vbucket : vbid) (notify : bool) (w : World) :
  exists w' evs,
    stream_callback vbucket notify w = Ok tt w' /\
    calls w' = calls w ++ evs /\ credits evs = [] /\ deliveries evs = [].
Proof.
  destruct notify; simpl.
  - destruct (notifyStreamReady_calls vbucket w) as (w' & evs & ? & ? & ? & ? & ?).
    by exists w', evs.
  - exists w, []. by rewrite app_nil_r.
Qed.

Lemma stream_messageReceived_calls (vbucket : vbid) (s : PassiveStream)
    (response : DcpResponse) (w : World) :
  exists w' evs,
    stream_messageReceived vbucket s response w
      = Ok (messageReceived s response (engine_ w)).1.1.1 w' /\
    calls w' =
      calls w ++
      Stream_messageReceived vbucket response
        (messageReceived s response (engine_ w)).1.1.1 :: evs /\
    credits evs = [] /\ deliveries evs = [].
Proof.
  unfold stream_messageReceived. unfold_steps.
  destruct (messageReceived s response (engine_ w)) as [[[err notify] s'] e'].
  simpl.
  match goal with
  | |- context [stream_callback vbucket notify ?w1] =>
      destruct (stream_callback_calls vbucket notify w1)
        as (w' & evs & -> & Hc & ? & ?)
  end.
  exists w', evs. simpl in Hc. rewrite Hc, <- app_assoc. done.
Qed.

Lemma wakeIfBuffered_calls (err : ENGINE_ERROR_CODE) (w : World) :
  exists w' evs,
    wakeIfBuffered err w = Ok tt w' /\
    calls w' = calls w ++ evs /\ credits evs = [] /\ deliveries evs = [].
Proof.
  unfold wakeIfBuffered. unfold_steps.
  destruct (decide _); [destruct (bool_decide _)|]; simpl.
  - eexists _, [_]. done.
  - exists w, []. by rewrite app_nil_r.
  - exists w, []. by rewrite app_nil_r.
Qed.

(** The tail shared by the six message calls: deliver, wake the processor
    if the message was buffered, then credit unless it was buffered. *)
Lemma deliver_then_finish (vbucket : vbid) (s : PassiveStream)
    (response : DcpResponse) (bytes : Z) (w : World) :
  let err := (messageReceived s response (engine_ w)).1.1.1 in
  exists w' evs,
    bind (stream_messageReceived vbucket s response) (fun err =>
      bind (wakeIfBuffered err) (fun _ =>
        if decide (err = ENGINE_TMPFAIL) then pure ENGINE_SUCCESS
        else bind (flowControl_incrFreedBytes bytes) (fun _ => pure err))) w
      = Ok (if decide (err = ENGINE_TMPFAIL) then ENGINE_SUCCESS else err) w'
    /\ calls w' = calls w ++ Stream_messageReceived vbucket response err :: evs
    /\ deliveries evs = []
    /\ credits evs = if decide (err = ENGINE_TMPFAIL) then [] else [bytes].
Proof.
  intros err.
  destruct (stream_messageReceived_calls vbucket s response w)
    as (w1 & evs1 & Hm & Hc1 & Hcr1 & Hd1).
  destruct (wakeIfBuffered_calls err w1) as (w2 & evs2 & Hw & Hc2 & Hcr2 & Hd2).
  unfold bind at 1. rewrite Hm. fold err.
  unfold bind at 1. rewrite Hw.
  destruct (decide (err = ENGINE_TMPFAIL)).
  - exists w2, (evs1 ++ evs2). unfold pure. split; [done|].
    rewrite Hc2, Hc1, <- app_assoc. simpl.
    unfold deliveries, credits in *. rewrite !omap_app.
    by rewrite Hd1, Hd2, Hcr1, Hcr2.
  - unfold_steps. simpl.
    eexists _, (evs1 ++ evs2 ++ [FlowControl_incrFreedBytes bytes]).
    split; [done|]. simpl.
    rewrite Hc2, Hc1, <- !app_assoc. simpl.
    unfold deliveries, credits in *. rewrite !omap_app.
    by rewrite Hd1, Hd2, Hcr1, Hcr2.
Qed.


Lemma no_delivery_not_in (evs : list Call) vb resp err :
  deliveries evs = [] -> Stream_messageReceived vb resp err ∉ evs.
Proof.
  induction evs as [|c evs IH]; [intros _; apply not_elem_of_nil|].
  intros Hd Hin. apply elem_of_cons in Hin as [<-|Hin]; [discriminate|].
  destruct c; try discriminate; by apply IH.
Qed.

Lemma not_in_new_calls_same (w w' : World) (c : Call) :
  calls w' = calls w -> c ∈ new_calls w w' -> False.
Proof.
  intros Hc. rewrite (new_calls_same _ _ Hc). apply not_elem_of_nil.
Qed.

Lemma try_new_calls (w : World) :
  exists b w', try_new w = Ok b w' /\ calls w' = calls w /\
               engine_ w' = engine_ w.
Proof.
  unfold try_new. destruct (heap w); eauto.
Qed.



Lemma credit_rule_silent bytes w res :
  calls (world_of res) = calls w -> credit_rule bytes w res.
Proof.
  intros Hc vb resp err Hin. by apply not_in_new_calls_same in Hin.
Qed.

Lemma credit_rule_no_stream bytes w w1 r evs :
  calls w1 = calls w ++ evs -> deliveries evs = [] ->
  credit_rule bytes w (Ok r w1).
Proof.
  intros Hc Hd vb resp err Hin. simpl in Hin.
  rewrite (new_calls_app _ _ _ Hc) in Hin.
  by apply no_delivery_not_in in Hin.
Qed.

Lemma credit_rule_deliver bytes w w1 vbucket s response :
  calls w1 = calls w ->
  credit_rule bytes w
    (bind (stream_messageReceived vbucket s response) (fun err =>
       bind (wakeIfBuffered err) (fun _ =>
         if decide (err = ENGINE_TMPFAIL) then pure ENGINE_SUCCESS
         else bind (flowControl_incrFreedBytes bytes) (fun _ => pure err)))
       w1).
Proof.
  intros Hc1.
  destruct (deliver_then_finish vbucket s response bytes w1)
    as (w' & evs & -> & Hc & Hd & Hcr).
  intros vb resp err Hin. simpl in Hin.
  rewrite Hc1 in Hc.
  rewrite (new_calls_app _ _ _ Hc) in Hin.
  apply elem_of_cons in Hin as [Heq|Hin]; [|by apply no_delivery_not_in in Hin].
  injection Heq as _ _ ->.
  exists w'. split; [done|]. by rewrite (new_calls_app _ _ _ Hc).
Qed.


Lemma new_cases (w : World) :
  (exists w1, new_ w = Ok tt w1 /\ calls w1 = calls w) \/
  new_ w = Raise bad_alloc w.
Proof.
  unfold new_. destruct (heap w) as [|[] ?]; eauto.
Qed.

Ltac silent := apply credit_rule_silent; simpl; congruence.

(** Opens the first [bind] of the outcome under [credit_rule]. *)
Ltac open_bind :=
  lazymatch goal with
  | |- credit_rule _ _ (bind ?m ?k ?w) =>
      change (bind m k w)
        with (match m w with Ok a w' => k a w' | Raise f w' => Raise f w' end)
  end.

Ltac check_disconnect w :=
  open_bind; unfold doDisconnect, gets at 1;
  destruct (disconnect (cons w)); [silent|].

Ltac read_slot w vbucket slot :=
  open_bind; unfold stream_at at 1;
  destruct (streams (cons w) !! N.to_nat vbucket) as [slot|]; [|silent].

Ltac no_live_stream :=
  unfold decide, decide_rel; simpl; unfold_steps; simpl;
  by eapply credit_rule_no_stream with (evs := [_]).

Ltac allocate w w1 Hc1 :=
  open_bind;
  let Hc := fresh "Hc" in
  destruct (new_cases w) as [(w1 & -> & Hc)| ->]; [|silent];
  assert (Hc1 := Hc); clear Hc.

Ltac try_allocate w w1 Hc1 :=
  open_bind;
  let b := fresh "b" in
  destruct (try_new_calls w) as (b & w1 & -> & Hc1 & _);
  destruct b; simpl; [|silent].

Lemma streamEnd_credit_rule opaque vbucket flags (w : World) :
  credit_rule StreamEndResponse_baseMsgBytes w
    (streamEnd opaque vbucket flags w).
Proof.
  unfold streamEnd. check_disconnect w. read_slot w vbucket slot.
  destruct (live_stream slot opaque) as [s|]; [|no_live_stream].
  try_allocate w w1 Hc1. by apply credit_rule_deliver.
Qed.

Lemma snapshotMarker_credit_rule opaque vbucket start_seqno end_seqno flags
    (w : World) :
  credit_rule SnapshotMarker_baseMsgBytes w
    (snapshotMarker opaque vbucket start_seqno end_seqno flags w).
Proof.
  unfold snapshotMarker. check_disconnect w.
  destruct (end_seqno <? start_seqno); [silent|].
  read_slot w vbucket slot.
  destruct (live_stream slot opaque) as [s|]; [|no_live_stream].
  try_allocate w w1 Hc1. by apply credit_rule_deliver.
Qed.

Lemma setVBucketState_credit_rule opaque vbucket state (w : World) :
  credit_rule SetVBucketState_baseMsgBytes w
    (setVBucketState opaque vbucket state w).
Proof.
  unfold setVBucketState. check_disconnect w. read_slot w vbucket slot.
  destruct (live_stream slot opaque) as [s|]; [|no_live_stream].
  try_allocate w w1 Hc1. by apply credit_rule_deliver.
Qed.

Lemma mutation_credit_rule opaque key nkey value nvalue cas vbucket flags
    datatype locktime bySeqno revSeqno exptime nru meta nmeta (w : World) :
  credit_rule (wrap32 (mutationBaseMsgBytes + nkey + nmeta + nvalue)) w
    (mutation opaque key nkey value nvalue cas vbucket flags datatype
       locktime bySeqno revSeqno exptime nru meta nmeta w).
Proof.
  unfold mutation. check_disconnect w.
  destruct (bySeqno =? 0); [silent|].
  read_slot w vbucket slot.
  destruct (live_stream slot opaque) as [s|]; [|no_live_stream].
  allocate w w1 Hc1. cbv zeta.
  destruct (0 <? nmeta).
  - allocate w1 w2 Hc2.
    destruct (decide _); [silent|].
    try_allocate w2 w3 Hc3. apply credit_rule_deliver. congruence.
  - try_allocate w1 w2 Hc2. apply credit_rule_deliver. congruence.
Qed.

Lemma deletion_credit_rule opaque key nkey cas vbucket bySeqno revSeqno meta
    nmeta (w : World) :
  credit_rule (wrap32 (deletionBaseMsgBytes + nkey + nmeta)) w
    (deletion opaque key nkey cas vbucket bySeqno revSeqno meta nmeta w).
Proof.
  unfold deletion. check_disconnect w.
  destruct (bySeqno =? 0); [silent|].
  read_slot w vbucket slot.
  destruct (live_stream slot opaque) as [s|]; [|no_live_stream].
  allocate w w1 Hc1. cbv zeta.
  destruct (0 <? nmeta).
  - allocate w1 w2 Hc2.
    destruct (decide _); [silent|].
    try_allocate w2 w3 Hc3. apply credit_rule_deliver. congruence.
  - try_allocate w1 w2 Hc2. apply credit_rule_deliver. congruence.
Qed.

(** C1, as the code has it: for every inbound message call whose message
    reaches [messageReceived], the call returns; if the stream answered
    [ENGINE_SUCCESS] the call returns it and credits flow control exactly
    once with the message's bytes; if it answered [ENGINE_TMPFAIL] the call
    returns [ENGINE_SUCCESS] and credits nothing; for any other answer the
    call returns that answer and credits the message's bytes exactly
    once. *)
Theorem message_call_credit (c : InboundCall) (bytes : Z) (w : World)
    (vb : vbid) (resp : DcpResponse) (err : ENGINE_ERROR_CODE) :
  message_bytes c = Some bytes ->
  Stream_messageReceived vb resp err ∈ new_calls w (world_of (invoke c w)) ->
  exists r w',
    invoke c w = Ok r w' /\
    (err = ENGINE_SUCCESS ->
       r = ENGINE_SUCCESS /\ credits (new_calls w w') = [bytes]) /\
    (err = ENGINE_TMPFAIL ->
       r = ENGINE_SUCCESS /\ credits (new_calls w w') = []) /\
    (err <> ENGINE_SUCCESS -> err <> ENGINE_TMPFAIL ->
       r = err /\ credits (new_calls w w') = [bytes]).
Proof.
  intros Hbytes Hin.
  assert (Hrule : credit_rule bytes w (invoke c w)).
  { destruct c; simpl in Hbytes; try discriminate;
      injection Hbytes as <-; simpl.
    - apply streamEnd_credit_rule.
    - apply mutation_credit_rule.
    - apply deletion_credit_rule.
    - apply deletion_credit_rule.
    - apply snapshotMarker_credit_rule.
    - apply setVBucketState_credit_rule. }
  destruct (Hrule vb resp err Hin) as (w' & Heq & Hcr).
  eexists _, w'. split; [exact Heq|].
  destruct (decide (err = ENGINE_TMPFAIL)) as [->|Hne].
  - repeat split; try done.
  - repeat split; try done; intros ->; done.
Qed.


(** ** Validation of the arguments *)

(** C8: on a connection not flagged for disconnect, a snapshot marker with
    [start_seqno > end_seqno] returns [ENGINE_EINVAL] and leaves the whole
    world as it was: no stream changes state, nothing is delivered, nothing
    is credited.  A marker with [start_seqno = end_seqno] passes the
    validation: it goes on to the stream lookup, so that without a live
    matching stream the call returns [ENGINE_KEY_ENOENT], and with one (and
    memory for the message) the marker is handed to the stream. *)
Theorem snapshotMarker_validation (opaque : Z) (vbucket : vbid)
    (start_seqno end_seqno flags : Z) (w : World) :
  disconnect (cons w) = false ->
  (start_seqno > end_seqno ->
     snapshotMarker opaque vbucket start_seqno end_seqno flags w
       = Ok ENGINE_EINVAL w) /\
  (start_seqno = end_seqno ->
     forall slot, streams (cons w) !! N.to_nat vbucket = Some slot ->
       match live_stream slot opaque with
       | None =>
           exists w',
             snapshotMarker opaque vbucket start_seqno end_seqno flags w
               = Ok ENGINE_KEY_ENOENT w'
       | Some s =>
           hd true (heap w) = true ->
           exists r w',
             snapshotMarker opaque vbucket start_seqno end_seqno flags w
               = Ok r w' /\
             deliveries (new_calls w w')
               = [(vbucket,
                   SnapshotMarker opaque vbucket start_seqno end_seqno flags)]
       end).
Proof.
  intros Hd. split.
  - intros Hgt. unfold snapshotMarker. unfold_steps. rewrite Hd.
    by destruct (Z.ltb_spec end_seqno start_seqno); [|lia].
  - intros -> slot Hslot.
    remember (snapshotMarker opaque vbucket end_seqno end_seqno flags w)
      as outcome eqn:Hout.
    unfold snapshotMarker in Hout.
    unfold bind at 1 in Hout. unfold doDisconnect, gets at 1 in Hout.
    rewrite Hd, Z.ltb_irrefl in Hout.
    unfold bind at 1 in Hout. rewrite (stream_at_Ok _ _ _ Hslot) in Hout.
    destruct (live_stream slot opaque) as [s|].
    + intros Hheap.
      unfold bind at 1 in Hout.
      assert (exists w1, try_new w = Ok true w1 /\ calls w1 = calls w)
        as (w1 & Hnew & Hc1).
      { unfold try_new. destruct (heap w) as [|b h].
        - by exists w.
        - simpl in Hheap. subst b. by eexists. }
      rewrite Hnew in Hout. simpl in Hout.
      destruct (deliver_then_finish vbucket s
                  (SnapshotMarker opaque vbucket end_seqno end_seqno flags)
                  SnapshotMarker_baseMsgBytes w1)
        as (w' & evs & Heq & Hc & Hdl & _).
      rewrite Heq in Hout.
      eexists _, w'. split; [exact Hout|].
      rewrite Hc1 in Hc. rewrite (new_calls_app _ _ _ Hc).
      simpl. by rewrite Hdl.
    + subst outcome. unfold decide, decide_rel; simpl. unfold_steps.
      by eexists.
Qed.


Lemma live_stream_Some (s : PassiveStream) (opaque : Z) :
  getOpaque s = opaque -> isActive s = true ->
  live_stream (Some s) opaque = Some s.
Proof.
  intros Ho Ha. unfold live_stream. by rewrite Ho, Z.eqb_refl, Ha.
Qed.

(** Two allocations in a row that both succeed. *)
Lemma new_twice (w : World) :
  Forall (eq true) (take 2 (heap w)) ->
  new_ w = Ok tt (with_heap w (drop 1 (heap w))) /\
  new_ (with_heap w (drop 1 (heap w))) = Ok tt (with_heap w (drop 2 (heap w))).
Proof.
  unfold new_. destruct w as [c e t h n l]; simpl.
  destruct h as [|b1 [|b2 h]]; simpl; intros Hall.
  - done.
  - apply Forall_cons in Hall as [<- _]. done.
  - apply Forall_cons in Hall as [<- Hall].
    apply Forall_cons in Hall as [<- _]. done.
Qed.

(** C10: a mutation, deletion or expiration on a live connection, with a
    non-zero seqno, for a partition whose stream is present, has the call's
    opaque and is active, with [nmeta > 0] and extended meta data whose
    status is [ENGINE_EINVAL], returns [ENGINE_EINVAL]; the only change to
    the world is the two allocations made (the item and the meta data), so
    that no call left the consumer: no message was delivered to the stream
    and no bytes were credited. *)
Theorem invalid_meta_rejected (c : InboundCall) (opaque : Z) (vbucket : vbid)
    (bySeqno : Z) (meta : Bytes) (nmeta : Z) (w : World)
    (s : PassiveStream) :
  item_call c = Some (opaque, vbucket, bySeqno, meta, nmeta) ->
  disconnect (cons w) = false ->
  bySeqno <> 0 ->
  streams (cons w) !! N.to_nat vbucket = Some (Some s) ->
  getOpaque s = opaque ->
  isActive s = true ->
  0 < nmeta ->
  getStatus (ExtendedMetaData_new meta nmeta) = ENGINE_EINVAL ->
  Forall (eq true) (take 2 (heap w)) ->
  invoke c w = Ok ENGINE_EINVAL (with_heap w (drop 2 (heap w))) /\
  new_calls w (with_heap w (drop 2 (heap w))) = [].
Proof.
  intros Hc Hd Hseq Hslot Ho Ha Hn Hst Hheap.
  split; [|by apply new_calls_same].
  destruct (new_twice w Hheap) as [Hnew1 Hnew2].
  apply Z.eqb_neq in Hseq. apply Z.ltb_lt in Hn.
  destruct c; simpl in Hc; try discriminate;
    injection Hc as -> -> -> -> ->; simpl;
    unfold expiration, mutation, deletion;
    (unfold bind at 1; unfold doDisconnect, gets at 1; rewrite Hd, Hseq;
     unfold bind at 1; rewrite (stream_at_Ok _ _ _ Hslot);
     rewrite (live_stream_Some _ _ Ho Ha);
     unfold bind at 1; rewrite Hnew1; cbv zeta; rewrite Hn;
     unfold bind at 1; rewrite Hnew2;
     by destruct (decide _)).
Qed.


(** ** Responses *)

Lemma stream_acceptStream_returns vbucket s status add_opaque (w : World) :
  exists w', stream_acceptStream vbucket s status add_opaque w = Ok tt w'.
Proof.
  unfold stream_acceptStream.
  destruct (acceptStream s status add_opaque) as [notify s'].
  unfold_steps. simpl.
  match goal with
  | |- context [stream_callback vbucket notify ?w1] =>
      destruct (stream_callback_calls vbucket notify w1) as (w' & ? & -> & _)
  end.
  by exists w'.
Qed.

(** With a status other than success, [streamAccepted] touches neither the
    failover log nor a null partition: it always returns. *)
Lemma streamAccepted_failure_returns opaque status body bodylen (w : World)
    vbucket :
  known_opaque w opaque vbucket ->
  status <> ENGINE_ERROR_CODE_value ENGINE_SUCCESS ->
  exists w', streamAccepted opaque status body bodylen w = Ok tt w'.
Proof.
  intros (add_opaque & s & Hmap & Hslot & Ho) Hst.
  apply Z.eqb_neq in Hst.
  unfold streamAccepted.
  unfold bind at 1. unfold gets at 1. rewrite Hmap.
  unfold bind at 1. unfold bind at 1. rewrite (stream_at_Ok _ _ _ Hslot).
  destruct (bool_decide (getOpaque s = opaque)
            && bool_decide (getState s = STREAM_PENDING)).
  - rewrite Hst. unfold bind at 1. unfold pure at 1.
    destruct (stream_acceptStream_returns vbucket s status add_opaque w)
      as (w' & ->).
    unfold_steps. by eexists.
  - unfold_steps. by eexists.
Qed.

Lemma handleResponse_known (resp : protocol_binary_response) (w : World)
    vbucket :
  disconnect (cons w) = false ->
  known_opaque w (resp_opaque resp) vbucket ->
  resp_opcode resp = PROTOCOL_BINARY_CMD_DCP_STREAM_REQ ->
  handleResponse resp w =
    (if resp_status resp =? PROTOCOL_BINARY_RESPONSE_ROLLBACK then
       if negb (resp_bodylen resp =? 8) then pure ENGINE_DISCONNECT else
       bind new_ (fun _ =>
       bind (call (ExecutorPool_schedule_RollbackTask
                     (mkRollbackTask (resp_opaque resp) vbucket
                        (ntohll_bytes (resp_body resp))))) (fun _ =>
       pure ENGINE_SUCCESS))
     else
     if (negb (resp_bodylen resp mod 16 =? 0) || (resp_bodylen resp =? 0))
        && (resp_status resp =? ENGINE_ERROR_CODE_value ENGINE_SUCCESS)
     then pure ENGINE_DISCONNECT else
     bind (streamAccepted (resp_opaque resp) (resp_status resp)
             (resp_body resp) (wrap32 (resp_bodylen resp))) (fun _ =>
     pure ENGINE_SUCCESS)) w.
Proof.
  intros Hd (add_opaque & s & Hmap & Hslot & Ho) Hop.
  unfold handleResponse.
  unfold bind at 1. unfold doDisconnect, gets at 1. rewrite Hd.
  unfold bind at 1. unfold gets at 1. rewrite Hmap.
  unfold bind at 1. unfold isValidOpaque.
  unfold bind at 1. rewrite (stream_at_Ok _ _ _ Hslot).
  unfold pure at 1. rewrite bool_decide_eq_true_2 by done.
  by rewrite Hop, Z.eqb_refl.
Qed.

Lemma stream_callback_frame (vbucket : vbid) (notify : bool) (w : World) :
  exists w' evs,
    stream_callback vbucket notify w = Ok tt w' /\
    calls w' = calls w ++ evs /\
    Forall (eq (ConnMap_notifyPausedConnection true)) evs /\
    opaqueMap_ (cons w') = opaqueMap_ (cons w) /\
    disconnect (cons w') = disconnect (cons w) /\
    streams (cons w') = streams (cons w) /\
    itemsToProcess (cons w') = itemsToProcess (cons w) /\
    flowControl (cons w') = flowControl (cons w) /\
    engine_ w' = engine_ w /\ heap w' = heap w.
Proof.
  destruct notify; simpl.
  - unfold notifyStreamReady. unfold_steps. destruct (decide _).
    + exists w, []. by rewrite app_nil_r.
    + eexists _, [_]. simpl. repeat split; by repeat constructor.
  - exists w, []. by rewrite app_nil_r.
Qed.

Lemma stream_acceptStream_effect (vbucket : vbid) (s : PassiveStream)
    (status add_opaque : Z) (w : World) :
  exists w' evs,
    stream_acceptStream vbucket s status add_opaque w = Ok tt w' /\
    calls w' =
      calls w ++ Stream_acceptStream vbucket status add_opaque :: evs /\
    Forall (eq (ConnMap_notifyPausedConnection true)) evs /\
    opaqueMap_ (cons w') = opaqueMap_ (cons w) /\
    disconnect (cons w') = disconnect (cons w) /\
    streams (cons w') =
      <[N.to_nat vbucket := Some (acceptStream s status add_opaque).2]>
        (streams (cons w)) /\
    engine_ w' = engine_ w.
Proof.
  unfold stream_acceptStream.
  destruct (acceptStream s status add_opaque) as [notify s'].
  unfold_steps. simpl.
  match goal with
  | |- context [stream_callback vbucket notify ?w1] =>
      destruct (stream_callback_frame vbucket notify w1)
        as (w' & evs & -> & Hc & Hevs & Hm & Hd & Hs & _ & _ & He & _)
  end.
  exists w', evs. simpl in *. rewrite Hc, <- app_assoc. done.
Qed.

(** What [streamAccepted] does for a registered opaque whose stream is in
    its slot: only a pending stream is told, and only a success status
    installs the failover log; the entry is erased in every case. *)
Lemma streamAccepted_effect (opaque status : Z) (body : Bytes) (bodylen : Z)
    (w : World) (add_opaque : Z) (vbucket : vbid) (s : PassiveStream) :
  opaqueMap_ (cons w) !! opaque = Some (add_opaque, vbucket) ->
  streams (cons w) !! N.to_nat vbucket = Some (Some s) ->
  getOpaque s = opaque ->
  (status = 0 -> is_Some (getVBucket (engine_ w) vbucket)) ->
  let pending := bool_decide (getState s = STREAM_PENDING) in
  let log := take (Z.to_nat bodylen) body in
  exists w' evs,
    streamAccepted opaque status body bodylen w = Ok tt w' /\
    opaqueMap_ (cons w') = delete opaque (opaqueMap_ (cons w)) /\
    disconnect (cons w') = disconnect (cons w) /\
    Forall (eq (ConnMap_notifyPausedConnection true)) evs /\
    calls w' =
      calls w ++
      (if pending then
         (if status =? 0
          then [FailoverTable_replaceFailoverLog vbucket log;
                EpStore_scheduleVBSnapshot vbucket]
          else [])
         ++ Stream_acceptStream vbucket status add_opaque :: evs
       else []) /\
    engine_ w' =
      (if pending && (status =? 0)
       then replaceFailoverLog (engine_ w) vbucket log else engine_ w) /\
    streams (cons w') =
      (if pending
       then <[N.to_nat vbucket := Some (acceptStream s status add_opaque).2]>
              (streams (cons w))
       else streams (cons w)).
Proof.
  intros Hmap Hslot Ho Hvb pending log. subst pending.
  unfold streamAccepted.
  unfold bind at 1. unfold gets at 1. rewrite Hmap.
  unfold bind at 1. unfold bind at 1. rewrite (stream_at_Ok _ _ _ Hslot).
  rewrite (bool_decide_eq_true_2 _ Ho). simpl.
  destruct (bool_decide (getState s = STREAM_PENDING)).
  - unfold bind at 1.
    destruct (status =? 0) eqn:Hst.
    + apply Z.eqb_eq in Hst. destruct (Hvb Hst) as [vb Hget].
      unfold engine_getVBucket. unfold_steps. rewrite Hget. simpl.
      match goal with
      | |- context [stream_acceptStream vbucket s status add_opaque ?w1] =>
          destruct (stream_acceptStream_effect vbucket s status add_opaque w1)
            as (w' & evs & -> & Hc & Hevs & Hm & Hd & Hs & He)
      end.
      simpl in *. eexists _, evs. split; [done|]. simpl.
      rewrite Hm, Hd, Hc, Hs, He, <- !app_assoc. done.
    + unfold pure at 1.
      destruct (stream_acceptStream_effect vbucket s status add_opaque w)
        as (w' & evs & -> & Hc & Hevs & Hm & Hd & Hs & He).
      unfold_steps. eexists _, evs. split; [done|]. simpl.
      rewrite Hm, Hd, Hc, Hs, He. done.
  - unfold_steps. eexists _, []. split; [done|]. simpl.
    by rewrite app_nil_r.
Qed.

(** C5, as the code has it: for a STREAM_REQ response with a known opaque
    on a live connection, a ROLLBACK status with a body that is not eight
    bytes long returns [ENGINE_DISCONNECT], and so does a success status
    (zero) with a body that is empty or not a multiple of 16 bytes long;
    both leave the world untouched.  For any other status the body length
    is not looked at: the response goes to [streamAccepted] and the call
    returns [ENGINE_SUCCESS].  There the entry of the opaque is erased, and
    a stream that is still pending is told the status, with the opaque of
    the [addStream] caller; the engine is not touched, and a stream that is
    no longer pending is left alone. *)
Theorem malformed_stream_response (resp : protocol_binary_response)
    (w : World) (vbucket : vbid) :
  disconnect (cons w) = false ->
  resp_opcode resp = PROTOCOL_BINARY_CMD_DCP_STREAM_REQ ->
  known_opaque w (resp_opaque resp) vbucket ->
  (resp_status resp = PROTOCOL_BINARY_RESPONSE_ROLLBACK ->
   resp_bodylen resp <> 8 ->
   handleResponse resp w = Ok ENGINE_DISCONNECT w) /\
  (resp_status resp = ENGINE_ERROR_CODE_value ENGINE_SUCCESS ->
   resp_bodylen resp = 0 \/ resp_bodylen resp mod 16 <> 0 ->
   handleResponse resp w = Ok ENGINE_DISCONNECT w) /\
  (resp_status resp <> PROTOCOL_BINARY_RESPONSE_ROLLBACK ->
   resp_status resp <> ENGINE_ERROR_CODE_value ENGINE_SUCCESS ->
   handleResponse resp w =
     bind (streamAccepted (resp_opaque resp) (resp_status resp)
             (resp_body resp) (wrap32 (resp_bodylen resp)))
          (fun _ => pure ENGINE_SUCCESS) w /\
   exists add_opaque s w' evs,
     opaqueMap_ (cons w) !! resp_opaque resp = Some (add_opaque, vbucket) /\
     streams (cons w) !! N.to_nat vbucket = Some (Some s) /\
     handleResponse resp w = Ok ENGINE_SUCCESS w' /\
     opaqueMap_ (cons w')
       = delete (resp_opaque resp) (opaqueMap_ (cons w)) /\
     engine_ w' = engine_ w /\
     Forall (eq (ConnMap_notifyPausedConnection true)) evs /\
     if bool_decide (getState s = STREAM_PENDING) then
       new_calls w w' =
         Stream_acceptStream vbucket (resp_status resp) add_opaque :: evs /\
       streams (cons w') =
         <[N.to_nat vbucket :=
             Some (acceptStream s (resp_status resp) add_opaque).2]>
           (streams (cons w))
     else
       new_calls w w' = [] /\ streams (cons w') = streams (cons w)).
Proof.
  intros Hd Hop Hknown.
  rewrite (handleResponse_known resp w vbucket Hd Hknown Hop).
  split; [|split].
  - intros -> Hlen. rewrite Z.eqb_refl.
    apply Z.eqb_neq in Hlen. by rewrite Hlen.
  - intros -> Hlen. simpl.
    assert ((negb (resp_bodylen resp mod 16 =? 0)
             || (resp_bodylen resp =? 0)) = true) as ->; [|done].
    destruct Hlen as [-> | Hlen]; [done|].
    apply Z.eqb_neq in Hlen. by rewrite Hlen.
  - intros Hnr Hns.
    destruct Hknown as (add_opaque & s & Hmap & Hslot & Ho).
    assert (resp_status resp = 0 ->
            is_Some (getVBucket (engine_ w) vbucket)) as Hvb.
    { intros Hzero. by destruct Hns. }
    destruct (streamAccepted_effect (resp_opaque resp) (resp_status resp)
                (resp_body resp) (wrap32 (resp_bodylen resp)) w add_opaque
                vbucket s Hmap Hslot Ho Hvb)
      as (w' & evs & Hacc & Hmap' & _ & Hevs & Hcalls & Hengine & Hstreams).
    apply Z.eqb_neq in Hnr, Hns. rewrite Hnr, Hns, andb_false_r.
    simpl in Hns. rewrite Hns in Hcalls, Hengine.
    split; [done|].
    exists add_opaque, s, w', evs.
    split; [done|]. split; [done|].
    split; [unfold bind; by rewrite Hacc|].
    split; [done|].
    rewrite andb_false_r in Hengine.
    split; [done|]. split; [done|].
    destruct (bool_decide (getState s = STREAM_PENDING)).
    + split; [by apply new_calls_app|done].
    + split; [|done]. apply new_calls_app. by rewrite Hcalls.
Qed.


(** ** Rollback *)

Lemma stream_callback_log (vbucket : vbid) (notify : bool) (w : World) :
  exists w' evs,
    stream_callback vbucket notify w = Ok tt w' /\
    calls w' = calls w ++ evs /\
    Forall (eq (ConnMap_notifyPausedConnection true)) evs /\
    rollbackCount w' = rollbackCount w.
Proof.
  destruct notify; simpl.
  - unfold notifyStreamReady. unfold_steps. destruct (decide _).
    + exists w, []. by rewrite app_nil_r.
    + eexists _, [_]. simpl. repeat split; by repeat constructor.
  - exists w, []. by rewrite app_nil_r.
Qed.

Lemma stream_reconnectStream_log vbucket s vb opaque start_seqno (w : World) :
  exists w' evs,
    stream_reconnectStream vbucket s vb opaque start_seqno w = Ok tt w' /\
    calls w' =
      calls w ++ Stream_reconnectStream vbucket opaque start_seqno :: evs /\
    Forall (eq (ConnMap_notifyPausedConnection true)) evs /\
    rollbackCount w' = rollbackCount w.
Proof.
  unfold stream_reconnectStream.
  destruct (reconnectStream s vb opaque start_seqno) as [notify s'].
  unfold_steps. simpl.
  match goal with
  | |- context [stream_callback vbucket notify ?w1] =>
      destruct (stream_callback_log vbucket notify w1)
        as (w' & evs & -> & Hc & Hevs & Hn)
  end.
  exists w', evs. simpl in Hc, Hn. rewrite Hc, <- app_assoc. done.
Qed.

(** C4, as the code has it.  A ROLLBACK response to a stream request, with
    a known opaque and an eight-byte body, returns [ENGINE_SUCCESS] and
    schedules one rollback task for the opaque, the partition and the
    big-endian seqno of the body.  Whenever that task runs it calls the
    store's [rollback] for that partition and seqno exactly once, first of
    all.  If the store answers [ENGINE_TMPFAIL] the task asks to be run
    again and counts nothing; if it answers [ENGINE_NOT_MY_VBUCKET] the
    task gives up; if it answers [ENGINE_SUCCESS] the stream is then
    re-requested from the partition's high seqno and the task is done.
    The rollback counter goes up by one whenever the task does not ask to
    be run again: on [ENGINE_SUCCESS] and on [ENGINE_NOT_MY_VBUCKET]. *)
Theorem rollback_round_trip (resp : protocol_binary_response) (w : World)
    (vbucket : vbid) :
  disconnect (cons w) = false ->
  resp_opcode resp = PROTOCOL_BINARY_CMD_DCP_STREAM_REQ ->
  resp_status resp = PROTOCOL_BINARY_RESPONSE_ROLLBACK ->
  length (resp_body resp) = 8%nat ->
  known_opaque w (resp_opaque resp) vbucket ->
  hd true (heap w) = true ->
  let R := ntohll_bytes (resp_body resp) in
  let task := mkRollbackTask (resp_opaque resp) vbucket R in
  (exists w',
     handleResponse resp w = Ok ENGINE_SUCCESS w' /\
     new_calls w w' = [ExecutorPool_schedule_RollbackTask task]) /\
  (forall w1 : World,
     let err := (rollback (engine_ w1) vbucket R).1 in
     let e' := (rollback (engine_ w1) vbucket R).2 in
     match err with
     | ENGINE_TMPFAIL =>
         exists w2,
           RollbackTask_run task w1 = Ok true w2 /\
           new_calls w1 w2 = [EpStore_rollback vbucket R ENGINE_TMPFAIL] /\
           rollbackCount w2 = rollbackCount w1
     | ENGINE_NOT_MY_VBUCKET =>
         exists w2,
           RollbackTask_run task w1 = Ok false w2 /\
           new_calls w1 w2 =
             [EpStore_rollback vbucket R ENGINE_NOT_MY_VBUCKET] /\
           rollbackCount w2 = (rollbackCount w1 + 1) mod 2 ^ 64
     | ENGINE_SUCCESS =>
         forall s vb,
           streams (cons w1) !! N.to_nat vbucket = Some (Some s) ->
           getVBucket e' vbucket = Some vb ->
           exists w2 evs,
             RollbackTask_run task w1 = Ok false w2 /\
             new_calls w1 w2 =
               EpStore_rollback vbucket R ENGINE_SUCCESS
               :: Stream_reconnectStream vbucket (resp_opaque resp)
                    (vb_highSeqno vb)
               :: evs /\
             Forall (eq (ConnMap_notifyPausedConnection true)) evs /\
             rollbackCount w2 = (rollbackCount w1 + 1) mod 2 ^ 64
     | _ =>
         exists w2,
           RollbackTask_run task w1 = Raise logic_error w2 /\
           new_calls w1 w2 = [EpStore_rollback vbucket R err]
     end).
Proof.
  intros Hd Hop Hst Hlen Hknown Hheap R task. split.
  - rewrite (handleResponse_known resp w vbucket Hd Hknown Hop).
    rewrite Hst, Z.eqb_refl. unfold resp_bodylen. rewrite Hlen. simpl.
    unfold bind at 1.
    assert (exists w1, new_ w = Ok tt w1 /\ calls w1 = calls w)
      as (w1 & -> & Hc1).
    { unfold new_. destruct (heap w) as [|b h].
      - by exists w.
      - simpl in Hheap. subst b. by eexists. }
    unfold_steps. eexists. split; [done|].
    apply new_calls_app. simpl. by rewrite Hc1.
  - intros w1 err e'.
    unfold RollbackTask_run, doRollback, epstore_rollback.
    unfold_steps. simpl. subst err e'.
    destruct (rollback (engine_ w1) vbucket R) as [err e'] eqn:Hrb.
    simpl.
    destruct err; simpl;
      try (eexists; split; [done|]; by apply new_calls_app).
    + (* ENGINE_SUCCESS *)
      intros s vb Hslot Hvb. rewrite Hvb.
      unfold stream_at. simpl. rewrite Hslot.
      match goal with
      | |- context [stream_reconnectStream vbucket s vb ?o ?h ?w2] =>
          destruct (stream_reconnectStream_log vbucket s vb o h w2)
            as (w3 & evs & -> & Hc & Hevs & Hn)
      end.
      simpl in Hc, Hn.
      eexists _, evs. split; [done|]. simpl. rewrite Hn.
      repeat split; try done.
      apply new_calls_app. simpl. by rewrite Hc, <- app_assoc.
    + (* ENGINE_NOT_MY_VBUCKET *)
      eexists. split; [done|]. split; [by apply new_calls_app|done].
    + (* ENGINE_TMPFAIL *)
      eexists. split; [done|]. split; [by apply new_calls_app|done].
Qed.


(** ** The ready list *)

Lemma stream_next_eq (vbucket : vbid) (s : PassiveStream) (w : World) :
  stream_next vbucket s w = Ok (next s).1 (after_next vbucket s w).
Proof.
  unfold stream_next, after_next. by destruct (next s).
Qed.

(** One turn of the loop of [getNextItem]. *)
Lemma getNextItem_loop_cons (vbucket : vbid) (rest : list vbid) (w : World)
    (slot : option PassiveStream) :
  streams (cons w) !! N.to_nat vbucket = Some slot ->
  getNextItem_loop (vbucket :: rest) w =
    match slot with
    | None => getNextItem_loop rest (pop_ready w rest)
    | Some s =>
      let w1 := after_next vbucket s (pop_ready w rest) in
      match (next s).1 with
      | None => getNextItem_loop rest w1
      | Some r =>
        if consumer_event (getEvent r)
        then Ok (Some r)
               (with_cons w1 (with_ready (cons w1) (rest ++ [vbucket])))
        else Raise aborted w1
      end
    end.
Proof.
  intros Hslot. simpl.
  unfold bind at 1. unfold modify at 1.
  unfold bind at 1. unfold stream_at at 1. simpl. rewrite Hslot.
  destruct slot as [s|]; [|done].
  unfold bind at 1. fold (pop_ready w rest). rewrite stream_next_eq.
  destruct (next s).1 as [r|]; [|done].
  by destruct (consumer_event (getEvent r)).
Qed.

(** What the loop leaves behind, by induction on the list it drains: with
    no response the ready list is empty and the consumer paused; with a
    response, the partitions before the answering one were dropped and the
    answering one moved to the tail. *)
Lemma getNextItem_loop_outcome (rdy : list vbid) :
  forall (w : World) (r : option DcpResponse) (w' : World),
    ready (cons w) = rdy ->
    getNextItem_loop rdy w = Ok r w' ->
    match r with
    | None => ready (cons w') = [] /\ paused (cons w') = true
    | Some _ =>
        paused (cons w') = paused (cons w) /\
        exists dropped vbucket rest,
          rdy = dropped ++ vbucket :: rest /\
          ready (cons w') = rest ++ [vbucket]
    end.
Proof.
  induction rdy as [|vbucket rest IH]; intros w r w' Hrdy Hrun.
  - simpl in Hrun. unfold setPaused in Hrun. unfold_steps.
    injection Hrun as <- <-. simpl. by rewrite Hrdy.
  - destruct (streams (cons w) !! N.to_nat vbucket) as [slot|] eqn:Hslot.
    2:{ simpl in Hrun. unfold bind at 1 in Hrun. unfold modify at 1 in Hrun.
        unfold bind at 1 in Hrun. unfold stream_at at 1 in Hrun.
        simpl in Hrun. by rewrite Hslot in Hrun. }
    rewrite (getNextItem_loop_cons _ _ _ _ Hslot) in Hrun.
    assert (Hstep : forall w1 : World,
              ready (cons w1) = rest -> paused (cons w1) = paused (cons w) ->
              getNextItem_loop rest w1 = Ok r w' ->
              match r with
              | None => ready (cons w') = [] /\ paused (cons w') = true
              | Some _ =>
                  paused (cons w') = paused (cons w) /\
                  exists dropped vb rest',
                    vbucket :: rest = dropped ++ vb :: rest' /\
                    ready (cons w') = rest' ++ [vb]
              end).
    { intros w1 Hr1 Hp1 Hrun1. specialize (IH w1 r w' Hr1 Hrun1).
      destruct r; [|done].
      destruct IH as (Hp & dropped & vb & rest' & -> & Hr').
      split; [congruence|]. by exists (vbucket :: dropped), vb, rest'. }
    destruct slot as [s|]; [|by apply (Hstep (pop_ready w rest))].
    cbv zeta in Hrun.
    destruct (next s).1 as [resp|];
      [|by apply (Hstep (after_next vbucket s (pop_ready w rest)))].
    destruct (consumer_event (getEvent resp)); [|done].
    injection Hrun as <- <-. simpl. split; [done|].
    by exists [], vbucket, rest.
Qed.

Lemma getNextItem_entry (w : World) :
  getNextItem w =
    getNextItem_loop (ready (cons w))
      (with_cons w (with_paused (cons w) false)).
Proof. done. Qed.

Lemma getNextItem_outcome (w : World) (r : option DcpResponse) (w' : World) :
  getNextItem w = Ok r w' ->
  match r with
  | None => ready (cons w') = [] /\ paused (cons w') = true
  | Some _ =>
      paused (cons w') = false /\
      exists dropped vbucket rest,
        ready (cons w) = dropped ++ vbucket :: rest /\
        ready (cons w') = rest ++ [vbucket]
  end.
Proof.
  rewrite getNextItem_entry. intros Hrun.
  apply getNextItem_loop_outcome in Hrun; [|done].
  by destruct r.
Qed.

(** C7: [getNextItem] drains the ready list round-robin.  With an empty
    list it returns null and the consumer is paused.  Otherwise it pops the
    head; if the stream of that partition is gone, or its [next()] yields
    nothing, the partition is dropped and the loop goes on with the rest;
    if [next()] yields a response (one of the four events a consumer
    writes), the partition is put back at the tail and that response is
    returned.  Whenever it returns null the list is empty and the consumer
    paused; whenever it returns a response the partitions in front of the
    answering one are gone from the list and the answering one is at its
    tail. *)
Theorem getNextItem_round_robin (w : World) :
  (ready (cons w) = [] ->
   getNextItem w = Ok None (with_cons w (with_paused (cons w) true))) /\
  (forall vbucket rest slot,
     ready (cons w) = vbucket :: rest ->
     streams (cons w) !! N.to_nat vbucket = Some slot ->
     match slot with
     | None => getNextItem w = getNextItem (pop_ready w rest)
     | Some s =>
       match next s with
       | (None, _) =>
           getNextItem w
             = getNextItem (after_next vbucket s (pop_ready w rest))
       | (Some r, _) =>
           consumer_event (getEvent r) = true ->
           let w1 := after_next vbucket s
                       (pop_ready (with_cons w (with_paused (cons w) false))
                          rest) in
           getNextItem w =
             Ok (Some r)
               (with_cons w1 (with_ready (cons w1) (rest ++ [vbucket])))
       end
     end) /\
  (forall r w',
     getNextItem w = Ok r w' ->
     match r with
     | None => ready (cons w') = [] /\ paused (cons w') = true
     | Some _ =>
         paused (cons w') = false /\
         exists dropped vbucket rest,
           ready (cons w) = dropped ++ vbucket :: rest /\
           ready (cons w') = rest ++ [vbucket]
     end).
Proof.
  pose proof (getNextItem_entry w) as Hentry.
  split; [|split].
  - intros Hr. rewrite Hentry, Hr. done.
  - intros vbucket rest slot Hr Hslot.
    rewrite Hentry, Hr.
    rewrite (getNextItem_loop_cons vbucket rest _ slot) by done.
    destruct slot as [s|].
    + cbv zeta. destruct (next s) as [[r|] s'] eqn:Hnext; simpl.
      * intros ->. done.
      * unfold getNextItem. unfold_steps. simpl. done.
    + unfold getNextItem. unfold_steps. simpl. done.
  - intros r w'. apply getNextItem_outcome.
Qed.


(** ** The outbound pump *)

Lemma bind_ext {A B} (m : M A) (k1 k2 : A -> M B) (w : World) :
  (forall a w', k1 a w' = k2 a w') -> bind m k1 w = bind m k2 w.
Proof.
  intros Hk. unfold bind. destruct (m w); [apply Hk|done].
Qed.

(** [if ((ret = source(...)) != ENGINE_FAILED) { lift; return ret; }]
    is one turn of [first_answer]. *)
Lemma source_turn (source : M ENGINE_ERROR_CODE)
    (rest otherwise : M ENGINE_ERROR_CODE) (w : World) :
  (forall w', rest w' = otherwise w') ->
  bind source (fun r =>
    if negb (bool_decide (r = ENGINE_FAILED)) then pure (want_more r)
    else rest) w
  = bind source (fun r =>
      if decide (r = ENGINE_FAILED) then otherwise
      else pure (want_more r)) w.
Proof.
  intros Hrest. apply bind_ext. intros r w'.
  destruct (decide (r = ENGINE_FAILED)) as [->|Hne]; simpl.
  - apply Hrest.
  - by rewrite bool_decide_eq_false_2.
Qed.

Lemma step_refines_spec (producers : dcp_message_producers) (w : World) :
  step producers w = step_spec producers w.
Proof.
  unfold step, step_spec, outbound_sources, first_answer.
  apply bind_ext. intros _ w0.
  apply bind_ext. intros d w1. destruct d; [done|].
  do 6 (apply source_turn; intros ?).
  apply bind_ext. intros resp w2. destruct resp as [resp|]; [|done].
  apply bind_ext. intros r w3. unfold want_more. by destruct (decide _).
Qed.

Lemma first_answer_declined (source : M ENGINE_ERROR_CODE)
    (rest : list (M ENGINE_ERROR_CODE)) (otherwise : M ENGINE_ERROR_CODE)
    (w w' : World) :
  source w = Ok ENGINE_FAILED w' ->
  first_answer (source :: rest) otherwise w = first_answer rest otherwise w'.
Proof. intros Hs. simpl. unfold bind. by rewrite Hs. Qed.

Lemma first_answer_decided (source : M ENGINE_ERROR_CODE)
    (rest : list (M ENGINE_ERROR_CODE)) (otherwise : M ENGINE_ERROR_CODE)
    (w w' : World) (r : ENGINE_ERROR_CODE) :
  source w = Ok r w' -> r <> ENGINE_FAILED ->
  first_answer (source :: rest) otherwise w = Ok (want_more r) w'.
Proof.
  intros Hs Hr. simpl. unfold bind. rewrite Hs.
  by destruct (decide (r = ENGINE_FAILED)).
Qed.

Lemma step_spec_live (producers : dcp_message_producers) (w : World) :
  disconnect (cons w) = false ->
  step_spec producers w =
    first_answer (outbound_sources producers)
      (bind getNextItem (fun resp =>
         match resp with
         | None => pure ENGINE_SUCCESS
         | Some resp =>
             bind (send_response producers resp) (fun r =>
               pure (want_more r))
         end)) (walked w).
Proof.
  intros Hd. unfold step_spec. unfold_steps. simpl. by rewrite Hd.
Qed.

(** C6: [step] is the specification's pump: after recording the walk time
    and checking the disconnect flag, it asks flow control, noop handling,
    priority, extended meta data, value compression and cursor dropping, in
    that order, and then [getNextItem]; the first source whose answer is
    not [ENGINE_FAILED] decides, with [ENGINE_SUCCESS] lifted to
    [ENGINE_WANT_MORE] and any other answer returned as it is.  When all
    six sources decline and [getNextItem] returns nothing, [step] returns
    [ENGINE_SUCCESS] and leaves the consumer paused, with an empty ready
    list. *)
Theorem step_sources_in_order (producers : dcp_message_producers)
    (w : World) :
  step producers w = step_spec producers w /\
  (forall w1 w2 w3 w4 w5 w6 w7 : World,
     disconnect (cons w) = false ->
     flowControl_handleFlowCtl producers (walked w) = Ok ENGINE_FAILED w1 ->
     handleNoop producers w1 = Ok ENGINE_FAILED w2 ->
     handlePriority producers w2 = Ok ENGINE_FAILED w3 ->
     handleExtMetaData producers w3 = Ok ENGINE_FAILED w4 ->
     handleValueCompression producers w4 = Ok ENGINE_FAILED w5 ->
     supportCursorDropping producers w5 = Ok ENGINE_FAILED w6 ->
     getNextItem w6 = Ok None w7 ->
     step producers w = Ok ENGINE_SUCCESS w7 /\
     paused (cons w7) = true /\ ready (cons w7) = []) /\
  (forall (sources_before : list (M ENGINE_ERROR_CODE))
          (source : M ENGINE_ERROR_CODE)
          (sources_after : list (M ENGINE_ERROR_CODE))
          (w1 w2 : World) (r : ENGINE_ERROR_CODE),
     disconnect (cons w) = false ->
     outbound_sources producers
       = sources_before ++ source :: sources_after ->
     first_answer sources_before (fun w' => Ok ENGINE_FAILED w') (walked w)
       = Ok ENGINE_FAILED w1 ->
     source w1 = Ok r w2 -> r <> ENGINE_FAILED ->
     step producers w = Ok (want_more r) w2).
Proof.
  split; [apply step_refines_spec|]. split.
  - intros w1 w2 w3 w4 w5 w6 w7 Hd H1 H2 H3 H4 H5 H6 Hnext.
    rewrite step_refines_spec, (step_spec_live _ _ Hd).
    unfold outbound_sources.
    rewrite (first_answer_declined _ _ _ _ _ H1),
      (first_answer_declined _ _ _ _ _ H2),
      (first_answer_declined _ _ _ _ _ H3),
      (first_answer_declined _ _ _ _ _ H4),
      (first_answer_declined _ _ _ _ _ H5),
      (first_answer_declined _ _ _ _ _ H6).
    simpl. unfold bind. rewrite Hnext. split; [done|].
    by destruct (getNextItem_outcome w6 None w7 Hnext).
  - intros before source after w1 w2 r Hd Hsplit Hbefore Hsrc Hr.
    rewrite step_refines_spec, (step_spec_live _ _ Hd), Hsplit.
    clear Hsplit. revert Hbefore. generalize (walked w) as w0.
    induction before as [|src before IH]; intros w0 Hbefore.
    + simpl in Hbefore. injection Hbefore as ->.
      by apply first_answer_decided.
    + simpl in Hbefore |- *. unfold bind in Hbefore |- *.
      destruct (src w0) as [r0 w0'|]; [|done].
      destruct (decide (r0 = ENGINE_FAILED)) as [->|Hne]; [by apply IH|].
      unfold pure, want_more in Hbefore. injection Hbefore as Hr0 _.
      by destruct (decide (r0 = ENGINE_SUCCESS)).
Qed.


(** ** The noop timeout *)

Lemma handleNoop_timeout (producers : dcp_message_producers) (w : World) :
  pendingEnableNoop (cons w) = false ->
  pendingSendNoopInterval (cons w) = false ->
  0 <= lastNoopTime (cons w) <= clock w -> clock w < 2 ^ 32 ->
  0 <= noopInterval (cons w) ->
  clock w - lastNoopTime (cons w) > 2 * noopInterval (cons w) ->
  handleNoop producers w = Ok ENGINE_DISCONNECT w.
Proof.
  intros Hp1 Hp2 Hlast Hclock Hint Hgt.
  unfold handleNoop. unfold_steps. rewrite Hp1, Hp2.
  unfold wrap32.
  rewrite (Z.mod_small (noopInterval (cons w) * 2)) by lia.
  rewrite (Z.mod_small (clock w - lastNoopTime (cons w))) by lia.
  by destruct (Z.ltb_spec (noopInterval (cons w) * 2)
                 (clock w - lastNoopTime (cons w))); [|lia].
Qed.

(** C3, as the code has it: when [step] reaches the noop handling (the
    connection is live and flow control has nothing to send) and neither
    noop control message is pending, it returns [ENGINE_DISCONNECT] as soon
    as more than twice the noop interval has passed since the last noop.
    Whether noop was configured plays no part: a consumer constructed with
    [dcp_enable_noop] off starts with no noop control message pending, and
    [step] disconnects it all the same once twice the interval has passed
    since its construction. *)
Theorem noop_timeout_disconnects (producers : dcp_message_producers) :
  (forall (w : World) (fc' : FlowControl),
     disconnect (cons w) = false ->
     handleFlowCtl (flowControl (cons w)) producers = (ENGINE_FAILED, fc') ->
     pendingEnableNoop (cons w) = false ->
     pendingSendNoopInterval (cons w) = false ->
     0 <= lastNoopTime (cons w) <= clock w -> clock w < 2 ^ 32 ->
     0 <= noopInterval (cons w) ->
     clock w - lastNoopTime (cons w) > 2 * noopInterval (cons w) ->
     exists w', step producers w = Ok ENGINE_DISCONNECT w') /\
  (forall (config : Configuration) (e : Engine) (t0 t : Z)
          (allocations : list bool) (fc' : FlowControl),
     isDcpEnableNoop config = false ->
     handleFlowCtl (FlowControl_new e) producers = (ENGINE_FAILED, fc') ->
     0 <= t0 <= t -> t < 2 ^ 32 ->
     0 <= getDcpNoopInterval config < 2 ^ 32 ->
     t - t0 > 2 * getDcpNoopInterval config ->
     exists w',
       step producers (with_clock (connect config e t0 allocations) t)
         = Ok ENGINE_DISCONNECT w').
Proof.
  assert (Hgen : forall (w : World) (fc' : FlowControl),
     disconnect (cons w) = false ->
     handleFlowCtl (flowControl (cons w)) producers = (ENGINE_FAILED, fc') ->
     pendingEnableNoop (cons w) = false ->
     pendingSendNoopInterval (cons w) = false ->
     0 <= lastNoopTime (cons w) <= clock w -> clock w < 2 ^ 32 ->
     0 <= noopInterval (cons w) ->
     clock w - lastNoopTime (cons w) > 2 * noopInterval (cons w) ->
     exists w', step producers w = Ok ENGINE_DISCONNECT w').
  { intros w fc' Hd Hfc Hp1 Hp2 Hlast Hclock Hint Hgt.
    rewrite step_refines_spec, (step_spec_live _ _ Hd).
    unfold outbound_sources.
    assert (exists w1,
              flowControl_handleFlowCtl producers (walked w)
                = Ok ENGINE_FAILED w1 /\
              cons w1 = with_flowControl (with_lastWalkTime (cons w) (clock w)) fc' /\
              clock w1 = clock w) as (w1 & Hflow & Hcons & Hclk).
    { unfold flowControl_handleFlowCtl. unfold_steps. simpl.
      rewrite Hfc. simpl. by eexists. }
    rewrite (first_answer_declined _ _ _ _ _ Hflow).
    exists w1.
    change ENGINE_DISCONNECT with (want_more ENGINE_DISCONNECT).
    apply first_answer_decided; [|done].
    apply handleNoop_timeout; rewrite ?Hcons, ?Hclk; simpl; done. }
  split; [exact Hgen|].
  intros config e t0 t allocations fc' Hnoop Hfc Ht Hrange Hint Hgt.
  apply (Hgen _ fc'); simpl; rewrite ?Hnoop; try done;
    unfold wrap32; rewrite Z.mod_small by lia; lia.
Qed.

(** ** Insertions into the ready list *)

Lemma notifyStreamReady_NoDup (vbucket : vbid) (w : World) :
  NoDup (ready (cons w)) ->
  exists w', notifyStreamReady vbucket w = Ok tt w' /\
             NoDup (ready (cons w')) /\ vbucket ∈ ready (cons w').
Proof.
  intros Hnd. unfold notifyStreamReady. unfold_steps.
  destruct (decide (vbucket ∈ ready (cons w))) as [Hin|Hnin].
  - by exists w.
  - eexists. split; [done|]. simpl. split.
    + apply NoDup_app. repeat split; [done| |apply NoDup_singleton].
      intros x Hx Hx'. apply list_elem_of_singleton in Hx'. by subst.
    + apply elem_of_app. right. by apply list_elem_of_singleton.
Qed.

(** C9 on the code: the stream-ready notification keeps the ready list
    free of duplicates, but [addStream] appends the partition without
    looking.  When the partition is still in the list and its slot holds no
    active stream (none, or a dead one), a successful [addStream] leaves
    the partition in the list twice. *)
Theorem addStream_appends_unchecked (opaque : Z) (vbucket : vbid)
    (flags : Z) (w : World) (vb : VBucket) (slot : option PassiveStream) :
  disconnect (cons w) = false ->
  getVBucket (engine_ w) vbucket = Some vb ->
  vb_state vb <> vbucket_state_active ->
  streams (cons w) !! N.to_nat vbucket = Some slot ->
  match slot with Some s => isActive s = false | None => True end ->
  hd true (heap w) = true ->
  vbucket ∈ ready (cons w) ->
  exists w',
    addStream opaque vbucket flags w = Ok ENGINE_SUCCESS w' /\
    ready (cons w') = ready (cons w) ++ [vbucket] /\
    ~ NoDup (ready (cons w')).
Proof.
  intros Hd Hvb Hstate Hslot Hdead Hheap Hin.
  unfold addStream.
  unfold bind at 1. unfold doDisconnect, gets at 1. rewrite Hd.
  unfold bind at 1. unfold engine_getVBucket, engine, bind, pure at 1.
  rewrite Hvb.
  destruct (decide (vb_state vb = vbucket_state_active)); [done|].
  cbv zeta.
  unfold incrOpaqueCounter, stream_at. unfold_steps. simpl. rewrite Hslot.
  assert ((match slot with Some s => isActive s | None => false end) = false)
    as ->.
  { by destruct slot. }
  unfold new_. simpl.
  destruct (heap w) as [|b h]; [|simpl in Hheap; subst b];
    (eexists; split; [done|]; simpl; split; [done|];
     rewrite NoDup_app; intros (_ & Hdisj & _);
     apply (Hdisj vbucket Hin); by apply list_elem_of_singleton).
Qed.

(** * Further properties of consumer.cc *)

(** ** The ready list *)

(** X1: a stream-ready notification for a partition already in the ready
    list changes nothing and does not notify the connection map; for a new
    partition it appends it and notifies once.  Either way the partition is
    in the list afterwards, a list without duplicates stays so, and
    notifying twice is the same as notifying once. *)
Theorem notifyStreamReady_deduplicates (vbucket : vbid) (w : World) :
  exists w',
    notifyStreamReady vbucket w = Ok tt w' /\
    vbucket ∈ ready (cons w') /\
    (NoDup (ready (cons w)) -> NoDup (ready (cons w'))) /\
    new_calls w w' =
      (if decide (vbucket ∈ ready (cons w)) then []
       else [ConnMap_notifyPausedConnection true]) /\
    notifyStreamReady vbucket w' = Ok tt w'.
Proof.
  unfold notifyStreamReady. unfold_steps.
  destruct (decide (vbucket ∈ ready (cons w))) as [Hin|Hnin].
  - exists w. split; [done|]. split; [done|]. split; [done|].
    split; [by apply new_calls_same|].
    by destruct (decide (vbucket ∈ ready (cons w))).
  - eexists. split; [done|]. simpl. split.
    { apply elem_of_app. right. by apply list_elem_of_singleton. }
    split.
    { intros Hnd. apply NoDup_app. repeat split; [done| |apply NoDup_singleton].
      intros x Hx Hx'. apply list_elem_of_singleton in Hx'. by subst. }
    split; [by apply new_calls_app|].
    destruct (decide _) as [|Hn]; [done|].
    exfalso. apply Hn. apply elem_of_app. right.
    by apply list_elem_of_singleton.
Qed.

(** X2: [getNextItem] never adds to the ready list: what it leaves is made
    of partitions that were ready before, is no longer than before, and has
    no duplicates if there were none. *)
Theorem getNextItem_shrinks_ready (w : World) (r : option DcpResponse)
    (w' : World) :
  getNextItem w = Ok r w' ->
  (forall vbucket, vbucket ∈ ready (cons w') -> vbucket ∈ ready (cons w)) /\
  (length (ready (cons w')) <= length (ready (cons w)))%nat /\
  (NoDup (ready (cons w)) -> NoDup (ready (cons w'))).
Proof.
  intros Hrun. apply getNextItem_outcome in Hrun.
  destruct r as [resp|].
  - destruct Hrun as (_ & dropped & vbucket & rest & -> & ->).
    split; [|split].
    + intros v Hv. apply elem_of_app. right.
      apply elem_of_app in Hv as [Hv|Hv].
      * by apply elem_of_cons; right.
      * apply list_elem_of_singleton in Hv as ->. by apply elem_of_cons; left.
    + rewrite !length_app. simpl. lia.
    + intros Hnd. apply NoDup_app in Hnd as (_ & _ & Hnd).
      apply NoDup_cons in Hnd as [Hnin Hnd].
      apply NoDup_app. repeat split; [done| |apply NoDup_singleton].
      intros x Hx Hx'. apply list_elem_of_singleton in Hx'. by subst.
  - destruct Hrun as [-> _]. split; [|split].
    + intros v Hv. by apply elem_of_nil in Hv.
    + simpl. lia.
    + intros _. apply NoDup_nil_2.
Qed.

Lemma getNextItem_loop_returns (P : PassiveStream -> Prop)
    (rdy : list vbid) :
  (forall s, P s ->
     P (next s).2 /\
     forall r, (next s).1 = Some r -> consumer_event (getEvent r) = true) ->
  forall w : World,
    (forall i s, streams (cons w) !! i = Some (Some s) -> P s) ->
    (forall vbucket,
       vbucket ∈ rdy -> (N.to_nat vbucket < length (streams (cons w)))%nat) ->
    exists r w', getNextItem_loop rdy w = Ok r w'.
Proof.
  intros Hnext.
  induction rdy as [|vbucket rest IH]; intros w HP Hrange.
  - simpl. unfold setPaused. unfold_steps. by eexists _, _.
  - assert (N.to_nat vbucket < length (streams (cons w)))%nat as Hlt.
    { apply Hrange. by apply elem_of_cons; left. }
    destruct (lookup_lt_is_Some_2 _ _ Hlt) as [slot Hslot].
    rewrite (getNextItem_loop_cons _ _ _ _ Hslot).
    assert (forall vb, vb ∈ rest ->
              (N.to_nat vb < length (streams (cons w)))%nat) as Hrest.
    { intros vb Hvb. apply Hrange. by apply elem_of_cons; right. }
    destruct slot as [s|]; [|by apply IH].
    cbv zeta.
    destruct (Hnext s (HP _ _ Hslot)) as [HPs' Hevent].
    destruct (next s) as [[r|] s'] eqn:Hn; simpl in *.
    + rewrite (Hevent r eq_refl). by eexists _, _.
    + apply IH.
      * intros i s0 [(_ & Heq & _)|[_ Hold]]%list_lookup_insert_Some.
        -- injection Heq as <-. by rewrite Hn.
        -- by eapply HP.
      * intros vb Hvb. unfold after_next. simpl.
        rewrite length_insert. by apply Hrest.
Qed.

(** X3: [getNextItem] returns, neither aborting nor reading outside the
    array, when every partition in the ready list is within the streams
    array and the streams in the array are well behaved: they hand out
    only the four kinds of response a consumer writes, and stay well
    behaved when asked for the next one. *)
Theorem getNextItem_returns (P : PassiveStream -> Prop) (w : World) :
  (forall s, P s ->
     P (next s).2 /\
     forall r, (next s).1 = Some r -> consumer_event (getEvent r) = true) ->
  (forall i s, streams (cons w) !! i = Some (Some s) -> P s) ->
  (forall vbucket,
     vbucket ∈ ready (cons w) ->
     (N.to_nat vbucket < length (streams (cons w)))%nat) ->
  exists r w', getNextItem w = Ok r w'.
Proof.
  intros Hnext HP Hrange. rewrite getNextItem_entry.
  by apply (getNextItem_loop_returns P).
Qed.

(** ** Responses *)

(** X4: [handleResponse] looks the opaque up before it looks at the opcode.
    A response whose opaque has no entry in the opaque map, or whose entry
    names a partition without a stream carrying that opaque, returns
    [ENGINE_KEY_ENOENT] whatever its opcode, and changes nothing.  With a
    known opaque, a buffer acknowledgement or a control response returns
    [ENGINE_SUCCESS], and any opcode other than these and the stream request
    returns [ENGINE_DISCONNECT]; neither changes anything. *)
Theorem handleResponse_dispatch (resp : protocol_binary_response)
    (w : World) :
  disconnect (cons w) = false ->
  (opaqueMap_ (cons w) !! resp_opaque resp = None ->
   handleResponse resp w = Ok ENGINE_KEY_ENOENT w) /\
  (forall add_opaque vbucket slot,
     opaqueMap_ (cons w) !! resp_opaque resp = Some (add_opaque, vbucket) ->
     streams (cons w) !! N.to_nat vbucket = Some slot ->
     (forall s, slot = Some s -> getOpaque s <> resp_opaque resp) ->
     handleResponse resp w = Ok ENGINE_KEY_ENOENT w) /\
  (forall vbucket,
     known_opaque w (resp_opaque resp) vbucket ->
     resp_opcode resp <> PROTOCOL_BINARY_CMD_DCP_STREAM_REQ ->
     handleResponse resp w =
       Ok (if (resp_opcode resp
                 =? PROTOCOL_BINARY_CMD_DCP_BUFFER_ACKNOWLEDGEMENT)
              || (resp_opcode resp =? PROTOCOL_BINARY_CMD_DCP_CONTROL)
           then ENGINE_SUCCESS else ENGINE_DISCONNECT) w).
Proof.
  intros Hd. split; [|split].
  - intros Hmap. unfold handleResponse. unfold_steps. by rewrite Hd, Hmap.
  - intros add_opaque vbucket slot Hmap Hslot Hne.
    unfold handleResponse, isValidOpaque. unfold_steps.
    rewrite Hd, Hmap. rewrite (stream_at_Ok _ _ _ Hslot).
    destruct slot as [s|]; [|done].
    by rewrite bool_decide_eq_false_2 by (by apply Hne).
  - intros vbucket (add_opaque & s & Hmap & Hslot & Ho) Hop.
    unfold handleResponse, isValidOpaque. unfold_steps.
    rewrite Hd, Hmap. rewrite (stream_at_Ok _ _ _ Hslot).
    rewrite bool_decide_eq_true_2 by done.
    apply Z.eqb_neq in Hop. rewrite Hop.
    by destruct (_ || _).
Qed.

(** What a callback from a stream leaves alone. *)
(** X5: a well-formed answer to a stream request, other than ROLLBACK, is
    consumed once: the call returns [ENGINE_SUCCESS] and erases the opaque's
    entry, so that the same response handed in again returns
    [ENGINE_KEY_ENOENT] and changes nothing. *)
Theorem stream_response_consumed_once (resp : protocol_binary_response)
    (w : World) (vbucket : vbid) :
  disconnect (cons w) = false ->
  resp_opcode resp = PROTOCOL_BINARY_CMD_DCP_STREAM_REQ ->
  known_opaque w (resp_opaque resp) vbucket ->
  resp_status resp <> PROTOCOL_BINARY_RESPONSE_ROLLBACK ->
  (resp_status resp = 0 ->
   resp_bodylen resp <> 0 /\ resp_bodylen resp mod 16 = 0 /\
   is_Some (getVBucket (engine_ w) vbucket)) ->
  exists w',
    handleResponse resp w = Ok ENGINE_SUCCESS w' /\
    opaqueMap_ (cons w')
      = delete (resp_opaque resp) (opaqueMap_ (cons w)) /\
    handleResponse resp w' = Ok ENGINE_KEY_ENOENT w'.
Proof.
  intros Hd Hop Hknown Hnr Hok.
  rewrite (handleResponse_known resp w vbucket Hd Hknown Hop).
  apply Z.eqb_neq in Hnr. rewrite Hnr.
  assert (((negb (resp_bodylen resp mod 16 =? 0) || (resp_bodylen resp =? 0))
           && (resp_status resp =? ENGINE_ERROR_CODE_value ENGINE_SUCCESS))
          = false) as ->.
  { simpl. destruct (Z.eqb_spec (resp_status resp) 0) as [Hst|Hst];
      [|by rewrite andb_false_r].
    destruct (Hok Hst) as (Hlen & Hmod & _).
    apply Z.eqb_neq in Hlen. apply Z.eqb_eq in Hmod. by rewrite Hlen, Hmod. }
  destruct Hknown as (add_opaque & s & Hmap & Hslot & Ho).
  destruct (streamAccepted_effect (resp_opaque resp) (resp_status resp)
              (resp_body resp) (wrap32 (resp_bodylen resp)) w add_opaque
              vbucket s Hmap Hslot Ho)
    as (w' & evs & Hacc & Hmap' & Hd' & _).
  { intros Hst. by destruct (Hok Hst) as (_ & _ & ?). }
  unfold bind at 1. rewrite Hacc. unfold pure at 1.
  exists w'. split; [done|]. split; [done|].
  unfold handleResponse. unfold_steps.
  by rewrite Hd', Hd, Hmap', lookup_delete_eq.
Qed.

(** X6: what acceptance does with a success answer carrying a well-formed
    failover log.  If the stream is still pending, the log of the response
    is installed on the partition, a snapshot of the partition is scheduled,
    and then the stream is told, with the opaque of the [addStream] caller.
    If the stream is no longer pending, none of this happens: the engine and
    the streams are left as they were, and the call still returns
    [ENGINE_SUCCESS]. *)
Theorem accepted_stream_gets_failover_log (resp : protocol_binary_response)
    (w : World) (add_opaque : Z) (vbucket : vbid) (s : PassiveStream) :
  disconnect (cons w) = false ->
  resp_opcode resp = PROTOCOL_BINARY_CMD_DCP_STREAM_REQ ->
  resp_status resp = 0 ->
  opaqueMap_ (cons w) !! resp_opaque resp = Some (add_opaque, vbucket) ->
  streams (cons w) !! N.to_nat vbucket = Some (Some s) ->
  getOpaque s = resp_opaque resp ->
  resp_bodylen resp <> 0 -> resp_bodylen resp mod 16 = 0 ->
  resp_bodylen resp < 2 ^ 32 ->
  is_Some (getVBucket (engine_ w) vbucket) ->
  exists w' evs,
    handleResponse resp w = Ok ENGINE_SUCCESS w' /\
    Forall (eq (ConnMap_notifyPausedConnection true)) evs /\
    if bool_decide (getState s = STREAM_PENDING) then
      new_calls w w' =
        [FailoverTable_replaceFailoverLog vbucket (resp_body resp);
         EpStore_scheduleVBSnapshot vbucket;
         Stream_acceptStream vbucket 0 add_opaque] ++ evs /\
      engine_ w' = replaceFailoverLog (engine_ w) vbucket (resp_body resp) /\
      streams (cons w') =
        <[N.to_nat vbucket := Some (acceptStream s 0 add_opaque).2]>
          (streams (cons w))
    else
      new_calls w w' = [] /\ engine_ w' = engine_ w /\
      streams (cons w') = streams (cons w).
Proof.
  intros Hd Hop Hst Hmap Hslot Ho Hlen Hmod Hsmall Hvb.
  assert (known_opaque w (resp_opaque resp) vbucket) as Hknown.
  { by exists add_opaque, s. }
  rewrite (handleResponse_known resp w vbucket Hd Hknown Hop).
  rewrite Hst. simpl.
  apply Z.eqb_neq in Hlen. apply Z.eqb_eq in Hmod. rewrite Hlen, Hmod. simpl.
  destruct (streamAccepted_effect (resp_opaque resp) 0
              (resp_body resp) (wrap32 (resp_bodylen resp)) w add_opaque
              vbucket s Hmap Hslot Ho (fun _ => Hvb))
    as (w' & evs & Hacc & _ & _ & Hevs & Hc & He & Hs).
  unfold bind at 1. rewrite Hacc. unfold pure at 1.
  assert (take (Z.to_nat (wrap32 (resp_bodylen resp))) (resp_body resp)
          = resp_body resp) as Htake.
  { unfold wrap32, resp_bodylen in *.
    rewrite Z.mod_small by lia. rewrite Nat2Z.id. apply firstn_all. }
  rewrite Htake in Hc, He. simpl in Hc, He.
  exists w', evs. split; [done|]. split; [done|].
  destruct (bool_decide (getState s = STREAM_PENDING)); simpl in *.
  - split; [by apply new_calls_app|]. done.
  - split; [|done]. apply new_calls_same. by rewrite Hc, app_nil_r.
Qed.

(** X7: a ROLLBACK answer leaves the consumer and the engine exactly as
    they were; in particular the opaque stays registered, so the answer to
    the stream request sent after the rollback is still known. *)
Theorem rollback_response_keeps_registration
    (resp : protocol_binary_response) (w : World) (vbucket : vbid) :
  disconnect (cons w) = false ->
  resp_opcode resp = PROTOCOL_BINARY_CMD_DCP_STREAM_REQ ->
  resp_status resp = PROTOCOL_BINARY_RESPONSE_ROLLBACK ->
  length (resp_body resp) = 8%nat ->
  known_opaque w (resp_opaque resp) vbucket ->
  hd true (heap w) = true ->
  exists w',
    handleResponse resp w = Ok ENGINE_SUCCESS w' /\
    cons w' = cons w /\ engine_ w' = engine_ w /\
    known_opaque w' (resp_opaque resp) vbucket.
Proof.
  intros Hd Hop Hst Hlen Hknown Hheap.
  rewrite (handleResponse_known resp w vbucket Hd Hknown Hop).
  rewrite Hst, Z.eqb_refl. unfold resp_bodylen. rewrite Hlen. simpl.
  unfold new_. unfold_steps.
  destruct (heap w) as [|b h]; [|simpl in Hheap; subst b];
    (eexists; split; [done|]; simpl; by repeat split).
Qed.

(** ** [addStream] and [closeStream] *)

(** X8: the refusals of [addStream] on a live connection.  For a partition
    the engine does not have, or has in active state, it returns
    [ENGINE_NOT_MY_VBUCKET] and changes nothing.  For a partition whose
    stream is active it returns [ENGINE_KEY_EEXISTS]; by then the opaque
    counter has been advanced, and that is the only change. *)
Theorem addStream_refusals (opaque : Z) (vbucket : vbid) (flags : Z)
    (w : World) :
  disconnect (cons w) = false ->
  (getVBucket (engine_ w) vbucket = None ->
   addStream opaque vbucket flags w = Ok ENGINE_NOT_MY_VBUCKET w) /\
  (forall vb,
     getVBucket (engine_ w) vbucket = Some vb ->
     vb_state vb = vbucket_state_active ->
     addStream opaque vbucket flags w = Ok ENGINE_NOT_MY_VBUCKET w) /\
  (forall vb s,
     getVBucket (engine_ w) vbucket = Some vb ->
     vb_state vb <> vbucket_state_active ->
     streams (cons w) !! N.to_nat vbucket = Some (Some s) ->
     isActive s = true ->
     addStream opaque vbucket flags w =
       Ok ENGINE_KEY_EEXISTS
         (with_cons w
            (with_opaqueCounter (cons w)
               (wrap32 (opaqueCounter (cons w) + 1))))).
Proof.
  intros Hd. unfold addStream, incrOpaqueCounter, stream_at.
  split; [|split].
  - intros Hvb. unfold_steps. by rewrite Hd, Hvb.
  - intros vb Hvb Hst. unfold_steps. rewrite Hd, Hvb.
    by destruct (decide (vb_state vb = vbucket_state_active)).
  - intros vb s Hvb Hst Hslot Ha. unfold_steps. rewrite Hd, Hvb.
    destruct (decide (vb_state vb = vbucket_state_active)); [done|].
    simpl. by rewrite Hslot, Ha.
Qed.

(** X9: a successful [addStream].  For a partition the engine has in a
    state other than active, whose slot holds no active stream, it mints the
    next opaque, puts a new stream built from the partition's snapshot
    information in the slot (replacing a dead one), appends the partition to
    the ready list and registers the new opaque for the caller's opaque and
    the partition; nothing leaves the consumer.  If the new stream carries
    the opaque it was given, that opaque is known to [handleResponse]
    afterwards. *)
Theorem addStream_registers (opaque : Z) (vbucket : vbid) (flags : Z)
    (w : World) (vb : VBucket) (slot : option PassiveStream) :
  disconnect (cons w) = false ->
  getVBucket (engine_ w) vbucket = Some vb ->
  vb_state vb <> vbucket_state_active ->
  streams (cons w) !! N.to_nat vbucket = Some slot ->
  match slot with Some s => isActive s = false | None => True end ->
  hd true (heap w) = true ->
  let new_opaque := wrap32 (opaqueCounter (cons w) + 1) in
  let info := vb_snapshotInfo vb in
  let stream :=
    PassiveStream_new flags new_opaque vbucket (info_start info) (2 ^ 64 - 1)
      (vb_latest_uuid vb)
      (if info_range_end info =? info_start info
       then info_start info else info_range_start info)
      (info_range_end info) (vb_highSeqno vb) in
  exists w',
    addStream opaque vbucket flags w = Ok ENGINE_SUCCESS w' /\
    streams (cons w') = <[N.to_nat vbucket := Some stream]> (streams (cons w))
    /\ opaqueMap_ (cons w')
       = <[new_opaque := (opaque, vbucket)]> (opaqueMap_ (cons w)) /\
    opaqueCounter (cons w') = new_opaque /\
    ready (cons w') = ready (cons w) ++ [vbucket] /\
    new_calls w w' = [] /\
    (getOpaque stream = new_opaque -> known_opaque w' new_opaque vbucket).
Proof.
  intros Hd Hvb Hstate Hslot Hdead Hheap new_opaque info stream.
  unfold addStream, incrOpaqueCounter, stream_at. unfold_steps.
  rewrite Hd, Hvb.
  destruct (decide (vb_state vb = vbucket_state_active)); [done|].
  simpl. rewrite Hslot.
  assert ((match slot with Some s => isActive s | None => false end) = false)
    as ->.
  { by destruct slot. }
  assert (stream =
    PassiveStream_new flags new_opaque vbucket
      (info_start
         (if info_range_end info =? info_start info
          then {| info_start := info_start info;
                  info_range_start := info_start info;
                  info_range_end := info_range_end info |}
          else info))
      (2 ^ 64 - 1) (vb_latest_uuid vb)
      (info_range_start
         (if info_range_end info =? info_start info
          then {| info_start := info_start info;
                  info_range_start := info_start info;
                  info_range_end := info_range_end info |}
          else info))
      (info_range_end
         (if info_range_end info =? info_start info
          then {| info_start := info_start info;
                  info_range_start := info_start info;
                  info_range_end := info_range_end info |}
          else info))
      (vb_highSeqno vb)) as Hstream.
  { subst stream. by destruct (info_range_end info =? info_start info). }
  subst info. fold new_opaque.
  assert (N.to_nat vbucket < length (streams (cons w)))%nat as Hlt.
  { by apply lookup_lt_is_Some_1; eexists. }
  unfold new_. simpl.
  destruct (heap w) as [|b h]; [|simpl in Hheap; subst b]; simpl.
  all: (eexists; split; [done|]; simpl; rewrite <- Hstream;
     repeat split; try done; [by apply new_calls_same|];
     intros Ho; exists opaque, stream; simpl;
     rewrite lookup_insert_eq, list_lookup_insert_eq by done; done).
Qed.

(** X10: [closeStream] on a live connection erases the entry of the opaque
    it is given before it looks for the stream.  With an empty slot it then
    returns [ENGINE_KEY_ENOENT].  With a stream in the slot, dead or alive,
    it sets it dead with reason CLOSED, credits flow control with the bytes
    the stream reports as cleared, and returns [ENGINE_SUCCESS]; the stream
    stays in its slot and the ready list is not touched. *)
Theorem closeStream_outcome (opaque : Z) (vbucket : vbid) (w : World)
    (slot : option PassiveStream) :
  disconnect (cons w) = false ->
  streams (cons w) !! N.to_nat vbucket = Some slot ->
  exists r w',
    closeStream opaque vbucket w = Ok r w' /\
    opaqueMap_ (cons w') = delete opaque (opaqueMap_ (cons w)) /\
    ready (cons w') = ready (cons w) /\
    match slot with
    | None =>
        r = ENGINE_KEY_ENOENT /\ new_calls w w' = [] /\
        streams (cons w') = streams (cons w)
    | Some s =>
        r = ENGINE_SUCCESS /\
        new_calls w w' =
          [Stream_setDead vbucket END_STREAM_CLOSED;
           FlowControl_incrFreedBytes (setDead s END_STREAM_CLOSED).1] /\
        streams (cons w') =
          <[N.to_nat vbucket := Some (setDead s END_STREAM_CLOSED).2]>
            (streams (cons w))
    end.
Proof.
  intros Hd Hslot.
  unfold closeStream, stream_at, stream_setDead. unfold_steps.
  rewrite Hd. simpl. rewrite Hslot.
  destruct slot as [s|].
  - destruct (setDead s END_STREAM_CLOSED) as [bytes s'] eqn:Hdead.
    simpl. eexists _, _. split; [done|]. simpl.
    repeat split; try done. apply new_calls_app. simpl.
    by rewrite <- app_assoc.
  - eexists _, _. split; [done|]. simpl. repeat split; try done.
    by apply new_calls_same.
Qed.

(** ** Message calls off the main path *)

(** X11: a message for which there is no live stream (the slot is empty,
    the stream carries another opaque, or it is dead) is not dropped
    silently: the call returns [ENGINE_KEY_ENOENT] and credits flow control
    with the bytes of the message, once; nothing else changes. *)
Theorem message_without_stream (c : InboundCall) (bytes opaque : Z)
    (vbucket : vbid) (w : World) (slot : option PassiveStream) :
  message_bytes c = Some bytes ->
  message_target c = Some (opaque, vbucket) ->
  message_args_valid c = true ->
  disconnect (cons w) = false ->
  streams (cons w) !! N.to_nat vbucket = Some slot ->
  live_stream slot opaque = None ->
  invoke c w =
    Ok ENGINE_KEY_ENOENT
      (with_calls
         (with_cons w
            (with_flowControl (cons w)
               (incrFreedBytes (flowControl (cons w)) bytes)))
         (calls w ++ [FlowControl_incrFreedBytes bytes])).
Proof.
  intros Hb Ht Hv Hd Hslot Hlive.
  destruct c; simpl in Hb, Ht, Hv; try discriminate;
    injection Hb as <-; injection Ht as -> ->;
    try apply negb_true_iff in Hv; simpl;
    unfold expiration, streamEnd, mutation, deletion, snapshotMarker,
      setVBucketState;
    (unfold bind at 1; unfold doDisconnect, gets at 1; rewrite Hd, ?Hv;
     unfold bind at 1; rewrite (stream_at_Ok _ _ _ Hslot); rewrite Hlive;
     cbv zeta; by unfold_steps).
Qed.

(** X12: running out of memory in a message call whose stream is live.
    If the message itself cannot be allocated, the call returns
    [ENGINE_ENOMEM]: nothing is delivered and nothing credited.  If the
    item or the extended meta data object of a mutation, deletion or
    expiration cannot be allocated, the failure is not caught: the call
    ends in [std::bad_alloc]. *)
Theorem message_allocation_failure (c : InboundCall) (opaque : Z)
    (vbucket : vbid) (w : World) (slot : option PassiveStream)
    (s : PassiveStream) (h : list bool) :
  message_target c = Some (opaque, vbucket) ->
  message_args_valid c = true ->
  disconnect (cons w) = false ->
  streams (cons w) !! N.to_nat vbucket = Some slot ->
  live_stream slot opaque = Some s ->
  (forall emd, message_meta c = Some emd -> getStatus emd <> ENGINE_EINVAL) ->
  (heap w = replicate (allocations_before_message c) true ++ false :: h ->
   invoke c w = Ok ENGINE_ENOMEM (with_heap w h)) /\
  (forall k,
     (k < allocations_before_message c)%nat ->
     heap w = replicate k true ++ false :: h ->
     invoke c w = Raise bad_alloc (with_heap w (false :: h))).
Proof.
  intros Ht Hv Hd Hslot Hlive Hmeta.
  assert (Henter : forall (k : nat) (w' : World),
            heap w = replicate k true ++ false :: h ->
            (k <= allocations_before_message c)%nat ->
            w' = (if decide (k = allocations_before_message c)
                  then with_heap w h else with_heap w (false :: h)) ->
            invoke c w =
              if decide (k = allocations_before_message c)
              then Ok ENGINE_ENOMEM w' else Raise bad_alloc w').
  { intros k w' Hheap Hk ->.
    destruct c; simpl in Ht, Hv, Hmeta; try discriminate;
      injection Ht as -> ->;
      try apply negb_true_iff in Hv; simpl in Hk |- *;
      unfold expiration, streamEnd, mutation, deletion, snapshotMarker,
        setVBucketState;
      (unfold bind at 1; unfold doDisconnect, gets at 1; rewrite Hd, ?Hv;
       unfold bind at 1; rewrite (stream_at_Ok _ _ _ Hslot); rewrite Hlive;
       cbv zeta);
      try (destruct (0 <? nmeta);
           [specialize (Hmeta _ eq_refl);
            destruct (decide (getStatus _ = _)) as [|_]; [done|] |]);
      unfold new_, try_new; unfold_steps; rewrite Hheap;
      repeat (destruct k as [|k];
              [by destruct w; simpl in *; subst|]); simpl in Hk; lia. }
  split.
  - intros Hheap.
    rewrite (Henter _ _ Hheap (le_n _) eq_refl).
    by destruct (decide _).
  - intros k Hk Hheap.
    rewrite (Henter k _ Hheap (Nat.lt_le_incl _ _ Hk) eq_refl).
    destruct (decide _); [lia|done].
Qed.

(** X13: a mutation, deletion or expiration with seqno 0 on a live
    connection returns [ENGINE_EINVAL] before the streams are looked at:
    the world is unchanged, whatever the partition id. *)
Theorem zero_seqno_rejected (c : InboundCall) (opaque : Z) (vbucket : vbid)
    (meta : Bytes) (nmeta : Z) (w : World) :
  item_call c = Some (opaque, vbucket, 0, meta, nmeta) ->
  disconnect (cons w) = false ->
  invoke c w = Ok ENGINE_EINVAL w.
Proof.
  intros Hc Hd.
  destruct c; simpl in Hc; try discriminate;
    injection Hc as -> -> -> -> ->; simpl;
    unfold expiration, mutation, deletion; unfold_steps; by rewrite Hd.
Qed.

(** ** Waking the processor *)

Lemma message_call_ends_silent bytes w res :
  calls (world_of res) = calls w -> message_call_ends bytes w res.
Proof. intros Hc. left. by rewrite (new_calls_same _ _ Hc). Qed.

Lemma message_call_ends_credit bytes w w1 r n :
  calls w1 = calls w ++ [FlowControl_incrFreedBytes n] ->
  message_call_ends bytes w (Ok r w1).
Proof. intros Hc. left. simpl. by rewrite (new_calls_app _ _ _ Hc). Qed.

Lemma message_call_ends_tail bytes w w1 vbucket s response :
  cons w1 = cons w -> engine_ w1 = engine_ w -> calls w1 = calls w ->
  message_call_ends bytes w (deliver_tail vbucket s response bytes w1).
Proof. intros ? ? ?. right. by exists w1, vbucket, s, response. Qed.

Lemma new_frame (w : World) :
  (exists w1, new_ w = Ok tt w1 /\ cons w1 = cons w /\
              engine_ w1 = engine_ w /\ calls w1 = calls w) \/
  new_ w = Raise bad_alloc w.
Proof.
  unfold new_. destruct (heap w) as [|[] ?]; [left|left|right];
    by try eexists.
Qed.

Lemma try_new_frame (w : World) :
  exists b w1, try_new w = Ok b w1 /\ cons w1 = cons w /\
               engine_ w1 = engine_ w /\ calls w1 = calls w.
Proof.
  unfold try_new. destruct (heap w); by eexists _, _.
Qed.

Ltac quiet := apply message_call_ends_silent; simpl; congruence.

Ltac enter_bind :=
  lazymatch goal with
  | |- message_call_ends _ _ (bind ?m ?k ?w) =>
      change (bind m k w)
        with (match m w with Ok a w' => k a w' | Raise f w' => Raise f w' end)
  end.

Ltac pass_disconnect w :=
  enter_bind; unfold doDisconnect, gets at 1;
  destruct (disconnect (cons w)); [quiet|].

Ltac pass_slot w vbucket slot :=
  enter_bind; unfold stream_at at 1;
  destruct (streams (cons w) !! N.to_nat vbucket) as [slot|]; [|quiet].

Ltac pass_no_stream :=
  unfold decide, decide_rel; simpl; unfold_steps; simpl;
  by eapply message_call_ends_credit.

Ltac pass_new w w1 Hc1 He1 Hl1 :=
  enter_bind;
  destruct (new_frame w) as [(w1 & -> & Hc1 & He1 & Hl1)| ->]; [|quiet].

Ltac pass_try_new w w1 Hc1 He1 Hl1 :=
  enter_bind;
  let b := fresh "b" in
  destruct (try_new_frame w) as (b & w1 & -> & Hc1 & He1 & Hl1);
  destruct b; simpl; [|quiet].

Lemma streamEnd_ends opaque vbucket flags (w : World) :
  message_call_ends StreamEndResponse_baseMsgBytes w
    (streamEnd opaque vbucket flags w).
Proof.
  unfold streamEnd. pass_disconnect w. pass_slot w vbucket slot.
  destruct (live_stream slot opaque) as [s|]; [|pass_no_stream].
  pass_try_new w w1 Hc1 He1 Hl1. by apply message_call_ends_tail.
Qed.

Lemma snapshotMarker_ends opaque vbucket start_seqno end_seqno flags
    (w : World) :
  message_call_ends SnapshotMarker_baseMsgBytes w
    (snapshotMarker opaque vbucket start_seqno end_seqno flags w).
Proof.
  unfold snapshotMarker. pass_disconnect w.
  destruct (end_seqno <? start_seqno); [quiet|].
  pass_slot w vbucket slot.
  destruct (live_stream slot opaque) as [s|]; [|pass_no_stream].
  pass_try_new w w1 Hc1 He1 Hl1. by apply message_call_ends_tail.
Qed.

Lemma setVBucketState_ends opaque vbucket state (w : World) :
  message_call_ends SetVBucketState_baseMsgBytes w
    (setVBucketState opaque vbucket state w).
Proof.
  unfold setVBucketState. pass_disconnect w. pass_slot w vbucket slot.
  destruct (live_stream slot opaque) as [s|]; [|pass_no_stream].
  pass_try_new w w1 Hc1 He1 Hl1. by apply message_call_ends_tail.
Qed.

Lemma mutation_ends opaque key nkey value nvalue cas vbucket flags
    datatype locktime bySeqno revSeqno exptime nru meta nmeta (w : World) :
  message_call_ends (wrap32 (mutationBaseMsgBytes + nkey + nmeta + nvalue)) w
    (mutation opaque key nkey value nvalue cas vbucket flags datatype
       locktime bySeqno revSeqno exptime nru meta nmeta w).
Proof.
  unfold mutation. pass_disconnect w.
  destruct (bySeqno =? 0); [quiet|].
  pass_slot w vbucket slot.
  destruct (live_stream slot opaque) as [s|]; [|pass_no_stream].
  pass_new w w1 Hc1 He1 Hl1. cbv zeta.
  destruct (0 <? nmeta).
  - pass_new w1 w2 Hc2 He2 Hl2.
    destruct (decide _); [quiet|].
    pass_try_new w2 w3 Hc3 He3 Hl3.
    apply message_call_ends_tail; congruence.
  - pass_try_new w1 w2 Hc2 He2 Hl2.
    apply message_call_ends_tail; congruence.
Qed.

Lemma deletion_ends opaque key nkey cas vbucket bySeqno revSeqno meta
    nmeta (w : World) :
  message_call_ends (wrap32 (deletionBaseMsgBytes + nkey + nmeta)) w
    (deletion opaque key nkey cas vbucket bySeqno revSeqno meta nmeta w).
Proof.
  unfold deletion. pass_disconnect w.
  destruct (bySeqno =? 0); [quiet|].
  pass_slot w vbucket slot.
  destruct (live_stream slot opaque) as [s|]; [|pass_no_stream].
  pass_new w w1 Hc1 He1 Hl1. cbv zeta.
  destruct (0 <? nmeta).
  - pass_new w1 w2 Hc2 He2 Hl2.
    destruct (decide _); [quiet|].
    pass_try_new w2 w3 Hc3 He3 Hl3.
    apply message_call_ends_tail; congruence.
  - pass_try_new w1 w2 Hc2 He2 Hl2.
    apply message_call_ends_tail; congruence.
Qed.

Lemma message_call_ends_in_tail (c : InboundCall) (bytes : Z) (w : World) :
  message_bytes c = Some bytes -> message_call_ends bytes w (invoke c w).
Proof.
  intros Hb.
  destruct c; simpl in Hb; try discriminate; injection Hb as <-; simpl.
  - apply streamEnd_ends.
  - apply mutation_ends.
  - apply deletion_ends.
  - apply deletion_ends.
  - apply snapshotMarker_ends.
  - apply setVBucketState_ends.
Qed.

Lemma wakeIfBuffered_effect (err : ENGINE_ERROR_CODE) (w : World) :
  exists w' evs,
    wakeIfBuffered err w = Ok tt w' /\
    calls w' = calls w ++ evs /\ deliveries evs = [] /\
    itemsToProcess (cons w') =
      (if decide (err = ENGINE_TMPFAIL) then true
       else itemsToProcess (cons w)) /\
    wakes evs =
      (if decide (err = ENGINE_TMPFAIL)
       then (if itemsToProcess (cons w) then 0 else 1)
       else 0)%nat /\
    flowControl (cons w') = flowControl (cons w).
Proof.
  unfold wakeIfBuffered. unfold_steps.
  destruct (decide (err = ENGINE_TMPFAIL)).
  - destruct (itemsToProcess (cons w)) eqn:Hitp; simpl.
    + exists w, []. by rewrite app_nil_r.
    + eexists _, [_]. done.
  - exists w, []. by rewrite app_nil_r.
Qed.

Lemma wakes_app (l k : list Call) : wakes (l ++ k) = (wakes l + wakes k)%nat.
Proof. unfold wakes. by rewrite omap_app, length_app. Qed.

Lemma wakes_notifications (evs : list Call) :
  Forall (eq (ConnMap_notifyPausedConnection true)) evs ->
  wakes evs = 0%nat /\ deliveries evs = [] /\ credits evs = [].
Proof.
  induction 1 as [|c evs <- _ IH]; [done|]. apply IH.
Qed.

(** The end of a message call, step by step. *)
Lemma deliver_tail_effect (vbucket : vbid) (s : PassiveStream)
    (response : DcpResponse) (bytes : Z) (w : World) :
  let err := (messageReceived s response (engine_ w)).1.1.1 in
  exists w' evs,
    deliver_tail vbucket s response bytes w
      = Ok (if decide (err = ENGINE_TMPFAIL) then ENGINE_SUCCESS else err) w'
    /\ calls w' = calls w ++ Stream_messageReceived vbucket response err :: evs
    /\ deliveries evs = []
    /\ itemsToProcess (cons w') =
         (if decide (err = ENGINE_TMPFAIL) then true
          else itemsToProcess (cons w))
    /\ wakes evs =
         (if decide (err = ENGINE_TMPFAIL)
          then (if itemsToProcess (cons w) then 0 else 1)
          else 0)%nat.
Proof.
  intros err. unfold deliver_tail, stream_messageReceived.
  unfold bind at 1. unfold bind at 1. unfold engine at 1.
  subst err.
  destruct (messageReceived s response (engine_ w)) as [[[err notify] s'] e'].
  simpl. unfold_steps. simpl.
  match goal with
  | |- context [stream_callback vbucket notify ?w1] =>
      destruct (stream_callback_frame vbucket notify w1)
        as (w2 & evs1 & -> & Hc1 & Hevs & _ & _ & _ & Hitp & _)
  end.
  simpl in Hc1, Hitp.
  destruct (wakes_notifications evs1 Hevs) as (Hw1 & Hd1 & _).
  destruct (wakeIfBuffered_effect err w2)
    as (w3 & evs2 & -> & Hc2 & Hd2 & Hitp2 & Hw2 & _).
  rewrite Hitp in Hitp2, Hw2.
  destruct (decide (err = ENGINE_TMPFAIL)).
  - exists w3, (evs1 ++ evs2). split; [done|].
    rewrite Hc2, Hc1, <- !app_assoc. simpl.
    unfold deliveries in *. rewrite wakes_app, omap_app, Hd1, Hd2, Hw1, Hw2.
    done.
  - eexists _, (evs1 ++ evs2 ++ [FlowControl_incrFreedBytes bytes]).
    split; [done|]. simpl.
    rewrite Hc2, Hc1, <- !app_assoc. simpl.
    unfold deliveries in *.
    rewrite !wakes_app, !omap_app, Hd1, Hd2, Hw1, Hw2. done.
Qed.

(** X14: the processor task is woken by the message that finds
    [itemsToProcess] clear, and by no other.  For a message call that
    reached a stream: if the stream buffered the message
    ([ENGINE_TMPFAIL]), [itemsToProcess] is set afterwards, and the
    processor was woken once if the flag was clear before and not at all if
    it was already set; for any other answer of the stream the flag is
    left as it was and the processor is not woken. *)
Theorem buffered_message_wakes_processor (c : InboundCall) (bytes : Z)
    (w : World) (vb : vbid) (resp : DcpResponse) (err : ENGINE_ERROR_CODE) :
  message_bytes c = Some bytes ->
  Stream_messageReceived vb resp err ∈ new_calls w (world_of (invoke c w)) ->
  let w' := world_of (invoke c w) in
  itemsToProcess (cons w') =
    (if decide (err = ENGINE_TMPFAIL) then true
     else itemsToProcess (cons w)) /\
  wakes (new_calls w w') =
    (if decide (err = ENGINE_TMPFAIL)
     then (if itemsToProcess (cons w) then 0 else 1)
     else 0)%nat.
Proof.
  intros Hb Hin w'. subst w'.
  destruct (message_call_ends_in_tail c bytes w Hb)
    as [Hnone | (w1 & vbucket & s & response & Hcons & He & Hc & Hrun)].
  { exfalso. revert Hin. apply no_delivery_not_in. exact Hnone. }
  rewrite Hrun in Hin |- *.
  destruct (deliver_tail_effect vbucket s response bytes w1)
    as (w2 & evs & Htail & Hc2 & Hd & Hitp & Hw).
  rewrite Htail in Hin |- *. simpl in Hin |- *.
  rewrite Hc in Hc2. rewrite Hcons in Hitp, Hw.
  rewrite (new_calls_app _ _ _ Hc2) in Hin |- *.
  apply elem_of_cons in Hin as [Heq|Hin]; [|by apply no_delivery_not_in in Hin].
  injection Heq as _ _ ->.
  split; [exact Hitp|]. exact Hw.
Qed.

(** ** Negotiation *)

(** One [step] of a live consumer whose flow control has nothing to send
    and which still has a control message to send: it sends the first
    pending one under the next opaque and clears its flag, whatever the
    host answers. *)
Lemma step_sends_next_control (producers : dcp_message_producers)
    (w : World) (fc' : FlowControl) (key value : string)
    (rest : list (string * string)) :
  disconnect (cons w) = false ->
  handleFlowCtl (flowControl (cons w)) producers = (ENGINE_FAILED, fc') ->
  pending_controls (cons w) = (key, value) :: rest ->
  noop_timed_out w = false ->
  let opaque := wrap32 (opaqueCounter (cons w) + 1) in
  let r := control producers opaque key value in
  r <> ENGINE_FAILED ->
  exists w',
    step producers w = Ok (want_more r) w' /\
    calls w' =
      calls w ++ [FlowControl_handleFlowCtl ENGINE_FAILED;
                  Producers_control opaque key value r] /\
    pending_controls (cons w') = rest /\
    opaqueCounter (cons w') = opaque /\
    disconnect (cons w') = false /\
    flowControl (cons w') = fc' /\
    noop_timed_out w' = false.
Proof.
  intros Hd Hfc Hpending Htime opaque r Hr.
  unfold noop_timed_out in *. unfold pending_controls in *.
  subst opaque r.
  destruct w as [c e now allocations count log]. destruct c. simpl in *.
  subst.
  unfold step, handleNoop, handlePriority, handleExtMetaData,
    handleValueCompression, supportCursorDropping.
  unfold_steps. simpl. rewrite Hfc. simpl.
  repeat match goal with
         | H : context [if ?flag then _ else _] |- _ =>
             is_var flag; destruct flag; simpl in H
         end;
    try discriminate;
    injection Hpending as <- <- <-;
    simpl; rewrite ?Htime; simpl;
    rewrite (bool_decide_eq_false_2 _ Hr); simpl;
    (eexists; split; [done|]; simpl;
     repeat split; try done; by rewrite <- app_assoc).
Qed.

(** X15.  Negotiation goes out in a fixed order, one control message per
    [step]: on a live consumer whose flow control has nothing to send, and
    goes on having nothing to send, and whose host accepts control
    messages, as many calls of [step] as there are pending control messages
    send exactly those, in the order noop, noop interval, priority,
    extended meta data, value compression, cursor dropping.  Each call asks
    flow control, then sends one message, under the opaque that follows the
    one of the message before, and returns the host's answer to it, with
    [ENGINE_SUCCESS] lifted to [ENGINE_WANT_MORE]; nothing else is called,
    and no message is left pending. *)
Theorem negotiation_in_order (producers : dcp_message_producers)
    (idle : FlowControl -> Prop) (w : World) :
  (forall fc, idle fc ->
     (handleFlowCtl fc producers).1 = ENGINE_FAILED /\
     idle (handleFlowCtl fc producers).2) ->
  idle (flowControl (cons w)) ->
  (forall opaque key value,
     control producers opaque key value <> ENGINE_FAILED) ->
  disconnect (cons w) = false ->
  noop_timed_out w = false ->
  let n := length (pending_controls (cons w)) in
  let exchanges :=
    control_exchanges producers (opaqueCounter (cons w))
      (pending_controls (cons w)) in
  exists rs w',
    steps n producers w = Ok rs w' /\
    rs = (fun x => want_more x.2) <$> exchanges /\
    new_calls w w' = exchanges ≫= exchange_calls /\
    pending_controls (cons w') = [] /\
    opaqueCounter (cons w') =
      Nat.iter n (fun k => wrap32 (k + 1)) (opaqueCounter (cons w)).
Proof.
  intros Hflow Hidle Hhost Hd Htime n exchanges. subst n exchanges.
  remember (pending_controls (cons w)) as todo eqn:Hpending.
  symmetry in Hpending.
  enough (exists rs w',
            steps (length todo) producers w = Ok rs w' /\
            rs = (fun x => want_more x.2)
                   <$> control_exchanges producers (opaqueCounter (cons w))
                         todo /\
            calls w' =
              calls w ++
              (control_exchanges producers (opaqueCounter (cons w)) todo
                 ≫= exchange_calls) /\
            pending_controls (cons w') = [] /\
            opaqueCounter (cons w') =
              Nat.iter (length todo) (fun k => wrap32 (k + 1))
                (opaqueCounter (cons w)))
    as (rs & w' & Hrun & Hrs & Hlog & Hnone & Hcounter).
  { exists rs, w'. by rewrite (new_calls_app _ _ _ Hlog). }
  revert w Hidle Hd Htime Hpending.
  induction todo as [|[key value] rest IH]; intros w Hidle Hd Htime Hpending.
  - simpl. unfold pure. exists [], w. by rewrite app_nil_r.
  - destruct (Hflow _ Hidle) as [Hr0 Hidle'].
    destruct (handleFlowCtl (flowControl (cons w)) producers)
      as [r0 fc'] eqn:Hfc.
    simpl in Hr0, Hidle'. subst r0.
    destruct (step_sends_next_control producers w fc' key value rest
                Hd Hfc Hpending Htime (Hhost _ _ _))
      as (w1 & Hstep & Hcalls & Hrest & Hcounter & Hd1 & Hfc1 & Htime1).
    rewrite <- Hfc1 in Hidle'.
    destruct (IH w1 Hidle' Hd1 Htime1 Hrest)
      as (rs & w2 & Hsteps & Hrs & Hlog & Hnone & Hc2).
    simpl steps. unfold bind at 1. rewrite Hstep.
    unfold bind at 1. rewrite Hsteps. unfold pure.
    eexists _, w2. split; [done|].
    rewrite Hcounter in Hrs, Hlog.
    split; [by rewrite Hrs|].
    split; [rewrite Hlog, Hcalls, <- app_assoc; done|].
    split; [done|].
    rewrite Hc2, Hcounter. simpl length. by rewrite Nat.iter_succ_r.
Qed.

(** X16.  What a [noop] from the producer buys: once both noop control
    messages are out, a [noop] received at time [clock w] makes the noop
    handling of [step] decline ([ENGINE_FAILED], so that [step] goes on to
    the other sources) at every later time [t] up to twice the noop
    interval after it, and answer [ENGINE_DISCONNECT] at every time beyond
    that; the opaque of the [noop] plays no part.  Times are 32-bit and are
    taken not to wrap. *)
Theorem noop_keeps_alive (producers : dcp_message_producers) (opaque : Z)
    (w : World) (t : Z) :
  pendingEnableNoop (cons w) = false ->
  pendingSendNoopInterval (cons w) = false ->
  0 <= clock w <= t -> t < 2 ^ 32 ->
  0 <= 2 * noopInterval (cons w) < 2 ^ 32 ->
  exists w1,
    noop opaque w = Ok ENGINE_SUCCESS w1 /\
    new_calls w w1 = [] /\
    handleNoop producers (with_clock w1 t) =
      Ok (if decide (t - clock w > 2 * noopInterval (cons w))
          then ENGINE_DISCONNECT else ENGINE_FAILED)
         (with_clock w1 t).
Proof.
  intros Hp1 Hp2 Hclock Ht Hint.
  unfold noop. unfold_steps.
  eexists. split; [done|]. split; [by apply new_calls_same|].
  unfold handleNoop. unfold_steps. simpl.
  rewrite Hp1. simpl. rewrite Hp2. simpl.
  unfold wrap32.
  rewrite (Z.mod_small (noopInterval (cons w) * 2)) by lia.
  rewrite (Z.mod_small (t - clock w)) by lia.
  destruct (Z.ltb_spec (noopInterval (cons w) * 2) (t - clock w));
    destruct (decide (t - clock w > 2 * noopInterval (cons w)));
    done || lia.
Qed.

(** ** Teardown *)

Lemma disconnected_slot_length (l : list (option PassiveStream)) :
  length (disconnected_slot <$> l) = length l.
Proof. apply length_fmap. Qed.

(** The loop of [closeAllStreams] over the partitions [i], ..., [i + n - 1],
    all within the array. *)
Lemma closeAllStreams_loop_effect (n : nat) :
  forall (i : nat) (w : World),
    (i + n <= length (streams (cons w)))%nat ->
    exists w',
      closeAllStreams_loop (seq i n) w = Ok tt w' /\
      (forall k,
         streams (cons w') !! k =
           if bool_decide (i <= k < i + n)%nat
           then disconnected_slot <$> streams (cons w) !! k
           else streams (cons w) !! k) /\
      calls w' =
        calls w ++ disconnect_calls i (take n (drop i (streams (cons w)))) /\
      flowControl (cons w') = flowControl (cons w) /\
      ready (cons w') = ready (cons w) /\
      opaqueMap_ (cons w') = opaqueMap_ (cons w) /\
      disconnect (cons w') = disconnect (cons w) /\
      engine_ w' = engine_ w.
Proof.
  induction n as [|n IH]; intros i w Hlen.
  - simpl. unfold pure. exists w. split; [done|].
    split; [|by rewrite app_nil_r].
    intros k. by rewrite bool_decide_eq_false_2 by lia.
  - destruct (lookup_lt_is_Some_2 (streams (cons w)) i ltac:(lia))
      as [slot Hslot].
    assert (drop i (streams (cons w))
            = slot :: drop (S i) (streams (cons w))) as Hdrop.
    { by apply drop_S. }
    simpl seq. simpl closeAllStreams_loop.
    unfold bind at 1. unfold stream_at at 1.
    rewrite Nat2N.id, Hslot.
    destruct slot as [s|].
    + unfold stream_setDead.
      destruct (setDead s END_STREAM_DISCONNECTED) as [bytes s'] eqn:Hdead.
      unfold_steps. simpl. rewrite Nat2N.id.
      match goal with
      | |- context [closeAllStreams_loop _ ?w1] =>
          destruct (IH (S i) w1) as (w' & Hrun & Hstreams & Hcalls & Hframe)
      end.
      { simpl. rewrite length_insert. lia. }
      simpl in Hstreams, Hcalls, Hframe.
      exists w'. split; [done|]. split; [|split; [|done]].
      * intros k. rewrite Hstreams.
        destruct (decide (k = i)) as [->|Hne].
        -- rewrite bool_decide_eq_false_2 by lia.
           rewrite bool_decide_eq_true_2 by lia.
           rewrite list_lookup_insert_eq by lia.
           rewrite Hslot. simpl. by rewrite Hdead.
        -- rewrite list_lookup_insert_ne by done.
           destruct (decide (S i <= k < S i + n)%nat).
           ++ by rewrite !bool_decide_eq_true_2 by lia.
           ++ by rewrite !bool_decide_eq_false_2 by lia.
      * rewrite Hcalls, Hdrop. simpl.
        rewrite drop_insert_lt by lia.
        by rewrite <- app_assoc.
    + destruct (IH (S i) w) as (w' & Hrun & Hstreams & Hcalls & Hframe);
        [lia|].
      exists w'. split; [done|]. split; [|split; [|done]].
      * intros k. rewrite Hstreams.
        destruct (decide (k = i)) as [->|Hne].
        -- rewrite bool_decide_eq_false_2 by lia.
           rewrite bool_decide_eq_true_2 by lia.
           by rewrite Hslot.
        -- destruct (decide (S i <= k < S i + n)%nat).
           ++ by rewrite !bool_decide_eq_true_2 by lia.
           ++ by rewrite !bool_decide_eq_false_2 by lia.
      * rewrite Hcalls, Hdrop. by simpl.
Qed.

(** X17.  [closeAllStreams], run by the destructor.  When the configured
    number of partitions is the size of the streams array, every stream in
    the array, dead or alive, is set dead with reason DISCONNECTED, once
    and in partition order; empty slots stay empty.  Unlike [closeStream],
    it does not credit flow control with the bytes the streams report as
    cleared, and it touches neither the ready list nor the opaque map nor
    the disconnect flag.  When the configured number is larger than the
    array, the loop reads past its end. *)
Theorem closeAllStreams_disconnects (config : Configuration) (w : World) :
  (getMaxVbuckets config = length (streams (cons w)) ->
   exists w',
     closeAllStreams config w = Ok tt w' /\
     streams (cons w') = disconnected_slot <$> streams (cons w) /\
     new_calls w w' = disconnect_calls 0 (streams (cons w)) /\
     credits (new_calls w w') = [] /\
     flowControl (cons w') = flowControl (cons w) /\
     ready (cons w') = ready (cons w) /\
     opaqueMap_ (cons w') = opaqueMap_ (cons w) /\
     disconnect (cons w') = disconnect (cons w)) /\
  ((getMaxVbuckets config > length (streams (cons w)))%nat ->
   exists w', closeAllStreams config w = Raise out_of_bounds w').
Proof.
  split.
  - intros Hn. unfold closeAllStreams.
    destruct (closeAllStreams_loop_effect (getMaxVbuckets config) 0 w)
      as (w' & Hrun & Hstreams & Hcalls & Hfc & Hready & Hmap & Hd & _);
      [lia|].
    rewrite drop_0, Hn, firstn_all in Hcalls.
    exists w'. split; [done|].
    split; [|split; [by apply new_calls_app|split; [|done]]].
    + apply list_eq. intros k. rewrite Hstreams, list_lookup_fmap.
      destruct (decide (k < length (streams (cons w)))%nat).
      * by rewrite bool_decide_eq_true_2 by lia.
      * rewrite bool_decide_eq_false_2 by lia.
        by rewrite lookup_ge_None_2 by lia.
    + rewrite (new_calls_app _ _ _ Hcalls). clear.
      generalize 0%nat. induction (streams (cons w)) as [|[s|] l IH];
        intros i; simpl; auto.
  - intros Hn. unfold closeAllStreams.
    remember (length (streams (cons w))) as len eqn:Hlen.
    replace (getMaxVbuckets config)
      with (len + S (getMaxVbuckets config - len - 1))%nat by lia.
    rewrite seq_app. simpl.
    destruct (closeAllStreams_loop_effect len 0 w)
      as (w' & Hrun & Hstreams & _); [lia|].
    assert (Hcompose : forall l k w0 w1,
              closeAllStreams_loop l w0 = Ok tt w1 ->
              closeAllStreams_loop (l ++ k) w0 = closeAllStreams_loop k w1).
    { clear. induction l as [|v l IH]; intros k w0 w1 Hl.
      - by injection Hl as ->.
      - simpl in *. unfold bind at 1. unfold bind at 1 in Hl.
        destruct (stream_at (N.of_nat v) w0) as [[s|] wa|]; [| |done].
        + unfold bind at 1. unfold bind at 1 in Hl.
          destruct (stream_setDead (N.of_nat v) s END_STREAM_DISCONNECTED wa)
            as [b wb|]; [|done].
          by apply IH.
        + by apply IH. }
    rewrite (Hcompose _ _ _ _ Hrun). simpl.
    unfold bind at 1. unfold stream_at at 1. rewrite Nat2N.id.
    assert (streams (cons w') !! len = None) as ->.
    { rewrite Hstreams. rewrite bool_decide_eq_false_2 by lia.
      apply lookup_ge_None_2. lia. }
    by eexists.
Qed.

(** X18.  The processor task is cancelled at most once.  Whatever sequence
    of [cancelTask] (the consumer's destructor) and [taskCancelled] (the
    task's destructor) follows the construction, the executor is asked to
    cancel the task exactly when the first of them is [cancelTask], then
    once and with the id the task was scheduled under. *)
Theorem task_cancelled_at_most_once (id : Z) (cs : list TeardownCall) :
  let t := foldl (fun t c => teardown c t) (scheduled id) cs in
  cancelled t =
    match cs with
    | Call_cancelTask :: _ => [id]
    | _ => []
    end /\
  taskAlreadyCancelled t = bool_decide (cs <> []) /\
  processerTaskId t = id.
Proof.
  assert (Hdone : forall cs t,
            taskAlreadyCancelled t = true ->
            foldl (fun t c => teardown c t) t cs = t).
  { clear. induction cs as [|c cs IH]; intros t Ht; [done|].
    simpl. destruct c; simpl; unfold cancelTask, taskCancelled;
      rewrite Ht; by apply IH. }
  destruct cs as [|[|] cs]; simpl; [done| |];
    by rewrite Hdone.
Qed.

(** ** The array bounds *)

Section Bounds.
Variables (strict : bool) (n : nat) (d : bool).

Lemma good_fields (w w' : World) :
  disconnect (cons w') = disconnect (cons w) ->
  streams (cons w') = streams (cons w) ->
  ready (cons w') = ready (cons w) ->
  opaqueMap_ (cons w') = opaqueMap_ (cons w) ->
  good n d w -> good n d w'.
Proof.
  unfold good, in_bounds. intros -> -> -> ->. done.
Qed.

Lemma bounded_bind {A B} (m : M A) (k : A -> M B) :
  bounded strict n d m -> (forall a, bounded strict n d (k a)) ->
  bounded strict n d (bind m k).
Proof.
  intros Hm Hk w Hw. unfold bind.
  destruct (Hm w Hw) as [Hg Hs].
  destruct (m w) as [a w1|f w1]; simpl in *.
  - by apply Hk.
  - done.
Qed.

Lemma bounded_unchanged {A} (m : M A) :
  (forall w, cons (world_of (m w)) = cons w /\
             is_out_of_bounds (m w) = false) ->
  bounded strict n d m.
Proof.
  intros Hm w Hw. destruct (Hm w) as [Hc Ho]. split; [|done].
  revert Hw. apply good_fields; by rewrite Hc.
Qed.

Lemma bounded_pure {A} (a : A) : bounded strict n d (pure a).
Proof. by apply bounded_unchanged. Qed.

Lemma bounded_raise {A} (f : Fault) :
  f <> out_of_bounds -> bounded strict n d (raise (A:=A) f).
Proof. intros Hf. apply bounded_unchanged. intros w. by destruct f. Qed.

Lemma bounded_gets {A} (f : DcpConsumer -> A) : bounded strict n d (gets f).
Proof. by apply bounded_unchanged. Qed.

Lemma bounded_call (c : Call) : bounded strict n d (call c).
Proof. by apply bounded_unchanged. Qed.

Lemma bounded_engine : bounded strict n d engine.
Proof. by apply bounded_unchanged. Qed.

Lemma bounded_set_engine (e : Engine) : bounded strict n d (set_engine e).
Proof. by apply bounded_unchanged. Qed.

Lemma bounded_ep_current_time : bounded strict n d ep_current_time.
Proof. by apply bounded_unchanged. Qed.

Lemma bounded_new : bounded strict n d new_.
Proof.
  apply bounded_unchanged. intros w. unfold new_.
  by destruct (heap w) as [|[|] h].
Qed.

Lemma bounded_try_new : bounded strict n d try_new.
Proof.
  apply bounded_unchanged. intros w. unfold try_new.
  by destruct (heap w) as [|b h].
Qed.

Lemma bounded_incr_rollbackCount : bounded strict n d incr_rollbackCount.
Proof. by apply bounded_unchanged. Qed.

Lemma bounded_modify (f : DcpConsumer -> DcpConsumer) :
  (forall c, disconnect (f c) = disconnect c /\ streams (f c) = streams c /\
             ready (f c) = ready c /\ opaqueMap_ (f c) = opaqueMap_ c) ->
  bounded strict n d (modify f).
Proof.
  intros Hf w Hw. split; [|done].
  destruct (Hf (cons w)) as (? & ? & ? & ?).
  revert Hw. by apply good_fields.
Qed.

Lemma bounded_set_stream (vbucket : vbid) (slot : option PassiveStream) :
  bounded strict n d (set_stream vbucket slot).
Proof.
  intros w (Hlen & Hd & Hready & Hmap). split; [|done].
  unfold good, in_bounds. simpl. rewrite length_insert. done.
Qed.

Lemma bounded_set_ready (l : list vbid) :
  (forall vb, vb ∈ l -> (N.to_nat vb < n)%nat) ->
  bounded strict n d (modify (fun c => with_ready c l)).
Proof.
  intros Hl w (Hlen & Hd & Hready & Hmap). split; [|done].
  rewrite Hlen in Hmap.
  unfold good, in_bounds. simpl. rewrite Hlen. done.
Qed.

Lemma bounded_push_ready (vbucket : vbid) :
  (N.to_nat vbucket < n)%nat ->
  bounded strict n d
    (modify (fun c => with_ready c (ready c ++ [vbucket]))).
Proof.
  intros Hvb w (Hlen & Hd & Hready & Hmap). split; [|done].
  unfold good, in_bounds. simpl. split; [done|]. split; [done|].
  split; [|done].
  intros vb [Hin|Hin%list_elem_of_singleton]%elem_of_app.
  - by apply Hready.
  - subst vb. by rewrite Hlen.
Qed.

Lemma bounded_register (new_opaque opaque : Z) (vbucket : vbid) :
  (N.to_nat vbucket < n)%nat ->
  bounded strict n d
    (modify (fun c =>
       with_opaqueMap c
         (<[new_opaque := (opaque, vbucket)]> (opaqueMap_ c)))).
Proof.
  intros Hvb w (Hlen & Hd & Hready & Hmap). split; [|done].
  unfold good, in_bounds. simpl. split; [done|]. split; [done|].
  split; [done|].
  intros k o vb [[_ Heq]|[_ Hin]]%lookup_insert_Some.
  - injection Heq as _ <-. by rewrite Hlen.
  - by eapply Hmap.
Qed.

Lemma bounded_erase (opaque : Z) :
  bounded strict n d
    (modify (fun c => with_opaqueMap c (delete opaque (opaqueMap_ c)))).
Proof.
  intros w (Hlen & Hd & Hready & Hmap). split; [|done].
  unfold good, in_bounds. simpl. split; [done|]. split; [done|].
  split; [done|].
  intros k o vb [_ Hin]%lookup_delete_Some. by eapply Hmap.
Qed.

(** Reading a slot: where the partition is known to be within the array
    the read cannot fault; elsewhere a returned slot tells that it is. *)
Lemma bounded_stream_at {A} (vbucket : vbid)
    (k : option PassiveStream -> M A) :
  (strict = true -> (N.to_nat vbucket < n)%nat) ->
  ((N.to_nat vbucket < n)%nat -> forall slot, bounded strict n d (k slot)) ->
  bounded strict n d (bind (stream_at vbucket) k).
Proof.
  intros Hstrict Hk w Hw. unfold bind, stream_at.
  destruct (streams (cons w) !! N.to_nat vbucket) as [slot|] eqn:Hslot.
  - apply Hk; [|done].
    destruct Hw as [<- _]. by eapply lookup_lt_Some.
  - simpl. split; [done|]. intros Hs.
    apply lookup_ge_None_1 in Hslot. destruct Hw as [Hlen _].
    specialize (Hstrict Hs). lia.
Qed.

Lemma bounded_gets_ready {A} (k : list vbid -> M A) :
  (forall rdy, (forall vb, vb ∈ rdy -> (N.to_nat vb < n)%nat) ->
     bounded strict n d (k rdy)) ->
  bounded strict n d (bind (gets ready) k).
Proof.
  intros Hk w Hw. unfold bind, gets. apply Hk; [|done].
  destruct Hw as (Hlen & _ & Hready & _). intros vb Hin.
  rewrite <- Hlen. by apply Hready.
Qed.

Lemma bounded_lookup {A} (opaque : Z) (k : option (Z * vbid) -> M A) :
  (forall oitr,
     (forall o vb, oitr = Some (o, vb) -> (N.to_nat vb < n)%nat) ->
     bounded strict n d (k oitr)) ->
  bounded strict n d (bind (gets (fun c => opaqueMap_ c !! opaque)) k).
Proof.
  intros Hk w Hw. unfold bind, gets. apply Hk; [|done].
  destruct Hw as (Hlen & _ & _ & Hmap). intros o vb Hin.
  rewrite <- Hlen. by eapply Hmap.
Qed.

Ltac bounded_frame :=
  apply bounded_modify; intros ?; repeat split; reflexivity.

Ltac bounded_leaf :=
  first
    [ apply bounded_pure
    | apply bounded_raise; discriminate
    | apply bounded_call
    | apply bounded_engine
    | apply bounded_set_engine
    | apply bounded_ep_current_time
    | apply bounded_new
    | apply bounded_try_new
    | apply bounded_incr_rollbackCount
    | apply bounded_set_stream
    | apply bounded_erase
    | apply bounded_push_ready; eauto; fail
    | apply bounded_register; eauto; fail
    | apply bounded_set_ready; eauto; fail
    | bounded_frame
    | apply bounded_gets ].

(** Walks the code of a call down to its primitive steps. *)
Ltac bounded_walk_with leaf :=
  repeat
    (cbv beta iota zeta;
     match goal with
     | |- bounded _ _ _ (bind (stream_at _) _) =>
         apply bounded_stream_at; [eauto; fail | intros ? ?]
     | |- bounded _ _ _ (bind (gets ready) _) =>
         apply bounded_gets_ready; intros ? ?
     | |- bounded _ _ _ (bind (gets (fun c => opaqueMap_ c !! _)) _) =>
         apply bounded_lookup; intros ? ?
     | |- bounded _ _ _ (bind _ _) => apply bounded_bind; [|intros ?]
     | |- bounded _ _ _ (if ?b then _ else _) => destruct b eqn:?
     | |- bounded _ _ _ (match ?x with _ => _ end) => destruct x eqn:?
     | |- bounded _ _ _ _ => leaf
     end).

Ltac bounded_walk := bounded_walk_with bounded_leaf.

Ltac open_code :=
  unfold wakeIfBuffered, stream_messageReceived, stream_next, stream_setDead,
    stream_acceptStream, stream_reconnectStream, stream_callback,
    notifyStreamReady, doDisconnect, setLastWalkTime, setPaused,
    incrOpaqueCounter, engine_getVBucket, flowControl_incrFreedBytes,
    flowControl_handleFlowCtl, producers_control,
    itemsToProcess_compare_exchange_strong.

Lemma bounded_getNextItem_loop (rdy : list vbid) :
  (forall vb, vb ∈ rdy -> (N.to_nat vb < n)%nat) ->
  bounded strict n d (getNextItem_loop rdy).
Proof.
  induction rdy as [|vbucket rest IH]; intros Hrdy.
  - simpl. open_code. bounded_walk.
  - assert (N.to_nat vbucket < n)%nat as Hvb by (apply Hrdy; left).
    assert (forall vb, vb ∈ rest -> (N.to_nat vb < n)%nat) as Hrest
      by (intros vb Hin; apply Hrdy; by right).
    specialize (IH Hrest).
    simpl. open_code.
    bounded_walk_with ltac:(first [exact IH | bounded_leaf]).
Qed.

Lemma bounded_step (producers : dcp_message_producers) :
  bounded strict n d (step producers).
Proof.
  unfold step, handleNoop, handlePriority, handleExtMetaData,
    handleValueCompression, supportCursorDropping, getNextItem,
    send_response.
  open_code.
  bounded_walk_with
    ltac:(first [by apply bounded_getNextItem_loop | bounded_leaf]).
Qed.

Lemma bounded_handleResponse (resp : protocol_binary_response) :
  bounded strict n d (handleResponse resp).
Proof.
  unfold handleResponse, isValidOpaque, streamAccepted. open_code.
  bounded_walk.
Qed.

Lemma bounded_RollbackTask_run (task : RollbackTask) :
  (strict = true -> (N.to_nat (task_vbid task) < n)%nat) ->
  bounded strict n d (RollbackTask_run task).
Proof.
  intros Hvb. unfold RollbackTask_run, doRollback, epstore_rollback.
  open_code. bounded_walk.
Qed.

Lemma bounded_invoke (c : InboundCall) :
  (strict = true ->
   forall vb, call_partition c = Some vb -> (N.to_nat vb < n)%nat) ->
  bounded strict n d (invoke c).
Proof.
  intros Hvb.
  destruct c; simpl in Hvb;
    try (specialize (fun Hs => Hvb Hs _ eq_refl));
    simpl invoke;
    try apply bounded_step; try apply bounded_handleResponse;
    unfold addStream, closeStream, streamEnd, mutation, expiration, deletion,
      snapshotMarker, setVBucketState, noop, flush;
    open_code; bounded_walk.
Qed.

End Bounds.

(** X19.  The consumer never indexes its streams array with a partition
    taken from its own books that lies outside it.  The ready list and the
    opaque map of a freshly constructed consumer are in bounds (they are
    empty); every inbound call and every run of a rollback task, whether it
    returns or faults, keeps them in bounds, keeps the size of the array and
    leaves the disconnect flag alone; and from books in bounds a call reads
    past the end of the array only if the partition among its own arguments
    lies outside it, which [handleResponse] and [step], having none, never
    do. *)
Theorem consumer_stays_in_bounds :
  (forall (config : Configuration) (e : Engine) (now : Z)
          (allocations : list bool),
     in_bounds (connect config e now allocations)) /\
  (forall (c : InboundCall) (w : World),
     in_bounds w ->
     let r := invoke c w in
     in_bounds (world_of r) /\
     length (streams (cons (world_of r))) = length (streams (cons w)) /\
     disconnect (cons (world_of r)) = disconnect (cons w) /\
     ((forall vb, call_partition c = Some vb ->
         (N.to_nat vb < length (streams (cons w)))%nat) ->
      is_out_of_bounds r = false)) /\
  (forall (task : RollbackTask) (w : World),
     in_bounds w ->
     let r := RollbackTask_run task w in
     in_bounds (world_of r) /\
     length (streams (cons (world_of r))) = length (streams (cons w)) /\
     disconnect (cons (world_of r)) = disconnect (cons w) /\
     ((N.to_nat (task_vbid task) < length (streams (cons w)))%nat ->
      is_out_of_bounds r = false)).
Proof.
  split; [|split].
  - intros config e now allocations. split; simpl.
    + intros vb Hin. by apply elem_of_nil in Hin.
    + intros k o vb Hin. by rewrite lookup_empty in Hin.
  - intros c w Hw r.
    assert (good (length (streams (cons w))) (disconnect (cons w)) w)
      as Hgood by done.
    destruct (bounded_invoke false _ _ c ltac:(done) w Hgood)
      as [(Hlen & Hd & Hb) _].
    split; [done|]. split; [done|]. split; [done|].
    intros Hvb.
    by apply (bounded_invoke true _ _ c ltac:(intros _; exact Hvb) w Hgood).
  - intros task w Hw r.
    assert (good (length (streams (cons w))) (disconnect (cons w)) w)
      as Hgood by done.
    destruct (bounded_RollbackTask_run false _ _ task ltac:(done) w Hgood)
      as [(Hlen & Hd & Hb) _].
    split; [done|]. split; [done|]. split; [done|].
    intros Hvb.
    by apply (bounded_RollbackTask_run true _ _ task
                ltac:(intros _; exact Hvb) w Hgood).
Qed.

(** X20.  After [closeAllStreams] no partition has a stream present.  When
    the configured number of partitions is the size of the streams array
    and a stream set dead is no longer active, [isStreamPresent] answers
    [false] for every partition within the array once [closeAllStreams] has
    run, whatever it answered before; for a partition outside the array it
    reads past its end. *)
Theorem no_stream_present_after_teardown (config : Configuration)
    (w : World) (vbucket : vbid) :
  (forall s status, isActive (setDead s status).2 = false) ->
  getMaxVbuckets config = length (streams (cons w)) ->
  exists w',
    closeAllStreams config w = Ok tt w' /\
    isStreamPresent vbucket w' =
      if decide (N.to_nat vbucket < length (streams (cons w)))%nat
      then Ok false w' else Raise out_of_bounds w'.
Proof.
  intros Hdead Hn. unfold closeAllStreams.
  destruct (closeAllStreams_loop_effect (getMaxVbuckets config) 0 w)
    as (w' & Hrun & Hstreams & _); [lia|].
  exists w'. split; [done|].
  unfold isStreamPresent, bind, stream_at, pure.
  rewrite Hstreams, Hn.
  destruct (decide (N.to_nat vbucket < length (streams (cons w)))%nat)
    as [Hlt|Hge].
  - rewrite bool_decide_eq_true_2 by lia.
    destruct (lookup_lt_is_Some_2 _ _ Hlt) as [[s|] ->]; simpl; [|done].
    by rewrite Hdead.
  - rewrite bool_decide_eq_false_2 by lia.
    by rewrite lookup_ge_None_2 by lia.
Qed.

(** ** The ways a rollback task fails *)

(** X21.  A rollback task never looks at the disconnect flag, and the store
    has been rolled back by the time the task fails.  When the store
    answers anything but [ENGINE_SUCCESS], [ENGINE_TMPFAIL] or
    [ENGINE_NOT_MY_VBUCKET], the task throws [std::logic_error]; when it
    answers [ENGINE_SUCCESS] but the partition's slot is empty or the
    engine no longer has the partition, the task dereferences a null
    handle.  In both cases the store was called once, the rollback is not
    counted, no stream is reconnected and the consumer is as it was. *)
Theorem rollback_task_failures (task : RollbackTask) (w : World) :
  let vbid := task_vbid task in
  let seqno := task_rollbackSeqno task in
  let err := (rollback (engine_ w) vbid seqno).1 in
  let e' := (rollback (engine_ w) vbid seqno).2 in
  let w' :=
    with_calls (with_engine w e')
      (calls w ++ [EpStore_rollback vbid seqno err]) in
  (err <> ENGINE_SUCCESS -> err <> ENGINE_TMPFAIL ->
   err <> ENGINE_NOT_MY_VBUCKET ->
   RollbackTask_run task w = Raise logic_error w') /\
  (forall slot,
     err = ENGINE_SUCCESS ->
     streams (cons w) !! N.to_nat vbid = Some slot ->
     slot = None \/ getVBucket e' vbid = None ->
     RollbackTask_run task w = Raise null_dereference w') /\
  rollbackCount w' = rollbackCount w /\ cons w' = cons w.
Proof.
  intros vbid seqno err e' w'. subst vbid seqno err e' w'.
  unfold RollbackTask_run, doRollback, epstore_rollback, stream_at.
  unfold_steps. simpl.
  destruct (rollback (engine_ w) (task_vbid task) (task_rollbackSeqno task))
    as [err e'] eqn:Hstore.
  simpl. split; [|split; [|done]].
  - intros H1 H2 H3. by destruct err.
  - intros slot -> Hslot Hnull. simpl. rewrite Hslot.
    destruct Hnull as [-> | ->]; [|by destruct slot].
    by destruct (getVBucket e' (task_vbid task)).
Qed.

(** ** Closing a stream, and what comes after *)

(** What [closeStream] leaves behind, whatever the slot holds. *)
Lemma closeStream_effect (opaque : Z) (vbucket : vbid) (w : World)
    (slot : option PassiveStream) :
  disconnect (cons w) = false ->
  streams (cons w) !! N.to_nat vbucket = Some slot ->
  exists w',
    closeStream opaque vbucket w =
      Ok match slot with
         | Some _ => ENGINE_SUCCESS
         | None => ENGINE_KEY_ENOENT
         end w' /\
    disconnect (cons w') = false /\
    opaqueMap_ (cons w') = delete opaque (opaqueMap_ (cons w)) /\
    streams (cons w') =
      match slot with
      | Some s =>
          <[N.to_nat vbucket := Some (setDead s END_STREAM_CLOSED).2]>
            (streams (cons w))
      | None => streams (cons w)
      end.
Proof.
  intros Hd Hslot.
  unfold closeStream, stream_at, stream_setDead. unfold_steps.
  rewrite Hd. simpl. rewrite Hslot.
  destruct slot as [s|]; [|by eexists].
  destruct (setDead s END_STREAM_CLOSED) as [bytes s'] eqn:Hdead.
  simpl. by eexists.
Qed.

(** X22.  [closeStream] erases the registration filed under the opaque it
    is given before it looks at the partition, whichever partition that
    registration belongs to and whether or not the call then finds a stream
    to close.  A response carrying that opaque is therefore unknown
    afterwards: [handleResponse] returns [ENGINE_KEY_ENOENT] for it and
    changes nothing. *)
Theorem closeStream_forgets_registration (opaque : Z) (vbucket : vbid)
    (resp : protocol_binary_response) (w : World)
    (slot : option PassiveStream) :
  disconnect (cons w) = false ->
  streams (cons w) !! N.to_nat vbucket = Some slot ->
  resp_opaque resp = opaque ->
  exists w',
    closeStream opaque vbucket w =
      Ok match slot with
         | Some _ => ENGINE_SUCCESS
         | None => ENGINE_KEY_ENOENT
         end w' /\
    opaqueMap_ (cons w') !! opaque = None /\
    handleResponse resp w' = Ok ENGINE_KEY_ENOENT w'.
Proof.
  intros Hd Hslot Hopaque.
  destruct (closeStream_effect opaque vbucket w slot Hd Hslot)
    as (w' & Hrun & Hd' & Hmap & _).
  exists w'. split; [done|].
  assert (opaqueMap_ (cons w') !! opaque = None) as Hnone.
  { rewrite Hmap. apply lookup_delete_eq. }
  split; [done|].
  unfold handleResponse. unfold_steps. rewrite Hd'. simpl.
  by rewrite Hopaque, Hnone.
Qed.

(** X23.  A closed stream takes no more messages.  When a stream that was
    set dead is no longer active, then after a successful [closeStream] on
    a partition every message call for that partition, under whatever
    opaque, is answered [ENGINE_KEY_ENOENT]; it reaches no stream, and its
    bytes are credited to flow control. *)
Theorem closed_stream_refuses_messages (c : InboundCall)
    (bytes opaque close_opaque : Z) (vbucket : vbid) (w : World)
    (s : PassiveStream) :
  (forall s status, isActive (setDead s status).2 = false) ->
  message_bytes c = Some bytes ->
  message_target c = Some (opaque, vbucket) ->
  message_args_valid c = true ->
  disconnect (cons w) = false ->
  streams (cons w) !! N.to_nat vbucket = Some (Some s) ->
  exists w1 w2,
    closeStream close_opaque vbucket w = Ok ENGINE_SUCCESS w1 /\
    invoke c w1 = Ok ENGINE_KEY_ENOENT w2 /\
    new_calls w1 w2 = [FlowControl_incrFreedBytes bytes] /\
    streams (cons w2) = streams (cons w1).
Proof.
  intros Hdead Hb Ht Hv Hd Hslot.
  destruct (closeStream_effect close_opaque vbucket w (Some s) Hd Hslot)
    as (w1 & Hrun & Hd1 & _ & Hstreams).
  assert (streams (cons w1) !! N.to_nat vbucket
          = Some (Some (setDead s END_STREAM_CLOSED).2)) as Hslot1.
  { rewrite Hstreams. apply list_lookup_insert_eq.
    by eapply lookup_lt_Some. }
  assert (live_stream (Some (setDead s END_STREAM_CLOSED).2) opaque = None)
    as Hlive.
  { unfold live_stream. by rewrite Hdead, andb_false_r. }
  exists w1. eexists. split; [done|].
  assert (invoke c w1 =
            Ok ENGINE_KEY_ENOENT
              (with_calls
                 (with_cons w1
                    (with_flowControl (cons w1)
                       (incrFreedBytes (flowControl (cons w1)) bytes)))
                 (calls w1 ++ [FlowControl_incrFreedBytes bytes]))) as ->.
  { clear Hrun Hstreams Hslot Hd.
    destruct c; simpl in Hb, Ht, Hv; try discriminate;
      injection Hb as <-; injection Ht as -> ->;
      try apply negb_true_iff in Hv; simpl;
      unfold expiration, streamEnd, mutation, deletion, snapshotMarker,
        setVBucketState;
      (unfold bind at 1; unfold doDisconnect, gets at 1; rewrite Hd1, ?Hv;
       unfold bind at 1; rewrite (stream_at_Ok _ _ _ Hslot1); rewrite Hlive;
       cbv zeta; by unfold_steps). }
  split; [done|]. split; [|done].
  by apply new_calls_app.
Qed.

(** ** The opaques *)

Lemma opaque_after_add (n m : nat) (counter : Z) :
  opaque_after (n + m) counter = opaque_after m (opaque_after n counter).
Proof.
  unfold opaque_after. rewrite Nat.add_comm. apply Nat.iter_add.
Qed.

Lemma opaque_after_small (n : nat) (counter : Z) :
  0 <= counter -> counter + Z.of_nat n < 2 ^ 32 ->
  opaque_after n counter = counter + Z.of_nat n.
Proof.
  intros Hc. induction n as [|n IH]; intros Hn.
  - simpl. lia.
  - unfold opaque_after in *. simpl. rewrite IH by lia.
    unfold wrap32. rewrite Z.mod_small; lia.
Qed.

Lemma minted_refl (w : World) : minted 0 w w.
Proof. split; [done|]. intros k v Hk. by left. Qed.

Lemma minted_same (w w' : World) :
  opaqueCounter (cons w') = opaqueCounter (cons w) ->
  opaqueMap_ (cons w') = opaqueMap_ (cons w) ->
  minted 0 w w'.
Proof. intros Hc Hm. split; [done|]. intros k v Hk. left. by rewrite <- Hm. Qed.

Lemma minted_trans (n m : nat) (w w1 w2 : World) :
  minted n w w1 -> minted m w1 w2 -> minted (n + m) w w2.
Proof.
  intros [Hc1 Hm1] [Hc2 Hm2]. split.
  - by rewrite Hc2, Hc1, opaque_after_add.
  - intros k v Hk. destruct (Hm2 k v Hk) as [Hold|(i & Hi & ->)].
    + destruct (Hm1 k v Hold) as [Hold1|(i & Hi & ->)]; [by left|].
      right. exists i. split; [lia|done].
    + right. exists (n + i)%nat. split; [lia|].
      by rewrite Hc1, opaque_after_add.
Qed.

Lemma mints_bind {A B} (N1 N2 : nat) (m : M A) (k : A -> M B) :
  mints N1 m -> (forall a, mints N2 (k a)) -> mints (N1 + N2) (bind m k).
Proof.
  intros Hm Hk w. unfold bind.
  destruct (Hm w) as (n1 & Hn1 & Hw1).
  destruct (m w) as [a w1|f w1]; simpl in *.
  - destruct (Hk a w1) as (n2 & Hn2 & Hw2).
    exists (n1 + n2)%nat. split; [lia|]. by eapply minted_trans.
  - exists n1. split; [lia|done].
Qed.

Lemma mints_bind_0 {A B} (N : nat) (m : M A) (k : A -> M B) :
  mints 0 m -> (forall a, mints N (k a)) -> mints N (bind m k).
Proof. apply (mints_bind 0 N). Qed.

Lemma mints_bind_1 {A B} (N : nat) (m : M A) (k : A -> M B) :
  mints 1 m -> (forall a, mints N (k a)) -> mints (S N) (bind m k).
Proof. apply (mints_bind 1 N). Qed.

Lemma mints_le {A} (N N' : nat) (m : M A) :
  (N <= N')%nat -> mints N m -> mints N' m.
Proof.
  intros Hle Hm w. destruct (Hm w) as (n & Hn & Hw).
  exists n. split; [lia|done].
Qed.

Lemma mints_weaken {A} (N : nat) (m : M A) : mints 0 m -> mints N m.
Proof. apply mints_le. lia. Qed.

Lemma mints_unchanged {A} (m : M A) :
  (forall w, cons (world_of (m w)) = cons w) -> mints 0 m.
Proof.
  intros Hm w. exists 0%nat. split; [done|].
  apply minted_same; by rewrite Hm.
Qed.

Lemma mints_modify (f : DcpConsumer -> DcpConsumer) :
  (forall c, opaqueCounter (f c) = opaqueCounter c /\
             opaqueMap_ (f c) = opaqueMap_ c) ->
  mints 0 (modify f).
Proof.
  intros Hf w. exists 0%nat. split; [done|].
  destruct (Hf (cons w)). by apply minted_same.
Qed.

Lemma mints_erase (opaque : Z) :
  mints 0 (modify (fun c => with_opaqueMap c (delete opaque (opaqueMap_ c)))).
Proof.
  intros w. exists 0%nat. split; [done|]. split; [done|].
  intros k v Hk. simpl in Hk.
  apply lookup_delete_Some in Hk as [_ Hk]. by left.
Qed.

Lemma mints_incrOpaqueCounter : mints 1 incrOpaqueCounter.
Proof.
  intros w. exists 1%nat. split; [done|]. split; [done|].
  intros k v Hk. by left.
Qed.

Lemma mints_stream_at (vbucket : vbid) : mints 0 (stream_at vbucket).
Proof.
  apply mints_unchanged. intros w. unfold stream_at.
  by destruct (streams (cons w) !! N.to_nat vbucket).
Qed.

Lemma mints_new : mints 0 new_.
Proof.
  apply mints_unchanged. intros w. unfold new_.
  by destruct (heap w) as [|[|] h].
Qed.

Lemma mints_try_new : mints 0 try_new.
Proof.
  apply mints_unchanged. intros w. unfold try_new.
  by destruct (heap w) as [|b h].
Qed.

Ltac mints_leaf :=
  first
    [ apply mints_stream_at
    | apply mints_new
    | apply mints_try_new
    | apply mints_erase
    | apply mints_modify; intros ?; split; reflexivity
    | apply mints_unchanged; intros ?; reflexivity ].

Ltac mints_walk_with leaf :=
  repeat
    (cbv beta iota zeta;
     match goal with
     | |- mints (S _) (bind incrOpaqueCounter _) =>
         apply mints_bind_1; [apply mints_incrOpaqueCounter | intros ?]
     | |- mints _ (bind _ _) => apply mints_bind_0; [|intros ?]
     | |- mints _ (if ?b then _ else _) => destruct b eqn:?
     | |- mints _ (match ?x with _ => _ end) => destruct x eqn:?
     | |- mints _ _ => apply mints_weaken; leaf
     end).

Ltac mints_walk := mints_walk_with mints_leaf.

Ltac open_calls :=
  unfold wakeIfBuffered, stream_messageReceived, stream_next, stream_setDead,
    stream_acceptStream, stream_reconnectStream, stream_callback,
    notifyStreamReady, doDisconnect, setLastWalkTime, setPaused,
    engine_getVBucket, flowControl_incrFreedBytes,
    flowControl_handleFlowCtl, producers_control, set_stream,
    itemsToProcess_compare_exchange_strong.

Lemma mints_getNextItem_loop (rdy : list vbid) :
  mints 0 (getNextItem_loop rdy).
Proof.
  induction rdy as [|vbucket rest IH]; simpl; open_calls.
  - mints_walk.
  - mints_walk_with ltac:(first [exact IH | mints_leaf]).
Qed.

Lemma mints_handleNoop producers : mints 1 (handleNoop producers).
Proof. unfold handleNoop. open_calls. mints_walk. Qed.

Lemma mints_handlePriority producers : mints 1 (handlePriority producers).
Proof. unfold handlePriority. open_calls. mints_walk. Qed.

Lemma mints_handleExtMetaData producers :
  mints 1 (handleExtMetaData producers).
Proof. unfold handleExtMetaData. open_calls. mints_walk. Qed.

Lemma mints_handleValueCompression producers :
  mints 1 (handleValueCompression producers).
Proof. unfold handleValueCompression. open_calls. mints_walk. Qed.

Lemma mints_supportCursorDropping producers :
  mints 1 (supportCursorDropping producers).
Proof. unfold supportCursorDropping. open_calls. mints_walk. Qed.

Lemma mints_step producers : mints 6 (step producers).
Proof.
  unfold step, getNextItem, send_response. open_calls.
  apply mints_bind_0; [mints_walk|intros ?].
  apply mints_bind_0; [mints_walk|intros d].
  destruct d; [mints_walk|].
  apply mints_bind_0; [mints_walk|intros r0].
  destruct (negb _); [mints_walk|].
  apply mints_bind_1; [apply mints_handleNoop|intros r1].
  destruct (negb _); [mints_walk|].
  apply mints_bind_1; [apply mints_handlePriority|intros r2].
  destruct (negb _); [mints_walk|].
  apply mints_bind_1; [apply mints_handleExtMetaData|intros r3].
  destruct (negb _); [mints_walk|].
  apply mints_bind_1; [apply mints_handleValueCompression|intros r4].
  destruct (negb _); [mints_walk|].
  apply mints_bind_1; [apply mints_supportCursorDropping|intros r5].
  destruct (negb _); [mints_walk|].
  mints_walk_with
    ltac:(first [apply mints_getNextItem_loop | mints_leaf]).
Qed.

Lemma mints_handleResponse resp : mints 0 (handleResponse resp).
Proof.
  unfold handleResponse, isValidOpaque, streamAccepted. open_calls.
  mints_walk.
Qed.

Lemma files_under_bind {A B} (o : Z) (m : M A) (k : A -> M B) :
  files_under o m -> (forall a, files_under o (k a)) ->
  files_under o (bind m k).
Proof.
  intros Hm Hk w Hw. unfold bind.
  destruct (Hm w Hw) as [Hc1 Hm1].
  destruct (m w) as [a w1|f w1]; simpl in *; [|done].
  destruct (Hk a w1 Hc1) as [Hc2 Hm2]. split; [done|].
  intros key v Hkey. destruct (Hm2 key v Hkey) as [Hold | ->]; [|by right].
  by apply Hm1.
Qed.

Lemma files_under_mints {A} (o : Z) (m : M A) :
  mints 0 m -> files_under o m.
Proof.
  intros Hm w Hw. destruct (Hm w) as (n & Hn & Hc & Hkeys).
  assert (n = 0%nat) as -> by lia. split; [by rewrite Hc|].
  intros k v Hk. destruct (Hkeys k v Hk) as [Hold|(i & Hi & _)]; [by left|lia].
Qed.

Lemma files_under_register (o opaque : Z) (vbucket : vbid) :
  files_under o
    (modify (fun c =>
       with_opaqueMap c (<[o := (opaque, vbucket)]> (opaqueMap_ c)))).
Proof.
  intros w Hw. split; [done|]. intros k v Hk. simpl in Hk.
  apply lookup_insert_Some in Hk as [[<- _]|[_ Hk]]; [by right|by left].
Qed.

Lemma mints_bind_incr {A} (k : Z -> M A) :
  (forall o, files_under o (k o)) -> mints 1 (bind incrOpaqueCounter k).
Proof.
  intros Hk w. exists 1%nat. split; [done|].
  unfold bind, incrOpaqueCounter. unfold_steps. simpl.
  match goal with
  | |- minted _ _ (world_of (k ?o ?w1)) =>
      destruct (Hk o w1 eq_refl) as [Hc Hkeys]
  end.
  split; [done|]. intros key v Hkey.
  destruct (Hkeys key v Hkey) as [Hold | ->]; [by left|].
  right. exists 1%nat. split; [lia|done].
Qed.

Ltac files_walk :=
  repeat
    (cbv beta iota zeta;
     match goal with
     | |- files_under _ (bind _ _) => apply files_under_bind; [|intros ?]
     | |- files_under _ (if ?b then _ else _) => destruct b eqn:?
     | |- files_under _ (match ?x with _ => _ end) => destruct x eqn:?
     | |- files_under _ _ =>
         first [ apply files_under_register
               | apply files_under_mints; mints_leaf ]
     end).

Lemma mints_addStream opaque vbucket flags :
  mints 1 (addStream opaque vbucket flags).
Proof.
  unfold addStream. open_calls.
  apply mints_bind_0; [mints_walk|intros d].
  destruct d; [mints_walk|].
  apply mints_bind_0; [mints_walk|intros vb].
  destruct vb as [vb|]; [|mints_walk].
  destruct (decide _); [mints_walk|].
  cbv zeta. apply mints_bind_incr. intros o. files_walk.
Qed.

Lemma mints_invoke (c : InboundCall) :
  mints (opaques_minted_by c) (invoke c).
Proof.
  destruct c; simpl invoke; simpl opaques_minted_by.
  - apply mints_addStream.
  - unfold closeStream. open_calls. mints_walk.
  - unfold streamEnd. open_calls. mints_walk.
  - unfold mutation. open_calls. mints_walk.
  - unfold deletion. open_calls. mints_walk.
  - unfold expiration, deletion. open_calls. mints_walk.
  - unfold snapshotMarker. open_calls. mints_walk.
  - unfold setVBucketState. open_calls. mints_walk.
  - unfold noop, ep_current_time. mints_walk.
  - unfold flush. open_calls. mints_walk.
  - apply mints_handleResponse.
  - apply mints_step.
Qed.

(** X24.  Registrations are never overwritten.  In a freshly constructed
    consumer, and after every inbound call short of the wrap-around of the
    32-bit opaque counter, every entry of the opaque map is filed under an
    opaque the counter has already passed.  Only [addStream] (one) and
    [step] (at most six, one per control message) mint opaques, and the
    counter never goes back; so the opaque [addStream] files the next
    registration under is not in the map yet, and an entry present before
    and after a call is the same entry. *)
Theorem registrations_stay_fresh :
  (forall (config : Configuration) (e : Engine) (now : Z)
          (allocations : list bool),
     fresh (connect config e now allocations)) /\
  (forall (c : InboundCall) (w : World),
     fresh w ->
     opaqueCounter (cons w) + Z.of_nat (opaques_minted_by c) < 2 ^ 32 ->
     let w' := world_of (invoke c w) in
     fresh w' /\
     opaqueCounter (cons w) <= opaqueCounter (cons w')
       <= opaqueCounter (cons w) + Z.of_nat (opaques_minted_by c) /\
     (forall k v v',
        opaqueMap_ (cons w) !! k = Some v ->
        opaqueMap_ (cons w') !! k = Some v' -> v = v')) /\
  (forall w : World,
     fresh w -> opaqueCounter (cons w) + 1 < 2 ^ 32 ->
     opaqueMap_ (cons w) !! wrap32 (opaqueCounter (cons w) + 1) = None).
Proof.
  split; [|split].
  - intros config e now allocations. split; [done|].
    intros k v Hk. simpl in Hk. by rewrite lookup_empty in Hk.
  - intros c w [Hc Hkeys] Hroom w'.
    destruct (mints_invoke c w) as (n & Hn & Hcounter & Hnew).
    fold w' in Hcounter, Hnew.
    rewrite opaque_after_small in Hcounter by lia.
    assert (forall k v,
              opaqueMap_ (cons w') !! k = Some v ->
              opaqueMap_ (cons w) !! k = Some v \/
              opaqueCounter (cons w) < k <= opaqueCounter (cons w')) as Hnew'.
    { intros k v Hk. destruct (Hnew k v Hk) as [Hold|(i & Hi & ->)];
        [by left|right].
      rewrite opaque_after_small by lia. lia. }
    split; [|split].
    + split; [lia|]. intros k v Hk.
      destruct (Hnew' k v Hk) as [Hold|Hlate]; [|lia].
      specialize (Hkeys k v Hold). lia.
    + lia.
    + intros k v v' Hold Hk.
      destruct (Hnew' k v' Hk) as [Hsame|Hlate]; [congruence|].
      specialize (Hkeys k v Hold). lia.
  - intros w [Hc Hkeys] Hroom.
    destruct (opaqueMap_ (cons w) !! wrap32 (opaqueCounter (cons w) + 1))
      as [v|] eqn:Hk; [|done].
    specialize (Hkeys _ _ Hk). unfold wrap32 in Hkeys.
    rewrite Z.mod_small in Hkeys; lia.
Qed.

(** ** What [step] writes *)

Lemma getNextItem_loop_event (rdy : list vbid) :
  forall (w : World) (resp : DcpResponse) (w' : World),
    getNextItem_loop rdy w = Ok (Some resp) w' ->
    consumer_event (getEvent resp) = true.
Proof.
  induction rdy as [|vbucket rest IH]; intros w resp w' Hrun.
  - simpl in Hrun. unfold setPaused in Hrun. unfold_steps. discriminate.
  - destruct (streams (cons w) !! N.to_nat vbucket) as [slot|] eqn:Hslot.
    2:{ simpl in Hrun. unfold bind at 1 in Hrun. unfold modify at 1 in Hrun.
        unfold bind at 1 in Hrun. unfold stream_at at 1 in Hrun.
        simpl in Hrun. by rewrite Hslot in Hrun. }
    rewrite (getNextItem_loop_cons _ _ _ _ Hslot) in Hrun.
    destruct slot as [s|]; [|by eapply IH].
    cbv zeta in Hrun.
    destruct (next s).1 as [r|]; [|by eapply IH].
    destruct (consumer_event (getEvent r)) eqn:Hevent; [|done].
    by injection Hrun as <- _.
Qed.

(** X25.  The last case of the switch in [step] is never taken.  When
    the six sources decline and [getNextItem] returns a response, the
    response carries one of the four events a consumer writes
    ([getNextItem] aborts on any other), and [step] enters the case of that
    event.  A stream request goes to the host's [stream_req], an
    add-stream response to [add_stream_rsp], a state-change response to
    [set_vbucket_state_rsp] and a snapshot-marker response to [marker_rsp],
    each with the fields of the response, in one call; nothing else is
    called or changed, and [step] returns what the host answered, with
    [ENGINE_SUCCESS] lifted to [ENGINE_WANT_MORE].  A snapshot marker or a
    state change as the producer sends them carries the same event as its
    response, and is cast to the wrong class.  The [ENGINE_DISCONNECT] of
    the default case cannot come from [step] itself. *)
Theorem step_default_case_unreachable (producers : dcp_message_producers)
    (w w1 w2 w3 w4 w5 w6 w7 : World) (resp : DcpResponse) :
  disconnect (cons w) = false ->
  flowControl_handleFlowCtl producers (walked w) = Ok ENGINE_FAILED w1 ->
  handleNoop producers w1 = Ok ENGINE_FAILED w2 ->
  handlePriority producers w2 = Ok ENGINE_FAILED w3 ->
  handleExtMetaData producers w3 = Ok ENGINE_FAILED w4 ->
  handleValueCompression producers w4 = Ok ENGINE_FAILED w5 ->
  supportCursorDropping producers w5 = Ok ENGINE_FAILED w6 ->
  getNextItem w6 = Ok (Some resp) w7 ->
  consumer_event (getEvent resp) = true /\
  match resp with
  | StreamRequest vb opaque flags start_seqno end_seqno vb_uuid
      snap_start snap_end =>
      let r := stream_req producers opaque vb flags start_seqno end_seqno
                 vb_uuid snap_start snap_end in
      step producers w =
        Ok (want_more r)
          (with_calls w7
             (calls w7 ++
              [Producers_stream_req opaque vb flags start_seqno end_seqno
                 vb_uuid snap_start snap_end r]))
  | AddStreamResponse opaque stream_opaque status =>
      let r := add_stream_rsp producers opaque stream_opaque status in
      step producers w =
        Ok (want_more r)
          (with_calls w7
             (calls w7 ++
              [Producers_add_stream_rsp opaque stream_opaque status r]))
  | SetVBucketStateResponse opaque status =>
      let r := set_vbucket_state_rsp producers opaque status in
      step producers w =
        Ok (want_more r)
          (with_calls w7
             (calls w7 ++ [Producers_set_vbucket_state_rsp opaque status r]))
  | SnapshotMarkerResponse opaque status =>
      let r := marker_rsp producers opaque status in
      step producers w =
        Ok (want_more r)
          (with_calls w7
             (calls w7 ++ [Producers_marker_rsp opaque status r]))
  | SnapshotMarker _ _ _ _ _ | SetVBucketState _ _ _ =>
      step producers w = Raise bad_cast w7
  | StreamEndResponse _ _ _ | MutationResponse _ _ _ => False
  end.
Proof.
  intros Hd H1 H2 H3 H4 H5 H6 Hnext.
  assert (consumer_event (getEvent resp) = true) as Hevent.
  { rewrite getNextItem_entry in Hnext.
    by apply getNextItem_loop_event in Hnext. }
  split; [done|].
  assert (step producers w =
            bind (send_response producers resp)
              (fun r => pure (want_more r)) w7) as ->.
  { rewrite step_refines_spec, (step_spec_live _ _ Hd).
    unfold outbound_sources.
    rewrite (first_answer_declined _ _ _ _ _ H1),
      (first_answer_declined _ _ _ _ _ H2),
      (first_answer_declined _ _ _ _ _ H3),
      (first_answer_declined _ _ _ _ _ H4),
      (first_answer_declined _ _ _ _ _ H5),
      (first_answer_declined _ _ _ _ _ H6).
    simpl. unfold bind at 1. by rewrite Hnext. }
  clear - Hevent.
  destruct resp as [| | | | | | |item ? ?]; simpl in Hevent;
    try discriminate;
    try (by destruct (item_deleted item));
    unfold send_response; simpl; by unfold_steps.
Qed.

End ConsumerProperties.

(** * The properties on concrete inputs *)

Section OnScriptedCollaborators.
Import Scripted.
#[local] Existing Instance collaborators.

(** ** C1 *)

Lemma message_call_credit_witness :
  let w := reading [ENGINE_SUCCESS] in
  let c := Call_snapshotMarker 1 0%N 10 12 0 in
  message_bytes c = Some 44 /\
  exists r w',
    invoke c w = Ok r w' /\
    (ENGINE_SUCCESS = ENGINE_SUCCESS ->
       r = ENGINE_SUCCESS /\ credits (new_calls w w') = [44]) /\
    (ENGINE_SUCCESS = ENGINE_TMPFAIL ->
       r = ENGINE_SUCCESS /\ credits (new_calls w w') = []) /\
    (ENGINE_SUCCESS <> ENGINE_SUCCESS -> ENGINE_SUCCESS <> ENGINE_TMPFAIL ->
       r = ENGINE_SUCCESS /\ credits (new_calls w w') = [44]).
Proof.
  intros w c. split; [reflexivity|].
  apply (message_call_credit c 44 w 0%N (SnapshotMarker 1 0%N 10 12 0)
           ENGINE_SUCCESS).
  - reflexivity.
  - vm_compute. constructor.
Defined.

(** A mutation outside the current snapshot, which the stream refuses with
    [ENGINE_ERANGE]: the call returns the failure, and its 67 bytes are
    credited all the same. *)
Lemma rejected_message_is_credited :
  let w := in_snapshot [ENGINE_ERANGE] in
  let c := a_mutation 20 [] in
  let w' := world_of (invoke c w) in
  invoke c w = Ok ENGINE_ERANGE w' /\
  new_calls w w' =
    [Stream_messageReceived 0%N (MutationResponse (an_item 20) 1 None)
       ENGINE_ERANGE;
     FlowControl_incrFreedBytes 67] /\
  credits (new_calls w w') <> [].
Proof.
  split; [vm_compute; reflexivity|].
  split; [vm_compute; reflexivity|]. vm_compute. discriminate.
Qed.

(** ** C2 *)



(** ** C3 *)

Lemma noop_timeout_disconnects_witness :
  pendingEnableNoop (cons negotiated_and_silent) = false /\
  clock negotiated_and_silent - lastNoopTime (cons negotiated_and_silent)
    > 2 * noopInterval (cons negotiated_and_silent) /\
  exists w', step accepting negotiated_and_silent = Ok ENGINE_DISCONNECT w'.
Proof.
  split; [reflexivity|]. split; [reflexivity|].
  apply (proj1 (noop_timeout_disconnects accepting) negotiated_and_silent
           {| freedBytes := 0; ackThreshold := 1024 |}).
  - reflexivity.
  - reflexivity.
  - reflexivity.
  - reflexivity.
  - vm_compute. split; discriminate.
  - reflexivity.
  - vm_compute. discriminate.
  - reflexivity.
Defined.

(** A consumer for which noop was never configured, three seconds after
    its construction with an interval of one second: [step] disconnects. *)
Lemma noop_off_still_times_out :
  let w := with_clock (connected false []) 3 in
  isDcpEnableNoop (config false) = false /\
  disconnect (cons w) = false /\
  step accepting w = Ok ENGINE_DISCONNECT (world_of (step accepting w)).
Proof.
  split; [reflexivity|]. split; [reflexivity|]. vm_compute. reflexivity.
Qed.


(** ** C4 *)

Lemma known_opaque_requested : known_opaque (requested []) 1 0%N.
Proof. eexists 7, _. repeat split; reflexivity. Defined.

Lemma rollback_round_trip_witness :
  let task := mkRollbackTask 1 0%N 42 in
  (exists w',
     handleResponse (rollback_response 1) (requested []) = Ok ENGINE_SUCCESS w'
     /\ new_calls (requested []) w'
          = [ExecutorPool_schedule_RollbackTask task]) /\
  (exists w2 evs,
     RollbackTask_run task (requested []) = Ok false w2 /\
     new_calls (requested []) w2 =
       EpStore_rollback 0%N 42 ENGINE_SUCCESS
       :: Stream_reconnectStream 0%N 1 0 :: evs /\
     Forall (eq (ConnMap_notifyPausedConnection true)) evs /\
     rollbackCount w2 = 1).
Proof.
  intros task.
  destruct (rollback_round_trip (rollback_response 1) (requested []) 0%N
              eq_refl eq_refl eq_refl eq_refl known_opaque_requested eq_refl)
    as [Hschedule Hrun].
  split; [exact Hschedule|].
  exact (Hrun (requested []) _ empty_replica eq_refl eq_refl).
Defined.

(** The store has lost the partition: the task gives up, and the rollback
    counter goes from 0 to 1 although nothing was rolled back. *)
Lemma rollback_counted_on_not_my_vbucket :
  let w := requested_over_store [ENGINE_NOT_MY_VBUCKET] in
  let w' := world_of (RollbackTask_run (mkRollbackTask 1 0%N 42) w) in
  RollbackTask_run (mkRollbackTask 1 0%N 42) w = Ok false w' /\
  new_calls w w' = [EpStore_rollback 0%N 42 ENGINE_NOT_MY_VBUCKET] /\
  rollbackCount w = 0 /\ rollbackCount w' = 1.
Proof.
  split; [vm_compute; reflexivity|]. split; [vm_compute; reflexivity|].
  split; vm_compute; reflexivity.
Qed.

(** ** C5 *)

Lemma malformed_stream_response_witness :
  (resp_bodylen (stream_response 1 0 false) = 0 /\
   handleResponse (stream_response 1 0 false) (requested [])
     = Ok ENGINE_DISCONNECT (requested [])) /\
  (let resp := stream_response 1 1 false in
   let w := requested [] in
   exists w' evs,
     handleResponse resp w = Ok ENGINE_SUCCESS w' /\
     opaqueMap_ (cons w') = delete 1 (opaqueMap_ (cons w)) /\
     engine_ w' = engine_ w /\
     Forall (eq (ConnMap_notifyPausedConnection true)) evs /\
     new_calls w w' = Stream_acceptStream 0%N 1 7 :: evs /\
     streams (cons w') =
       <[0%nat := Some (accept_stream pending_stream 1 7).2]>
         (streams (cons w))).
Proof.
  split.
  - split; [reflexivity|].
    apply (malformed_stream_response (stream_response 1 0 false)
             (requested []) 0%N eq_refl eq_refl known_opaque_requested).
    + reflexivity.
    + left. reflexivity.
  - intros resp w.
    destruct (proj2 (proj2 (malformed_stream_response resp w 0%N
                              eq_refl eq_refl known_opaque_requested)))
      as (_ & add_opaque & s & w' & evs & Hmap & Hslot & Hrun & Hrest).
    + vm_compute. discriminate.
    + vm_compute. discriminate.
    + injection Hmap as <-. injection Hslot as <-.
      exists w', evs. split; [exact Hrun|]. exact Hrest.
Defined.

(** The producer refuses the stream with status 1 (not ROLLBACK, not
    success) and an empty body: the call does not disconnect. *)
Lemma failed_status_skips_length_check :
  let resp := stream_response 1 1 false in
  resp_status resp <> PROTOCOL_BINARY_RESPONSE_ROLLBACK /\
  resp_bodylen resp = 0 /\
  handleResponse resp (requested [])
    = Ok ENGINE_SUCCESS (world_of (handleResponse resp (requested []))).
Proof.
  intros resp. split; [discriminate|]. split; [reflexivity|].
  vm_compute. reflexivity.
Qed.

(** ** C6 *)

Lemma step_sources_in_order_witness :
  step accepting negotiated = step_spec accepting negotiated /\
  exists w',
    step accepting negotiated = Ok ENGINE_SUCCESS w' /\
    paused (cons w') = true /\ ready (cons w') = [].
Proof.
  destruct (step_sources_in_order accepting negotiated) as (Href & Hidle & _).
  split; [exact Href|].
  pose (w1 := world_of (flowControl_handleFlowCtl accepting
                          (walked negotiated))).
  exists (with_cons w1 (with_paused (cons w1) true)).
  apply (Hidle w1 w1 w1 w1 w1 w1); vm_compute; reflexivity.
Defined.

(** ** C7 *)

Lemma getNextItem_round_robin_witness :
  ready (cons (requested [])) = [0%N] /\
  exists w',
    getNextItem (requested [])
      = Ok (Some (StreamRequest 0%N 1 0 0 (2 ^ 64 - 1) 4369 0 0)) w' /\
    ready (cons w') = [0%N].
Proof.
  split; [reflexivity|].
  destruct (getNextItem_round_robin (requested [])) as (_ & Hturn & _).
  eexists. split.
  - exact (Hturn 0%N [] _ eq_refl eq_refl eq_refl).
  - reflexivity.
Defined.

(** ** C8 *)

Lemma snapshotMarker_validation_witness :
  let w := reading [] in
  disconnect (cons w) = false /\
  snapshotMarker 1 0%N 5 4 0 w = Ok ENGINE_EINVAL w.
Proof.
  intros w. split; [vm_compute; reflexivity|].
  apply (snapshotMarker_validation 1 0%N 5 4 0 w).
  - vm_compute. reflexivity.
  - reflexivity.
Defined.

(** ** C9 *)

Lemma addStream_appends_unchecked_witness :
  let w := closed in
  ready (cons w) = [0%N] /\
  exists w',
    addStream 8 0%N 0 w = Ok ENGINE_SUCCESS w' /\
    ready (cons w') = ready (cons w) ++ [0%N] /\
    ~ NoDup (ready (cons w')).
Proof.
  intros w. split; [vm_compute; reflexivity|].
  apply (addStream_appends_unchecked 8 0%N 0 w empty_replica
           (Some (mkStream 1 0%N 0 STREAM_DEAD
                    [StreamRequest 0%N 1 0 0 (2 ^ 64 - 1) 4369 0 0] []))).
  - vm_compute. reflexivity.
  - vm_compute. reflexivity.
  - discriminate.
  - vm_compute. reflexivity.
  - vm_compute. reflexivity.
  - vm_compute. reflexivity.
  - vm_compute. constructor.
Defined.

(** ** C10 *)

Lemma invalid_meta_rejected_witness :
  let w := in_snapshot [] in
  let c := a_mutation 11 [Byte.x02] in
  meta_status (ExtendedMetaData_new [Byte.x02] 1) = ENGINE_EINVAL /\
  invoke c w = Ok ENGINE_EINVAL (with_heap w (drop 2 (heap w))) /\
  new_calls w (with_heap w (drop 2 (heap w))) = [].
Proof.
  intros w c. split; [vm_compute; reflexivity|].
  apply (invalid_meta_rejected c 1 0%N 11 [Byte.x02] 1 w
           (mkStream 1 0%N 0 STREAM_READING
              [StreamRequest 0%N 1 0 0 (2 ^ 64 - 1) 4369 0 0;
               AddStreamResponse 7 1 0] [])).
  - vm_compute. reflexivity.
  - vm_compute. reflexivity.
  - discriminate.
  - vm_compute. reflexivity.
  - vm_compute. reflexivity.
  - vm_compute. reflexivity.
  - reflexivity.
  - vm_compute. reflexivity.
  - vm_compute. constructor.
Defined.


(** ** Further properties *)

Lemma notifyStreamReady_deduplicates_witness :
  let w := requested [] in
  NoDup (ready (cons w)) /\
  exists w',
    notifyStreamReady 0%N w = Ok tt w' /\
    0%N ∈ ready (cons w') /\
    NoDup (ready (cons w')) /\
    new_calls w w' = [] /\
    notifyStreamReady 0%N w' = Ok tt w'.
Proof.
  intros w.
  assert (NoDup (ready (cons w))) as Hnodup.
  { vm_compute. apply NoDup_singleton. }
  split; [exact Hnodup|].
  destruct (notifyStreamReady_deduplicates 0%N w)
    as (w' & Hrun & Hin & Hkeep & Hcalls & Hagain).
  exists w'. split; [exact Hrun|]. split; [exact Hin|].
  split; [exact (Hkeep Hnodup)|]. split; [exact Hcalls|exact Hagain].
Defined.

Lemma getNextItem_shrinks_ready_witness :
  let w := requested [] in
  let r := Some (StreamRequest 0%N 1 0 0 (2 ^ 64 - 1) 4369 0 0) in
  let w' := world_of (getNextItem w) in
  getNextItem w = Ok r w' /\
  (forall vbucket, vbucket ∈ ready (cons w') -> vbucket ∈ ready (cons w)) /\
  (length (ready (cons w')) <= length (ready (cons w)))%nat /\
  (NoDup (ready (cons w)) -> NoDup (ready (cons w'))).
Proof.
  intros w r w'.
  assert (getNextItem w = Ok r w') as Hrun by (vm_compute; reflexivity).
  split; [exact Hrun|].
  exact (getNextItem_shrinks_ready w r w' Hrun).
Defined.

Lemma well_behaved_next (s : stream) :
  well_behaved s ->
  well_behaved (next_response s).2 /\
  forall r, (next_response s).1 = Some r -> consumer_event (getEvent r) = true.
Proof.
  unfold well_behaved, next_response. intros Hs.
  destruct (readyQ s) as [|r rest] eqn:Hq; simpl.
  - split; [rewrite Hq; constructor|]. intros r Hr. discriminate Hr.
  - split.
    + exact (Forall_inv_tail Hs).
    + intros r' Hr. injection Hr as <-. exact (Forall_inv Hs).
Defined.

Lemma well_behaved_requested (i : nat) (s : stream) :
  streams (cons (requested [])) !! i = Some (Some s) -> well_behaved s.
Proof.
  destruct i as [|[|[|[|i]]]]; vm_compute; intros Hs;
    try discriminate Hs.
  injection Hs as <-. repeat constructor.
Defined.

Lemma getNextItem_returns_witness :
  exists r w', getNextItem (requested []) = Ok r w'.
Proof.
  apply (@getNextItem_returns collaborators well_behaved (requested [])).
  - exact well_behaved_next.
  - exact well_behaved_requested.
  - intros vbucket Hin. vm_compute in Hin.
    apply list_elem_of_singleton in Hin. subst vbucket.
    vm_compute. lia.
Defined.

Lemma handleResponse_dispatch_witness :
  disconnect (cons (requested [])) = false /\
  handleResponse (control_response 9) (requested [])
    = Ok ENGINE_KEY_ENOENT (requested []) /\
  handleResponse (control_response 1) (requested [])
    = Ok ENGINE_SUCCESS (requested []).
Proof.
  split; [reflexivity|].
  split.
  - apply (proj1 (handleResponse_dispatch (control_response 9) (requested [])
                    eq_refl)).
    vm_compute. reflexivity.
  - apply (proj2 (proj2 (handleResponse_dispatch (control_response 1)
                           (requested []) eq_refl)) 0%N).
    + exact known_opaque_requested.
    + vm_compute. discriminate.
Defined.

Lemma stream_response_consumed_once_witness :
  let resp := stream_response 1 0 true in
  exists w',
    handleResponse resp (requested []) = Ok ENGINE_SUCCESS w' /\
    opaqueMap_ (cons w') = delete 1 (opaqueMap_ (cons (requested []))) /\
    handleResponse resp w' = Ok ENGINE_KEY_ENOENT w'.
Proof.
  intros resp.
  apply (stream_response_consumed_once resp (requested []) 0%N).
  - reflexivity.
  - reflexivity.
  - exact known_opaque_requested.
  - vm_compute. discriminate.
  - intros _. split; [vm_compute; discriminate|].
    split; [reflexivity|]. eexists. reflexivity.
Defined.

Lemma accepted_stream_gets_failover_log_witness :
  let resp := stream_response 1 0 true in
  let w := requested [] in
  exists w' evs,
    handleResponse resp w = Ok ENGINE_SUCCESS w' /\
    Forall (eq (ConnMap_notifyPausedConnection true)) evs /\
    new_calls w w' =
      [FailoverTable_replaceFailoverLog 0%N (resp_body resp);
       EpStore_scheduleVBSnapshot 0%N;
       Stream_acceptStream 0%N 0 7] ++ evs /\
    engine_ w' = replaceFailoverLog (engine_ w) 0%N (resp_body resp) /\
    streams (cons w') =
      <[0%nat := Some reading_stream]> (streams (cons w)).
Proof.
  intros resp w.
  apply (accepted_stream_gets_failover_log resp w 7 0%N pending_stream).
  - reflexivity.
  - reflexivity.
  - reflexivity.
  - reflexivity.
  - reflexivity.
  - reflexivity.
  - vm_compute. discriminate.
  - reflexivity.
  - reflexivity.
  - eexists. reflexivity.
Defined.

Lemma rollback_response_keeps_registration_witness :
  let resp := rollback_response 1 in
  let w := requested [] in
  exists w',
    handleResponse resp w = Ok ENGINE_SUCCESS w' /\
    cons w' = cons w /\ engine_ w' = engine_ w /\
    known_opaque w' 1 0%N.
Proof.
  intros resp w.
  apply (rollback_response_keeps_registration resp w 0%N).
  - reflexivity.
  - reflexivity.
  - reflexivity.
  - reflexivity.
  - exact known_opaque_requested.
  - reflexivity.
Defined.

Lemma addStream_refusals_witness :
  let w := requested [] in
  disconnect (cons w) = false /\
  addStream 8 3%N 0 w = Ok ENGINE_NOT_MY_VBUCKET w /\
  addStream 8 0%N 0 w =
    Ok ENGINE_KEY_EEXISTS
      (with_cons w
         (with_opaqueCounter (cons w) (wrap32 (opaqueCounter (cons w) + 1)))).
Proof.
  intros w. split; [reflexivity|].
  split.
  - apply (proj1 (addStream_refusals 8 3%N 0 w eq_refl)). reflexivity.
  - apply (proj2 (proj2 (addStream_refusals 8 0%N 0 w eq_refl))
             empty_replica pending_stream).
    + reflexivity.
    + discriminate.
    + reflexivity.
    + reflexivity.
Defined.

Lemma addStream_registers_witness :
  let w := connected false [] in
  exists w',
    addStream 7 0%N 0 w = Ok ENGINE_SUCCESS w' /\
    streams (cons w') = <[0%nat := Some pending_stream]> (streams (cons w)) /\
    opaqueMap_ (cons w') = <[1 := (7, 0%N)]> (opaqueMap_ (cons w)) /\
    opaqueCounter (cons w') = 1 /\
    ready (cons w') = ready (cons w) ++ [0%N] /\
    new_calls w w' = [] /\
    (getOpaque pending_stream = 1 -> known_opaque w' 1 0%N).
Proof.
  intros w.
  apply (addStream_registers 7 0%N 0 w empty_replica None).
  - reflexivity.
  - reflexivity.
  - discriminate.
  - reflexivity.
  - exact I.
  - reflexivity.
Defined.

Lemma closeStream_outcome_witness :
  let w := requested [] in
  exists r w',
    closeStream 1 0%N w = Ok r w' /\
    opaqueMap_ (cons w') = delete 1 (opaqueMap_ (cons w)) /\
    ready (cons w') = ready (cons w) /\
    r = ENGINE_SUCCESS /\
    new_calls w w' =
      [Stream_setDead 0%N END_STREAM_CLOSED;
       FlowControl_incrFreedBytes
         (setDead pending_stream END_STREAM_CLOSED).1] /\
    streams (cons w') =
      <[0%nat := Some (setDead pending_stream END_STREAM_CLOSED).2]>
        (streams (cons w)).
Proof.
  intros w.
  apply (closeStream_outcome 1 0%N w (Some pending_stream)).
  - reflexivity.
  - reflexivity.
Defined.

Lemma message_without_stream_witness :
  let w := connected false [] in
  let c := a_mutation 11 [] in
  invoke c w =
    Ok ENGINE_KEY_ENOENT
      (with_calls
         (with_cons w
            (with_flowControl (cons w)
               (incrFreedBytes (flowControl (cons w)) 67)))
         (calls w ++ [FlowControl_incrFreedBytes 67])).
Proof.
  intros w c.
  apply (message_without_stream c 67 1 0%N w None).
  - reflexivity.
  - reflexivity.
  - reflexivity.
  - reflexivity.
  - reflexivity.
  - reflexivity.
Defined.

Lemma message_allocation_failure_witness :
  let c := a_mutation 11 [] in
  (let w := with_heap (reading []) [true; false; true] in
   invoke c w = Ok ENGINE_ENOMEM (with_heap w [true])) /\
  (let w := with_heap (reading []) [false; true] in
   invoke c w = Raise bad_alloc (with_heap w [false; true])).
Proof.
  intros c. split.
  - intros w.
    apply (proj1 (message_allocation_failure c 1 0%N w (Some reading_stream)
                    reading_stream [true] eq_refl eq_refl eq_refl
                    eq_refl eq_refl
                    ltac:(intros emd Hemd; discriminate Hemd))).
    reflexivity.
  - intros w.
    apply (proj2 (message_allocation_failure c 1 0%N w (Some reading_stream)
                    reading_stream [true] eq_refl eq_refl eq_refl
                    eq_refl eq_refl
                    ltac:(intros emd Hemd; discriminate Hemd)) 0%nat).
    + vm_compute. lia.
    + reflexivity.
Defined.

Lemma zero_seqno_rejected_witness :
  invoke (a_mutation 0 []) (reading []) = Ok ENGINE_EINVAL (reading []).
Proof.
  apply (zero_seqno_rejected (a_mutation 0 []) 1 0%N [] 0 (reading [])).
  - reflexivity.
  - reflexivity.
Defined.

Lemma buffered_message_wakes_processor_witness :
  let w := reading [] in
  let c := a_mutation 11 [] in
  let w' := world_of (invoke c w) in
  itemsToProcess (cons w') = true /\ wakes (new_calls w w') = 1%nat.
Proof.
  intros w c w'.
  apply (buffered_message_wakes_processor c 67 w 0%N
           (MutationResponse (an_item 11) 1 None) ENGINE_TMPFAIL).
  - reflexivity.
  - vm_compute. constructor.
Defined.

Lemma idle_stays_idle (fc : flow_control) :
  idle fc ->
  (handle_flow_ctl fc accepting).1 = ENGINE_FAILED /\
  idle (handle_flow_ctl fc accepting).2.
Proof.
  unfold idle, handle_flow_ctl. intros Hidle.
  destruct (Z.leb_spec (ackThreshold fc) (freedBytes fc)) as [Hle|Hlt].
  - exfalso. apply (Z.lt_irrefl (freedBytes fc)).
    exact (Z.lt_le_trans _ _ _ Hidle Hle).
  - split; [reflexivity|exact Hidle].
Defined.

Lemma negotiation_in_order_witness :
  let w := connected true [] in
  exists rs w',
    steps 5 accepting w = Ok rs w' /\
    rs = replicate 5 ENGINE_WANT_MORE /\
    new_calls w w' =
      [FlowControl_handleFlowCtl ENGINE_FAILED;
       Producers_control 1 noopCtrlMsg "true" ENGINE_SUCCESS;
       FlowControl_handleFlowCtl ENGINE_FAILED;
       Producers_control 2 noopIntervalCtrlMsg "1" ENGINE_SUCCESS;
       FlowControl_handleFlowCtl ENGINE_FAILED;
       Producers_control 3 priorityCtrlMsg "high" ENGINE_SUCCESS;
       FlowControl_handleFlowCtl ENGINE_FAILED;
       Producers_control 4 extMetadataCtrlMsg "true" ENGINE_SUCCESS;
       FlowControl_handleFlowCtl ENGINE_FAILED;
       Producers_control 5 cursorDroppingCtrlMsg "true" ENGINE_SUCCESS] /\
    pending_controls (cons w') = [] /\
    opaqueCounter (cons w') = 5.
Proof.
  intros w.
  apply (@negotiation_in_order collaborators accepting idle w).
  - exact idle_stays_idle.
  - vm_compute. reflexivity.
  - intros opaque key value. discriminate.
  - reflexivity.
  - reflexivity.
Defined.

Lemma noop_keeps_alive_witness :
  (exists w1,
     noop 0 negotiated = Ok ENGINE_SUCCESS w1 /\
     new_calls negotiated w1 = [] /\
     handleNoop accepting (with_clock w1 2) =
       Ok ENGINE_FAILED (with_clock w1 2)) /\
  (exists w1,
     noop 0 negotiated = Ok ENGINE_SUCCESS w1 /\
     new_calls negotiated w1 = [] /\
     handleNoop accepting (with_clock w1 3) =
       Ok ENGINE_DISCONNECT (with_clock w1 3)).
Proof.
  split.
  - apply (noop_keeps_alive accepting 0 negotiated 2).
    + reflexivity.
    + reflexivity.
    + vm_compute. split; discriminate.
    + reflexivity.
    + vm_compute. split; [discriminate|reflexivity].
  - apply (noop_keeps_alive accepting 0 negotiated 3).
    + reflexivity.
    + reflexivity.
    + vm_compute. split; discriminate.
    + reflexivity.
    + vm_compute. split; [discriminate|reflexivity].
Defined.

Lemma closeAllStreams_disconnects_witness :
  let w := requested [] in
  exists w',
    closeAllStreams (config false) w = Ok tt w' /\
    streams (cons w') = disconnected_slot <$> streams (cons w) /\
    new_calls w w' = [Stream_setDead 0%N END_STREAM_DISCONNECTED] /\
    credits (new_calls w w') = [] /\
    flowControl (cons w') = flowControl (cons w) /\
    ready (cons w') = ready (cons w) /\
    opaqueMap_ (cons w') = opaqueMap_ (cons w) /\
    disconnect (cons w') = disconnect (cons w).
Proof.
  intros w.
  apply (proj1 (closeAllStreams_disconnects (config false) w)).
  reflexivity.
Defined.

Lemma consumer_stays_in_bounds_witness :
  let w := world_of (invoke (Call_addStream 7 0%N 0) (connected false [])) in
  let r := invoke (Call_handleResponse (stream_response 1 0 true)) w in
  in_bounds w /\
  in_bounds (world_of r) /\
  length (streams (cons (world_of r))) = length (streams (cons w)) /\
  disconnect (cons (world_of r)) = disconnect (cons w) /\
  is_out_of_bounds r = false.
Proof.
  intros w r.
  destruct consumer_stays_in_bounds as (Hnew & Hcall & _).
  assert (in_bounds w) as Hw.
  { apply (Hcall (Call_addStream 7 0%N 0) (connected false [])).
    apply Hnew. }
  split; [exact Hw|].
  destruct (Hcall (Call_handleResponse (stream_response 1 0 true)) w Hw)
    as (Hb & Hlen & Hd & Hsafe).
  split; [exact Hb|]. split; [exact Hlen|]. split; [exact Hd|].
  apply Hsafe. intros vb Hvb. discriminate Hvb.
Defined.

Lemma no_stream_present_after_teardown_witness :
  let w := requested [] in
  exists w',
    closeAllStreams (config false) w = Ok tt w' /\
    isStreamPresent 0%N w' = Ok false w'.
Proof.
  intros w.
  apply (no_stream_present_after_teardown (config false) w 0%N).
  - intros s status. reflexivity.
  - reflexivity.
Defined.

Lemma rollback_task_failures_witness :
  let task := mkRollbackTask 1 0%N 42 in
  let w := requested_over_store [ENGINE_FAILED] in
  let w' :=
    with_calls
      (with_engine w
         {| vbuckets := [(0%N, empty_replica); (1%N, empty_replica)];
            rollback_script := []; message_script := [] |})
      (calls w ++ [EpStore_rollback 0%N 42 ENGINE_FAILED]) in
  RollbackTask_run task w = Raise logic_error w'.
Proof.
  intros task w w'.
  apply (proj1 (rollback_task_failures task w)).
  - discriminate.
  - discriminate.
  - discriminate.
Defined.

(** The stream of partition 0 is pending under the opaque 1; closing a
    stream of partition 1 under that opaque finds none, and the answer to
    the stream request of partition 0 is unknown afterwards. *)
Lemma closeStream_forgets_registration_witness :
  let w := requested [] in
  let resp := stream_response 1 0 true in
  opaqueMap_ (cons w) !! 1 = Some (7, 0%N) /\
  exists w',
    closeStream 1 1%N w = Ok ENGINE_KEY_ENOENT w' /\
    opaqueMap_ (cons w') !! 1 = None /\
    handleResponse resp w' = Ok ENGINE_KEY_ENOENT w'.
Proof.
  intros w resp. split; [reflexivity|].
  apply (closeStream_forgets_registration 1 1%N resp w None).
  - reflexivity.
  - reflexivity.
  - reflexivity.
Defined.

Lemma closed_stream_refuses_messages_witness :
  let w := reading [] in
  let c := a_mutation 11 [] in
  exists w1 w2,
    closeStream 7 0%N w = Ok ENGINE_SUCCESS w1 /\
    invoke c w1 = Ok ENGINE_KEY_ENOENT w2 /\
    new_calls w1 w2 = [FlowControl_incrFreedBytes 67] /\
    streams (cons w2) = streams (cons w1).
Proof.
  intros w c.
  apply (closed_stream_refuses_messages c 67 1 7 0%N w reading_stream).
  - intros s status. reflexivity.
  - reflexivity.
  - reflexivity.
  - reflexivity.
  - reflexivity.
  - reflexivity.
Defined.

Lemma registrations_stay_fresh_witness :
  let w := world_of (invoke (Call_addStream 7 0%N 0) (connected false [])) in
  let w' := world_of (invoke (Call_addStream 8 1%N 0) w) in
  fresh w /\ fresh w' /\
  opaqueCounter (cons w) <= opaqueCounter (cons w')
    <= opaqueCounter (cons w) + 1 /\
  (forall k v v',
     opaqueMap_ (cons w) !! k = Some v ->
     opaqueMap_ (cons w') !! k = Some v' -> v = v') /\
  opaqueMap_ (cons w) !! 2 = None.
Proof.
  intros w w'.
  destruct registrations_stay_fresh as (Hnew & Hcall & Hnext).
  assert (fresh w) as Hw.
  { apply (Hcall (Call_addStream 7 0%N 0) (connected false [])).
    - apply Hnew.
    - reflexivity. }
  split; [exact Hw|].
  split; [|split; [|split]].
  - apply (Hcall (Call_addStream 8 1%N 0) w Hw). reflexivity.
  - apply (Hcall (Call_addStream 8 1%N 0) w Hw). reflexivity.
  - apply (Hcall (Call_addStream 8 1%N 0) w Hw). reflexivity.
  - apply (Hnext w Hw). reflexivity.
Defined.

Lemma step_default_case_unreachable_witness :
  let w := request_due in
  let w1 := world_of (flowControl_handleFlowCtl accepting (walked w)) in
  let w7 := world_of (getNextItem w1) in
  getNextItem w1 =
    Ok (Some (StreamRequest 0%N 1 0 0 (2 ^ 64 - 1) 4369 0 0)) w7 /\
  step accepting w =
    Ok ENGINE_WANT_MORE
      (with_calls w7
         (calls w7 ++
          [Producers_stream_req 1 0%N 0 0 (2 ^ 64 - 1) 4369 0 0
             ENGINE_SUCCESS])).
Proof.
  intros w w1 w7.
  assert (getNextItem w1 =
            Ok (Some (StreamRequest 0%N 1 0 0 (2 ^ 64 - 1) 4369 0 0)) w7)
    as Hnext by (vm_compute; reflexivity).
  split; [exact Hnext|].
  refine (proj2 (step_default_case_unreachable accepting w w1 w1 w1 w1 w1 w1
                   w7 _ _ _ _ _ _ _ _ Hnext)); vm_compute; reflexivity.
Defined.

End OnScriptedCollaborators.
